(** * The QEMU block driver (block.c): raw images and copy-on-write overlays

    A shallow embedding of [block.c] and the properties of its open, read,
    write and commit paths.

    - C integers are [Z]; every C expression whose type is narrower than
      [Z] is wrapped to its width ([to_int], [to_int64], [to_uint8], ...).
      The host is taken to be LP64: [size_t], [ssize_t] and [time_t] have
      64 bits.
    - Memory reached through [uint8_t *] is a [list Z] of bytes together
      with an index into it.
    - The operating system (descriptors, files, names, the stderr stream)
      is an explicit [world] threaded through every call.
    - What [vl.h] fixes (the container signature and the layout of its
      header) is a parameter of [bdrv_open].

    The model comes first, then the properties; the theorem of each claim
    C1 to C10 carries the claim's number in its comment. *)

From Stdlib Require Import ZArith Lia Ascii String.
From stdpp Require Import base tactics option list numbers.

Local Open Scope Z_scope.

(** ** Machine integers *)

Module CInt.

(** Two's complement value of [z] on [bits] bits. *)
Definition wrap_signed (bits z : Z) : Z :=
  (z + 2 ^ (bits - 1)) mod 2 ^ bits - 2 ^ (bits - 1).

Definition to_int (z : Z) : Z := wrap_signed 32 z.
Definition to_int64 (z : Z) : Z := wrap_signed 64 z.
Definition to_uint8 (z : Z) : Z := z mod 2 ^ 8.
Definition to_uint32 (z : Z) : Z := z mod 2 ^ 32.
Definition to_uint64 (z : Z) : Z := z mod 2 ^ 64.
(** [size_t] and [ssize_t] of an LP64 host. *)
Definition to_size_t (z : Z) : Z := to_uint64 z.

Definition INT_MAX : Z := 2 ^ 31 - 1.
Definition INT_MIN : Z := - 2 ^ 31.
Definition INT64_MAX : Z := 2 ^ 63 - 1.
Definition INT64_MIN : Z := - 2 ^ 63.

Definition in_int (z : Z) : Prop := INT_MIN <= z <= INT_MAX.
Definition in_int64 (z : Z) : Prop := INT64_MIN <= z <= INT64_MAX.

(** [x << n] and [x >> n] on a signed operand. *)
Definition shl (x n : Z) : Z := Z.shiftl x n.
Definition shr (x n : Z) : Z := Z.shiftr x n.

(** [!!x] *)
Definition notnot (x : Z) : Z := if x =? 0 then 0 else 1.

End CInt.
Import CInt.

(** ** Byte memory behind a [uint8_t *]

    A store outside the region and a load outside it are outside what C
    defines; the model drops the store and loads 0. *)

Definition load8 (mem : list Z) (a : Z) : Z :=
  if a <? 0 then 0 else default 0 (mem !! Z.to_nat a).

Definition store8 (mem : list Z) (a : Z) (v : Z) : list Z :=
  if a <? 0 then mem else <[Z.to_nat a := v]> mem.

(** [memcpy]-like store of [data] at index [a] of [mem]; bytes that fall
    outside [mem] are dropped. *)
Definition store_bytes (mem : list Z) (a : Z) (data : list Z) : list Z :=
  if a <? 0 then mem else list_inserts (Z.to_nat a) data mem.

(** [memset(mem + a, c, n)] *)
Definition memset (mem : list Z) (a : Z) (c : Z) (n : Z) : list Z :=
  store_bytes mem a (replicate (Z.to_nat n) (to_uint8 c)).

(** ** The dirty bitmap: [set_bit], [is_bit_set], [is_changed]

    [bitmap] is the index in [mem] the C pointer points to. *)

(** [bitmap[bitnum / 8] |= (1 << (bitnum%8));] *)
Definition set_bit (mem : list Z) (bitmap : Z) (bitnum : Z) : list Z :=
  let a := bitmap + bitnum ÷ 8 in
  store8 mem a
    (to_uint8 (Z.lor (load8 mem a) (to_int (shl 1 (Z.rem bitnum 8))))).

(** [return !!(bitmap[bitnum / 8] & (1 << (bitnum%8)));] *)
Definition is_bit_set (mem : list Z) (bitmap : Z) (bitnum : Z) : Z :=
  notnot (Z.land (load8 mem (bitmap + bitnum ÷ 8))
                 (to_int (shl 1 (Z.rem bitnum 8)))).

(** The [for] loop of [is_changed]: [num_same] counts up by one while
    [num_same < nb_sectors]; [todo] is the number of values of [num_same]
    still below [nb_sectors], so the loop test is [todo <> 0]. *)
Fixpoint is_changed_scan (mem : list Z) (bitmap sector_num changed : Z)
    (todo : nat) (num_same : Z) : Z :=
  match todo with
  | O => num_same
  | S todo' =>
      if is_bit_set mem bitmap (to_int64 (sector_num + num_same)) =? changed
      then is_changed_scan mem bitmap sector_num changed todo' (num_same + 1)
      else num_same (* break *)
  end.

(** [is_changed] returns [(changed, *num_same)]. *)
Definition is_changed (mem : list Z) (bitmap : option Z)
    (sector_num nb_sectors : Z) : Z * Z :=
  match bitmap with
  | None => (0, nb_sectors)
  | Some p =>
      if nb_sectors =? 0 then (0, nb_sectors)
      else
        let changed := is_bit_set mem p sector_num in
        (changed,
         is_changed_scan mem p sector_num changed
           (Z.to_nat (nb_sectors - 1)) 1)
  end.

(** ** [struct BlockDriverState] *)

Record BlockDriverState := mkBDS {
  fd : Z;                      (* if -1, only COW mappings *)
  total_sectors : Z;
  read_only : Z;
  cow_bitmap : option Z;       (* NULL, or cow_bitmap_addr + k as [Some k] *)
  cow_bitmap_addr : list Z;    (* the bytes mapped at cow_bitmap_addr *)
  cow_bitmap_size : Z;
  cow_fd : Z;
  cow_sectors_offset : Z;
  filename : string            (* what strcpy stored from filename[0] on *)
}.

(** Capacity of [char filename[1024]]. *)
Definition FILENAME_CAPACITY : Z := 1024.

Definition with_fd (v : Z) (bs : BlockDriverState) : BlockDriverState :=
  mkBDS v (total_sectors bs) (read_only bs) (cow_bitmap bs)
        (cow_bitmap_addr bs) (cow_bitmap_size bs) (cow_fd bs)
        (cow_sectors_offset bs) (filename bs).
Definition with_total_sectors (v : Z) (bs : BlockDriverState) :=
  mkBDS (fd bs) v (read_only bs) (cow_bitmap bs)
        (cow_bitmap_addr bs) (cow_bitmap_size bs) (cow_fd bs)
        (cow_sectors_offset bs) (filename bs).
Definition with_read_only (v : Z) (bs : BlockDriverState) :=
  mkBDS (fd bs) (total_sectors bs) v (cow_bitmap bs)
        (cow_bitmap_addr bs) (cow_bitmap_size bs) (cow_fd bs)
        (cow_sectors_offset bs) (filename bs).
Definition with_cow_bitmap (v : option Z) (bs : BlockDriverState) :=
  mkBDS (fd bs) (total_sectors bs) (read_only bs) v
        (cow_bitmap_addr bs) (cow_bitmap_size bs) (cow_fd bs)
        (cow_sectors_offset bs) (filename bs).
Definition with_cow_bitmap_addr (v : list Z) (bs : BlockDriverState) :=
  mkBDS (fd bs) (total_sectors bs) (read_only bs) (cow_bitmap bs)
        v (cow_bitmap_size bs) (cow_fd bs)
        (cow_sectors_offset bs) (filename bs).
Definition with_cow_bitmap_size (v : Z) (bs : BlockDriverState) :=
  mkBDS (fd bs) (total_sectors bs) (read_only bs) (cow_bitmap bs)
        (cow_bitmap_addr bs) v (cow_fd bs)
        (cow_sectors_offset bs) (filename bs).
Definition with_cow_fd (v : Z) (bs : BlockDriverState) :=
  mkBDS (fd bs) (total_sectors bs) (read_only bs) (cow_bitmap bs)
        (cow_bitmap_addr bs) (cow_bitmap_size bs) v
        (cow_sectors_offset bs) (filename bs).
Definition with_cow_sectors_offset (v : Z) (bs : BlockDriverState) :=
  mkBDS (fd bs) (total_sectors bs) (read_only bs) (cow_bitmap bs)
        (cow_bitmap_addr bs) (cow_bitmap_size bs) (cow_fd bs)
        v (filename bs).
Definition with_filename (v : string) (bs : BlockDriverState) :=
  mkBDS (fd bs) (total_sectors bs) (read_only bs) (cow_bitmap bs)
        (cow_bitmap_addr bs) (cow_bitmap_size bs) (cow_fd bs)
        (cow_sectors_offset bs) v.

(** ** The operating system

    Files are inodes holding bytes; names bind paths to inodes; a
    descriptor is an index in the table of open files, each with its own
    position.  [w_stderr] collects what the driver prints. *)

Record inode := mkInode {
  i_data : list Z;
  i_mtime : Z;
  i_readable : bool;
  i_writable : bool
}.

Record ofile := mkOfile {
  o_ino : nat;
  o_rdwr : bool;        (* opened O_RDWR, else O_RDONLY *)
  o_pos : Z
}.

Inductive diag : Type :=
| Perror (path : string)
| Could_not_read_header (path : string)
| Could_not_find_original (path backing : string)
| Timestamp_mismatch (path backing : string)
| Already_committed (path : string)
| Cant_commit_read_only (path : string)
| Error_reading_sector (i : Z)
| Error_writing_sector (i : Z)
| Committed_snapshot (path : string).

Record world := mkWorld {
  w_inodes : list inode;
  w_names : list (string * nat);
  w_fds : list (option ofile);
  w_stderr : list diag;
  (* what the next malloc(sizeof(BlockDriverState)) returns: NULL, or a
     block with its indeterminate contents *)
  w_malloc : option BlockDriverState;
  (* whether the next mmap finds address space *)
  w_mmap_ok : bool;
  (* the name the next mkstemp picks for its template, if it finds one *)
  w_mkstemp : option string
}.

Definition with_inodes (v : list inode) (w : world) : world :=
  mkWorld v (w_names w) (w_fds w) (w_stderr w) (w_malloc w) (w_mmap_ok w)
          (w_mkstemp w).
Definition with_names (v : list (string * nat)) (w : world) : world :=
  mkWorld (w_inodes w) v (w_fds w) (w_stderr w) (w_malloc w) (w_mmap_ok w)
          (w_mkstemp w).
Definition with_fds (v : list (option ofile)) (w : world) : world :=
  mkWorld (w_inodes w) (w_names w) v (w_stderr w) (w_malloc w) (w_mmap_ok w)
          (w_mkstemp w).
(** [fprintf(stderr, ...)] and [perror] *)
Definition eprint (d : diag) (w : world) : world :=
  mkWorld (w_inodes w) (w_names w) (w_fds w) (w_stderr w ++ [d]) (w_malloc w)
          (w_mmap_ok w) (w_mkstemp w).

Module Sys.

Definition get_ofile (w : world) (fd : Z) : option ofile :=
  if fd <? 0 then None else mjoin (w_fds w !! Z.to_nat fd).

Definition set_ofile (w : world) (fd : Z) (o : option ofile) : world :=
  with_fds (<[Z.to_nat fd := o]> (w_fds w)) w.

(** The file an open descriptor refers to. *)
Definition file_of (w : world) (fd : Z) : option inode :=
  o ← get_ofile w fd; w_inodes w !! o_ino o.

Fixpoint lookup_name (names : list (string * nat)) (path : string)
  : option nat :=
  match names with
  | [] => None
  | (n, i) :: rest =>
      if String.eqb n path then Some i else lookup_name rest path
  end.

Fixpoint remove_name (names : list (string * nat)) (path : string)
  : list (string * nat) :=
  match names with
  | [] => []
  | (n, i) :: rest =>
      if String.eqb n path then rest else (n, i) :: remove_name rest path
  end.

(** Lowest free slot of the descriptor table. *)
Fixpoint alloc_fd (fds : list (option ofile)) (o : ofile)
  : nat * list (option ofile) :=
  match fds with
  | [] => (O, [Some o])
  | None :: rest => (O, Some o :: rest)
  | Some x :: rest =>
      let '(k, rest') := alloc_fd rest o in (S k, Some x :: rest')
  end.

(** [open(path, O_RDWR | O_LARGEFILE)] when [rdwr], else
    [open(path, O_RDONLY | O_LARGEFILE)]. *)
Definition open (w : world) (path : string) (rdwr : bool) : Z * world :=
  match lookup_name (w_names w) path with
  | None => (-1, w)
  | Some ino =>
      match w_inodes w !! ino with
      | None => (-1, w)
      | Some f =>
          if i_readable f && (negb rdwr || i_writable f) then
            let '(k, fds) := alloc_fd (w_fds w) (mkOfile ino rdwr 0) in
            (Z.of_nat k, with_fds fds w)
          else (-1, w)
      end
  end.

Definition close (w : world) (fd : Z) : world :=
  match get_ofile w fd with
  | None => w
  | Some _ => set_ofile w fd None
  end.

(** [read(fd, buf, count)]: the return value, the bytes delivered and
    the new world. *)
Definition read (w : world) (fd : Z) (count : Z) : Z * list Z * world :=
  match get_ofile w fd with
  | None => (-1, [], w)
  | Some o =>
      match w_inodes w !! o_ino o with
      | None => (-1, [], w)
      | Some f =>
          let data :=
            take (Z.to_nat count) (drop (Z.to_nat (o_pos o)) (i_data f)) in
          let n := Z.of_nat (length data) in
          (n, data,
           set_ofile w fd (Some (mkOfile (o_ino o) (o_rdwr o) (o_pos o + n))))
      end
  end.

(** Bytes of a file after [data] is written at [pos]; a gap beyond the
    old end reads as zeros. *)
Definition overwrite (old : list Z) (pos : nat) (data : list Z) : list Z :=
  match data with
  | [] => old
  | _ => resize pos 0 old ++ data ++ drop (pos + length data) old
  end.

(** [write(fd, buf, count)] *)
Definition write (w : world) (fd : Z) (buf : list Z) (count : Z)
  : Z * world :=
  match get_ofile w fd with
  | None => (-1, w)
  | Some o =>
      if o_rdwr o then
        match w_inodes w !! o_ino o with
        | None => (-1, w)
        | Some f =>
            let data := take (Z.to_nat count) buf in
            let n := Z.of_nat (length data) in
            let f' := mkInode (overwrite (i_data f) (Z.to_nat (o_pos o)) data)
                              (i_mtime f) (i_readable f) (i_writable f) in
            (n,
             set_ofile (with_inodes (<[o_ino o := f']> (w_inodes w)) w) fd
               (Some (mkOfile (o_ino o) (o_rdwr o) (o_pos o + n))))
        end
      else (-1, w)
  end.

(** [lseek64(fd, offset, SEEK_SET)].  The model has no file system limit
    on offsets: a seek to an offset that is not negative succeeds, as it
    does on the host for every offset inside the file. *)
Definition lseek64_set (w : world) (fd : Z) (offset : Z) : Z * world :=
  match get_ofile w fd with
  | None => (-1, w)
  | Some o =>
      if offset <? 0 then (-1, w)
      else (offset,
            set_ofile w fd (Some (mkOfile (o_ino o) (o_rdwr o) offset)))
  end.

(** [lseek64(fd, 0, SEEK_END)] *)
Definition lseek64_end (w : world) (fd : Z) : Z * world :=
  match get_ofile w fd with
  | None => (-1, w)
  | Some o =>
      match w_inodes w !! o_ino o with
      | None => (-1, w)
      | Some f =>
          let n := Z.of_nat (length (i_data f)) in
          (n, set_ofile w fd (Some (mkOfile (o_ino o) (o_rdwr o) n)))
      end
  end.

(** [stat(path, &st)]: [st.st_mtime] on success. *)
Definition stat (w : world) (path : string) : option Z :=
  ino ← lookup_name (w_names w) path;
  f ← w_inodes w !! ino;
  Some (i_mtime f).

(** [mkstemp(template)]: the descriptor and the name written back into
    [template]. *)
Definition mkstemp (w : world) (template : string) : Z * string * world :=
  match w_mkstemp w with
  | None => (-1, template, w)
  | Some name =>
      let ino := length (w_inodes w) in
      let '(k, fds) := alloc_fd (w_fds w) (mkOfile ino true 0) in
      (Z.of_nat k, name,
       with_fds fds
         (with_names ((name, ino) :: w_names w)
            (with_inodes (w_inodes w ++ [mkInode [] 0 true true]) w)))
  end.

Definition unlink (w : world) (path : string) : world :=
  with_names (remove_name (w_names w) path) w.

(** [mmap(addr, len, PROT_READ | PROT_WRITE, MAP_SHARED, fd, 0)]: the
    mapped bytes, or [None] for MAP_FAILED.  The handle gets the first
    [len] bytes of the file as they are at the time of the call; what is
    stored through the mapping later is kept in the handle and not carried
    to the file. *)
Definition mmap_shared (w : world) (len : Z) (fd : Z) : option (list Z) :=
  match get_ofile w fd with
  | None => None
  | Some o =>
      if w_mmap_ok w && o_rdwr o && (0 <? len) then
        f ← w_inodes w !! o_ino o;
        Some (resize (Z.to_nat len) 0 (i_data f))
      else None
  end.

(** [mmap(addr, len, PROT_READ | PROT_WRITE, MAP_PRIVATE | MAP_ANONYMOUS,
    -1, 0)] *)
Definition mmap_anon (w : world) (len : Z) : option (list Z) :=
  if w_mmap_ok w && (0 <? len) then Some (replicate (Z.to_nat len) 0)
  else None.

Definition malloc (w : world) : option BlockDriverState := w_malloc w.

End Sys.

(** ** [bdrv_close] *)

(** What [bdrv_close] does to descriptors: the two [close] calls.
    [munmap] and [free] act on the address space of the process, which the
    world does not hold; [munmap] is called on [cow_bitmap_addr] whether or
    not [bdrv_open] has set it, and nothing below speaks of memory after
    [bdrv_close]. *)
Definition bdrv_close (bs : BlockDriverState) (w : world) : world :=
  let w1 := if cow_fd bs >=? 0 then Sys.close w (cow_fd bs) else w in
  if fd bs >=? 0 then Sys.close w1 (fd bs) else w1.

(** ** [bdrv_read]

    The caller's buffer is the byte memory [mem] and the index [buf] in it.
    The result is the return value, the memory and the world afterwards;
    [None] means the [while] loop was cut off after [fuel] rounds. *)

(** The descriptor and the base offset chosen for the run at [sector_num],
    and the run length [n]. *)
Definition read_source (bs : BlockDriverState) (sector_num nb_sectors : Z)
  : Z * Z * Z :=
  let '(changed, n) :=
    is_changed (cow_bitmap_addr bs) (cow_bitmap bs) sector_num nb_sectors in
  if negb (changed =? 0) then (cow_fd bs, cow_sectors_offset bs, n)
  else (fd bs, 0, n).

Fixpoint bdrv_read_loop (fuel : nat) (bs : BlockDriverState) (w : world)
    (sector_num : Z) (mem : list Z) (buf : Z) (nb_sectors : Z)
  : option (Z * list Z * world) :=
  if nb_sectors >? 0 then
    match fuel with
    | O => None
    | S fuel' =>
        let '(fd, offset, n) := read_source bs sector_num nb_sectors in
        if fd <? 0 then
          (* no file, just return empty sectors *)
          let mem' := memset mem buf 0 (to_size_t (to_int (n * 512))) in
          bdrv_read_loop fuel' bs w (to_int64 (sector_num + n)) mem'
            (buf + to_int (n * 512)) (to_int (nb_sectors - n))
        else
          let offset := to_int64 (offset + to_int64 (sector_num * 512)) in
          let '(_, w1) := Sys.lseek64_set w fd offset in
          let '(r, data, w2) :=
            Sys.read w1 fd (to_size_t (to_int (n * 512))) in
          let mem' := store_bytes mem buf data in
          if negb (to_int r =? to_int (n * 512)) then Some (-1, mem', w2)
          else
            bdrv_read_loop fuel' bs w2 (to_int64 (sector_num + n)) mem'
              (buf + to_int (n * 512)) (to_int (nb_sectors - n))
    end
  else Some (0, mem, w).

Definition bdrv_read (bs : BlockDriverState) (w : world) (sector_num : Z)
    (mem : list Z) (buf : Z) (nb_sectors : Z) : option (Z * list Z * world) :=
  bdrv_read_loop (Z.to_nat nb_sectors) bs w sector_num mem buf nb_sectors.

(** ** [bdrv_write] *)

(** [for (i = 0; i < nb_sectors; i++) set_bit(bitmap, sector_num + i);]
    with [todo] the number of values of [i] still below [nb_sectors]. *)
Fixpoint set_bits (mem : list Z) (bitmap sector_num : Z) (todo : nat) (i : Z)
  : list Z :=
  match todo with
  | O => mem
  | S todo' =>
      set_bits (set_bit mem bitmap (to_int64 (sector_num + i)))
               bitmap sector_num todo' (i + 1)
  end.

(** The descriptor and the base offset [bdrv_write] chooses. *)
Definition write_target (bs : BlockDriverState) : Z * Z :=
  match cow_bitmap bs with
  | Some _ => (cow_fd bs, cow_sectors_offset bs)
  | None => (fd bs, 0)
  end.

(** The source buffer is the memory [mem] from index [buf] on. *)
Definition bdrv_write (bs : BlockDriverState) (w : world) (sector_num : Z)
    (mem : list Z) (buf : Z) (nb_sectors : Z)
  : Z * BlockDriverState * world :=
  if negb (read_only bs =? 0) then (-1, bs, w)
  else
    let '(fd, offset) := write_target bs in
    let offset := to_int64 (offset + to_int64 (sector_num * 512)) in
    let '(retl, w1) := Sys.lseek64_set w fd offset in
    if retl =? -1 then (-1, bs, w1)
    else
      let '(r, w2) :=
        Sys.write w1 fd (drop (Z.to_nat buf) mem)
                  (to_size_t (to_int (nb_sectors * 512))) in
      if negb (to_int r =? to_int (nb_sectors * 512)) then (-1, bs, w2)
      else
        match cow_bitmap bs with
        | Some p =>
            (0,
             with_cow_bitmap_addr
               (set_bits (cow_bitmap_addr bs) p sector_num
                         (Z.to_nat nb_sectors) 0) bs,
             w2)
        | None => (0, bs, w2)
        end.

(** ** [bdrv_commit] *)

(** [unsigned char sector[512]]: bdrv_read overwrites all of it before it
    is used, so its first contents do not matter. *)
Definition sector_array : list Z := replicate 512 0.

(** The [for (i = 0; i < bs->total_sectors; i++)] loop; [cow_bitmap] is the
    local copy of the pointer and [todo] counts the values of [i] still
    below [total_sectors]. *)
Fixpoint bdrv_commit_loop (todo : nat) (cow_bitmap : Z) (i : Z)
    (bs : BlockDriverState) (w : world)
  : option (Z * BlockDriverState * world) :=
  match todo with
  | O => Some (0, bs, eprint (Committed_snapshot (filename bs)) w)
  | S todo' =>
      if negb (is_bit_set (cow_bitmap_addr bs) cow_bitmap i =? 0) then
        match bdrv_read bs w i sector_array 0 1 with
        | None => None
        | Some (r, sector, w1) =>
            if negb (r =? 0) then
              Some (-1, bs, eprint (Error_reading_sector i) w1)
            else
              (* Make bdrv_write write to real file for a moment. *)
              let bs1 := with_cow_bitmap None bs in
              let '(r2, bs2, w2) := bdrv_write bs1 w1 i sector 0 1 in
              if negb (r2 =? 0) then
                Some (-1, with_cow_bitmap (Some cow_bitmap) bs2,
                      eprint (Error_writing_sector i) w2)
              else
                bdrv_commit_loop todo' cow_bitmap (i + 1)
                  (with_cow_bitmap (Some cow_bitmap) bs2) w2
        end
      else bdrv_commit_loop todo' cow_bitmap (i + 1) bs w
  end.

Definition bdrv_commit (bs : BlockDriverState) (w : world)
  : option (Z * BlockDriverState * world) :=
  match cow_bitmap bs with
  | None => Some (0, bs, eprint (Already_committed (filename bs)) w)
  | Some cow_bitmap =>
      if negb (read_only bs =? 0) then
        Some (-1, bs, eprint (Cant_commit_read_only (filename bs)) w)
      else
        bdrv_commit_loop (Z.to_nat (total_sectors bs)) cow_bitmap 0 bs w
  end.

(** ** [bdrv_get_geometry] *)

Definition bdrv_get_geometry (bs : BlockDriverState) : Z := total_sectors bs.

(** ** [bdrv_open] *)

(** Big- and little-endian value of a byte string. *)
Definition be_decode (bytes : list Z) : Z :=
  fold_left (fun acc b => acc * 256 + b) bytes 0.

Fixpoint le_decode (bytes : list Z) : Z :=
  match bytes with
  | [] => 0
  | b :: rest => b + 256 * le_decode rest
  end.

Definition bswap32 (x : Z) : Z :=
  (x mod 256) * 2 ^ 24 + (x / 2 ^ 8 mod 256) * 2 ^ 16
  + (x / 2 ^ 16 mod 256) * 2 ^ 8 + (x / 2 ^ 24 mod 256).

Definition bswap64 (x : Z) : Z :=
  bswap32 (x mod 2 ^ 32) * 2 ^ 32 + bswap32 (x / 2 ^ 32 mod 2 ^ 32).

(** The characters of a [char] array up to its first NUL. *)
Fixpoint c_string (bytes : list Z) : string :=
  match bytes with
  | [] => EmptyString
  | b :: rest =>
      if b =? 0 then EmptyString
      else String (ascii_of_N (Z.to_N b)) (c_string rest)
  end.

(** Number of bytes [strcpy(dst, src)] stores at [dst]: the characters and
    the closing NUL. *)
Definition strcpy_stores (src : string) : Z :=
  Z.of_nat (String.length src) + 1.

Definition bytes_ok (bytes : list Z) : Prop :=
  Forall (fun b => 0 <= b < 256) bytes.

(** [goto fail] against falling through to the next statement. *)
Inductive outcome (A : Type) : Type :=
| Goto_fail (bs : BlockDriverState) (w : world)
| Go_on (a : A) (bs : BlockDriverState) (w : world).
Arguments Goto_fail {A} bs w.
Arguments Go_on {A} a bs w.

Definition and_then {A B : Type} (o : outcome A)
    (k : A -> BlockDriverState -> world -> outcome B) : outcome B :=
  match o with
  | Goto_fail bs w => Goto_fail bs w
  | Go_on a bs w => k a bs w
  end.

Record cow_header_v2 := mkHeader {
  magic : Z;
  version : Z;
  backing_file : list Z;
  mtime : Z;
  size : Z
}.

Section Open.

(** What [vl.h] and the host fix: byte order, the container signature and
    the layout of [struct cow_header_v2] ([magic] and [version] are its
    first two 32-bit fields). *)
Variable WORDS_BIGENDIAN : bool.
Variables COW_MAGIC COW_VERSION : Z.
Variable sizeof_cow_header : Z.
Variables offsetof_backing_file sizeof_backing_file : nat.
Variables offsetof_mtime offsetof_size : nat.

Definition field (raw : list Z) (off len : nat) : list Z :=
  take len (drop off raw).

(** A multi-byte field as the host reads it. *)
Definition load_host (bytes : list Z) : Z :=
  if WORDS_BIGENDIAN then be_decode bytes else le_decode bytes.

Definition htonl (x : Z) : Z :=
  if WORDS_BIGENDIAN then to_uint32 x else bswap32 (to_uint32 x).

(** Modelled from the spec: the fields of the container header, in the
    order and with the widths of the format table ([vl.h], which declares
    the struct, is not among the sources). *)
Definition load_cow_header (raw : list Z) : cow_header_v2 :=
  mkHeader (load_host (field raw 0 4))
           (load_host (field raw 4 4))
           (field raw offsetof_backing_file sizeof_backing_file)
           (load_host (field raw offsetof_mtime 4))
           (load_host (field raw offsetof_size 8)).

Definition template : string := "/tmp/vl.XXXXXX".

(** open standard HD image *)
Definition open_image (filename : string) (snapshot : Z)
    (bs : BlockDriverState) (w : world) : outcome Z :=
  let '(fd, w1) := Sys.open w filename true in
  if fd <? 0 then
    (* read only image on disk *)
    let '(fd', w2) := Sys.open w1 filename false in
    if fd' <? 0 then Goto_fail bs (eprint (Perror filename) w2)
    else
      let bs' := if snapshot =? 0 then with_read_only 1 bs else bs in
      Go_on fd' (with_fd fd' bs') w2
  else Go_on fd (with_fd fd bs) w1.

(** The backing file a container names: found, not modified since, opened
    read-only. *)
Definition open_backing (filename : string) (cow_header : cow_header_v2)
    (bs : BlockDriverState) (w : world) : outcome unit :=
  if negb (hd 0 (backing_file cow_header) =? 0) then
    let backing := c_string (backing_file cow_header) in
    match Sys.stat w backing with
    | None =>
        Goto_fail bs (eprint (Could_not_find_original filename backing) w)
    | Some st_mtime =>
        if negb (st_mtime =? htonl (mtime cow_header)) then
          Goto_fail bs (eprint (Timestamp_mismatch filename backing) w)
        else
          let '(fd, w1) := Sys.open w backing false in
          if fd <? 0 then Goto_fail bs w1
          else Go_on tt (with_fd fd bs) w1
    end
  else Go_on tt bs w.

(** mmap the bitmap *)
Definition map_bitmap (bs : BlockDriverState) (w : world) : outcome unit :=
  let bs1 :=
    with_cow_bitmap_size
      (to_int (to_uint64 (shr (to_int64 (total_sectors bs + 7)) 3
                          + sizeof_cow_header))) bs in
  match Sys.mmap_shared w (cow_bitmap_size bs1) (cow_fd bs1) with
  | None => Goto_fail (with_cow_bitmap_addr [] bs1) w
  | Some m =>
      let bs2 := with_cow_bitmap_addr m bs1 in
      let bs3 := with_cow_bitmap (Some sizeof_cow_header) bs2 in
      Go_on tt
        (with_cow_sectors_offset
           (Z.land (to_int (cow_bitmap_size bs3 + 511)) (Z.lnot 511)) bs3)
        w
  end.

(** see if it is a cow image; the result is the new value of [snapshot] *)
Definition probe_image (filename : string) (snapshot : Z) (fd : Z)
    (bs : BlockDriverState) (w : world) : outcome Z :=
  let '(r, raw, w1) := Sys.read w fd sizeof_cow_header in
  if negb (r =? sizeof_cow_header) then
    Goto_fail bs (eprint (Could_not_read_header filename) w1)
  else
    let cow_header := load_cow_header raw in
    if (magic cow_header =? htonl COW_MAGIC)
       && (version cow_header =? htonl COW_VERSION) then
      (* cow image found *)
      let size0 := to_int64 (size cow_header) in
      let size1 :=
        if WORDS_BIGENDIAN then size0
        else to_int64 (bswap64 (to_uint64 size0)) in
      let bs1 := with_fd (-1) (with_cow_fd fd
                   (with_total_sectors (size1 ÷ 512) bs)) in
      and_then (open_backing filename cow_header bs1 w1) (fun _ bs2 w2 =>
      and_then (map_bitmap bs2 w2) (fun _ bs3 w3 =>
      Go_on 0 bs3 w3))
    else
      (* standard raw image *)
      let '(size0, w2) := Sys.lseek64_end w1 fd in
      Go_on snapshot (with_fd fd (with_total_sectors (size0 ÷ 512) bs)) w2.

(** create a temporary COW file *)
Definition make_snapshot (bs : BlockDriverState) (w : world) : outcome unit :=
  let '(cow_fd, name, w1) := Sys.mkstemp w template in
  if cow_fd <? 0 then Goto_fail bs w1
  else
    let bs1 := with_cow_fd cow_fd bs in
    let w2 := Sys.unlink w1 name in
    (* just need to allocate bitmap *)
    let bs2 :=
      with_cow_bitmap_size
        (to_int (shr (to_int64 (total_sectors bs1 + 7)) 3)) bs1 in
    match Sys.mmap_anon w2 (cow_bitmap_size bs2) with
    | None => Goto_fail (with_cow_bitmap_addr [] bs2) w2
    | Some m =>
        Go_on tt
          (with_cow_sectors_offset 0
             (with_cow_bitmap (Some 0) (with_cow_bitmap_addr m bs2)))
          w2
    end.

Definition bdrv_open (filename : string) (snapshot : Z) (w : world)
  : option BlockDriverState * world :=
  match Sys.malloc w with
  | None => (None, w)
  | Some bs0 =>
      let bs :=
        with_filename filename
          (with_cow_bitmap None
             (with_cow_fd (-1) (with_fd (-1) (with_read_only 0 bs0)))) in
      let run :=
        and_then (open_image filename snapshot bs w) (fun fd bs1 w1 =>
        and_then (probe_image filename snapshot fd bs1 w1)
          (fun snapshot' bs2 w2 =>
        if negb (snapshot' =? 0) then make_snapshot bs2 w2
        else Go_on tt bs2 w2)) in
      match run with
      | Goto_fail bs' w' => (None, bdrv_close bs' w')
      | Go_on _ bs' w' => (Some bs', w')
      end
  end.

(** [filename] names a file that starts with a container header: [raw],
    the first [sizeof(cow_header)] bytes of the file, carries the
    signature and the supported version in network byte order. *)
Definition cow_container (w : world) (filename : string) (raw : list Z)
  : Prop :=
  exists ino f,
    Sys.lookup_name (w_names w) filename = Some ino
    /\ w_inodes w !! ino = Some f
    /\ sizeof_cow_header <= Z.of_nat (length (i_data f))
    /\ raw = take (Z.to_nat sizeof_cow_header) (i_data f)
    /\ bytes_ok raw
    /\ be_decode (field raw 0 4) = COW_MAGIC
    /\ be_decode (field raw 4 4) = COW_VERSION.

(** The path in the [backing_file] field and the time in the [mtime] field
    of a header, as the format stores them. *)
Definition named_backing (raw : list Z) : string :=
  c_string (field raw offsetof_backing_file sizeof_backing_file).

Definition stored_mtime (raw : list Z) : Z :=
  be_decode (field raw offsetof_mtime 4).

End Open.

(** ** Notions the properties are stated with *)

(** The dirty bitmap has a bit for every sector of the device: it starts at
    index [p] of the mapping and the mapping is long enough. *)
Definition bitmap_covers (bs : BlockDriverState) (p : Z) : Prop :=
  0 <= p
  /\ total_sectors bs <= INT64_MAX
  /\ p + (total_sectors bs + 7) / 8 <= Z.of_nat (length (cow_bitmap_addr bs)).

(** Two descriptors that refer to one file. *)
Definition same_file (w : world) (fd1 fd2 : Z) : Prop :=
  exists o1 o2,
    Sys.get_ofile w fd1 = Some o1 /\ Sys.get_ofile w fd2 = Some o2
    /\ o_ino o1 = o_ino o2.

(** [touches fd w w']: going from [w] to [w'] changed at most the open
    file behind [fd] and the bytes of the file it refers to. *)
Record touches (fd : Z) (w w' : world) : Prop := mkTouches {
  t_others : forall d, d <> fd -> Sys.get_ofile w' d = Sys.get_ofile w d;
  t_same_ino : forall o, Sys.get_ofile w fd = Some o ->
    exists o', Sys.get_ofile w' fd = Some o'
               /\ o_ino o' = o_ino o /\ o_rdwr o' = o_rdwr o;
  t_closed : Sys.get_ofile w fd = None -> w' = w;
  t_inodes : forall ino,
    (forall o, Sys.get_ofile w fd = Some o -> o_ino o <> ino) ->
    w_inodes w' !! ino = w_inodes w !! ino;
  t_names : w_names w' = w_names w;
  t_stderr : w_stderr w' = w_stderr w
}.

(** A request that stays inside the caller's buffer and whose sizes fit
    the C types they are computed in. *)
Definition request_fits (mem : list Z) (buf nb_sectors : Z) : Prop :=
  nb_sectors * 512 <= INT_MAX
  /\ 0 <= buf
  /\ buf + nb_sectors * 512 <= Z.of_nat (length mem).

(** Sector [i] is not in the overlay: there is no bitmap, or its bit is
    clear. *)
Definition clean (bs : BlockDriverState) (i : Z) : Prop :=
  match cow_bitmap bs with
  | None => True
  | Some p => is_bit_set (cow_bitmap_addr bs) p i = 0
  end.

(** ** Machines to run the driver on *)

(** A handle with neither bitmap nor backing file, and a world with no
    file at all. *)
Definition blank_handle : BlockDriverState :=
  mkBDS (-1) 8 0 None [] 0 (-1) 0 "blank".

Definition empty_world : world := mkWorld [] [] [] [] None true None.

(** One raw image of three sectors, [disk.img], whose sector [k] holds the
    byte [k + 1] throughout. *)
Definition disk_image : list Z :=
  replicate 512 1 ++ replicate 512 2 ++ replicate 512 3.

Definition disk_world (readable writable : bool) : world :=
  mkWorld [mkInode disk_image 1000 readable writable]
          [("disk.img"%string, O)] [] []
          (Some (mkBDS 0 0 0 None [] 0 0 0 EmptyString)) true
          (Some "/tmp/vl.a1b2c3"%string).

(** The handle and the world after [bdrv_open("disk.img", 0)] on a
    [disk.img] that cannot be written: descriptor 0, opened read-only. *)
Definition ro_handle : BlockDriverState :=
  mkBDS 0 3 1 None [] 0 (-1) 0 "disk.img".

Definition ro_world : world :=
  with_fds [Some (mkOfile 0 false 1536)] (disk_world true false).

(** The handle and the world after [bdrv_open("disk.img", 1)] on a writable
    [disk.img]: descriptor 0 is the image, descriptor 1 the unlinked
    temporary COW file, and the bitmap is one byte long. *)
Definition snap_handle : BlockDriverState :=
  mkBDS 0 3 0 (Some 0) [0] 1 1 0 "disk.img".

Definition snap_world : world :=
  mkWorld [mkInode disk_image 1000 true true; mkInode [] 0 true true]
          [("disk.img"%string, O)]
          [Some (mkOfile 0 true 1536); Some (mkOfile 1 true 0)] []
          (Some (mkBDS 0 0 0 None [] 0 0 0 EmptyString)) true
          (Some "/tmp/vl.a1b2c3"%string).

(** Sector 1 overwritten with 0xFF through the overlay. *)
Definition snap_written : Z * BlockDriverState * world :=
  bdrv_write snap_handle snap_world 1 (replicate 512 255) 0 1.

(** The snapshot of [disk.img] after sector 1 was overwritten. *)
Definition dirty_handle : BlockDriverState := snd (fst snap_written).

Definition dirty_world : world := snd snap_written.

(** The world one commit later. *)
Definition committed_world : world :=
  match bdrv_commit dirty_handle dirty_world with
  | Some (_, _, w') => w'
  | None => dirty_world
  end.

(** One choice of what [vl.h] and the host fix: a little-endian host, the
    signature "OOOM", version 2, and a header of 1056 bytes whose
    [backing_file] field is 1024 bytes long and starts at byte 8, with
    [mtime] at byte 1032 and [size] at byte 1040. *)
Definition host_bdrv_open (filename : string) (snapshot : Z) (w : world)
  : option BlockDriverState * world :=
  bdrv_open false 0x4f4f4f4d 2 1056 8 1024 1032 1040 filename snapshot w.

Fixpoint bytes_of_string (s : string) : list Z :=
  match s with
  | EmptyString => []
  | String c rest => Z.of_N (N_of_ascii c) :: bytes_of_string rest
  end.

(** The header of a container made over [disk.img] when its modification
    time was 999, for a disk of 1536 bytes, followed by the bitmap and one
    sector of room. *)
Definition stale_container : list Z :=
  [0x4f; 0x4f; 0x4f; 0x4d] ++ [0; 0; 0; 2]
  ++ resize 1024 0 (bytes_of_string "disk.img")
  ++ [0; 0; 3; 231] ++ [0; 0; 0; 0]
  ++ [0; 0; 0; 0; 0; 0; 6; 0] ++ [0; 0; 2; 0; 0; 0; 0; 0]
  ++ replicate 992 0.

(** [disk.img] was modified at 1000. *)
Definition stale_world : world :=
  mkWorld [mkInode disk_image 1000 true true;
           mkInode stale_container 1200 true true]
          [("disk.img"%string, 0%nat); ("snap.cow"%string, 1%nat)] [] []
          (Some (mkBDS 0 0 0 None [] 0 0 0 EmptyString)) true None.

Definition stale_header : list Z := take 1056 stale_container.

(** [n] times "./" in front of [path]. *)
Fixpoint dot_slash (n : nat) (path : string) : string :=
  match n with
  | O => path
  | S n' => String "."%char (String "/"%char (dot_slash n' path))
  end.

(** A path of 1024 characters to [disk.img], one more than [filename] has
    room for besides the closing NUL. *)
Definition long_path : string := dot_slash 508 "disk.img".

Definition long_world : world :=
  mkWorld [mkInode disk_image 1000 true true] [(long_path, 0%nat)] [] []
          (Some (mkBDS 0 0 0 None [] 0 0 0 EmptyString)) true None.

(** ** Notions for the further properties *)

(** [len] bytes of a file from byte [pos] on (fewer where the file ends). *)
Definition pread (data : list Z) (pos len : Z) : list Z :=
  take (Z.to_nat len) (drop (Z.to_nat pos) data).

(** A request of [n] sectors at sector [a], served at base offset [off],
    whose byte counts and offsets C computes without overflow. *)
Definition offsets_fit (off a n : Z) : Prop :=
  0 <= a /\ 0 <= n /\ n * 512 <= INT_MAX
  /\ 0 <= off /\ off + (a + n) * 512 <= INT64_MAX.

(** [reads_only w w']: going from [w] to [w'] no file and no name changed,
    and every descriptor still refers to the file it referred to; only
    file positions may differ. *)
Record reads_only (w w' : world) : Prop := mkReadsOnly {
  ro_inodes : w_inodes w' = w_inodes w;
  ro_names : w_names w' = w_names w;
  ro_bind : forall d o, Sys.get_ofile w d = Some o ->
    exists o', Sys.get_ofile w' d = Some o'
               /\ o_ino o' = o_ino o /\ o_rdwr o' = o_rdwr o;
  ro_closed : forall d, Sys.get_ofile w d = None -> Sys.get_ofile w' d = None
}.

(** [confined fd w w']: as [reads_only], except that the bytes of the file
    behind [fd] may have changed. *)
Record confined (fd : Z) (w w' : world) : Prop := mkConfined {
  c_names : w_names w' = w_names w;
  c_bind : forall d o, Sys.get_ofile w d = Some o ->
    exists o', Sys.get_ofile w' d = Some o'
               /\ o_ino o' = o_ino o /\ o_rdwr o' = o_rdwr o;
  c_closed : forall d, Sys.get_ofile w d = None -> Sys.get_ofile w' d = None;
  c_inodes : forall ino,
    (forall o, Sys.get_ofile w fd = Some o -> o_ino o <> ino) ->
    w_inodes w' !! ino = w_inodes w !! ino
}.

(** [opened_by w0 bs w]: the descriptors the handle [bs] holds were free in
    [w0], every other descriptor is in [w] as it was in [w0], no name was
    added or removed, and every file of [w0] is in [w] with its bytes. *)
Record opened_by (w0 : world) (bs : BlockDriverState) (w : world) : Prop :=
  mkOpenedBy {
  ob_others : forall d, d <> fd bs -> d <> cow_fd bs ->
    Sys.get_ofile w d = Sys.get_ofile w0 d;
  ob_fd : Sys.get_ofile w0 (fd bs) = None;
  ob_cow_fd : Sys.get_ofile w0 (cow_fd bs) = None;
  ob_names : w_names w = w_names w0;
  ob_inodes : forall i f, w_inodes w0 !! i = Some f -> w_inodes w !! i = Some f
}.

(** An outcome of a step of [bdrv_open] whose handle and world satisfy
    [P]. *)
Definition outcome_in {A : Type} (P : BlockDriverState -> world -> Prop)
    (o : outcome A) : Prop :=
  match o with
  | Goto_fail bs w => P bs w
  | Go_on _ bs w => P bs w
  end.

(** [filename] names a readable file [f] that is long enough for a
    container header but does not start with one: its first bytes do not
    carry both the signature and the supported version. *)
Definition raw_image (COW_MAGIC COW_VERSION sizeof_cow_header : Z)
    (w : world) (filename : string) (f : inode) : Prop :=
  (exists ino,
     Sys.lookup_name (w_names w) filename = Some ino
     /\ w_inodes w !! ino = Some f)
  /\ i_readable f = true
  /\ sizeof_cow_header <= Z.of_nat (length (i_data f))
  /\ bytes_ok (take (Z.to_nat sizeof_cow_header) (i_data f))
  /\ ~ (be_decode (field (i_data f) 0 4) = COW_MAGIC
        /\ be_decode (field (i_data f) 4 4) = COW_VERSION).

(** One raw image of a single sector, [stub.img]: shorter than the
    container header. *)
Definition stub_world : world :=
  mkWorld [mkInode (replicate 512 7) 1000 true true]
          [("stub.img"%string, O)] [] []
          (Some (mkBDS 0 0 0 None [] 0 0 0 EmptyString)) true None.

(** [filename] names a readable file [f] that starts with a container
    header: the signature and the supported version in network byte
    order. *)
Definition cow_image (COW_MAGIC COW_VERSION sizeof_cow_header : Z)
    (w : world) (filename : string) (f : inode) : Prop :=
  (exists ino, Sys.lookup_name (w_names w) filename = Some ino
               /\ w_inodes w !! ino = Some f)
  /\ i_readable f = true
  /\ sizeof_cow_header <= Z.of_nat (length (i_data f))
  /\ bytes_ok (take (Z.to_nat sizeof_cow_header) (i_data f))
  /\ be_decode (field (i_data f) 0 4) = COW_MAGIC
  /\ be_decode (field (i_data f) 4 4) = COW_VERSION.

(** The disk size in the [size] field of a header, as the format stores
    it. *)
Definition stored_size (offsetof_size : nat) (data : list Z) : Z :=
  be_decode (field data offsetof_size 8).

(** The fields of [struct cow_header_v2] lie inside the struct. *)
Definition header_layout (sizeof_cow_header : Z)
    (offsetof_backing_file sizeof_backing_file : nat)
    (offsetof_mtime offsetof_size : nat) : Prop :=
  8 <= sizeof_cow_header
  /\ Z.of_nat (offsetof_backing_file + sizeof_backing_file)
     <= sizeof_cow_header
  /\ Z.of_nat offsetof_mtime + 4 <= sizeof_cow_header
  /\ Z.of_nat offsetof_size + 8 <= sizeof_cow_header.

(** A container for a disk of 1536 bytes: header, one bitmap byte with the
    bit of sector 1 set, padding up to byte 1536, and the three sectors,
    of which sector 1 holds the byte 9 throughout.  [backing] and [mtime]
    fill the fields of these names. *)
Definition container_file (backing : string) (mtime : list Z) : list Z :=
  [0x4f; 0x4f; 0x4f; 0x4d] ++ [0; 0; 0; 2]
  ++ resize 1024 0 (bytes_of_string backing)
  ++ mtime ++ [0; 0; 0; 0]
  ++ [0; 0; 0; 0; 0; 0; 6; 0] ++ [0; 0; 2; 0; 0; 0; 0; 0]
  ++ [2] ++ replicate 479 0
  ++ replicate 512 0 ++ replicate 512 9 ++ replicate 512 0.

(** [snap.cow] made over [disk.img] when its modification time was 1000,
    as it still is. *)
Definition fresh_container : list Z :=
  container_file "disk.img" [0; 0; 3; 232].

Definition fresh_world : world :=
  mkWorld [mkInode disk_image 1000 true true;
           mkInode fresh_container 1200 true true]
          [("disk.img"%string, 0%nat); ("snap.cow"%string, 1%nat)] [] []
          (Some (mkBDS 0 0 0 None [] 0 0 0 EmptyString)) true None.

(** [lone.cow], a container that names no backing file. *)
Definition lone_container : list Z :=
  container_file EmptyString [0; 0; 0; 0].

Definition lone_world (writable : bool) : world :=
  mkWorld [mkInode lone_container 1200 true writable]
          [("lone.cow"%string, 0%nat)] [] []
          (Some (mkBDS 0 0 0 None [] 0 0 0 EmptyString)) true None.

(** The most one [read] call transfers on the host (Linux). *)
Definition MAX_RW_COUNT : Z := 0x7ffff000.

(** Sector [i] is in the overlay: there is a bitmap and the bit of the
    sector is set. *)
Definition in_overlay (bs : BlockDriverState) (i : Z) : bool :=
  match cow_bitmap bs with
  | Some p => negb (is_bit_set (cow_bitmap_addr bs) p i =? 0)
  | None => false
  end.

(** Byte [j] of sector [i] of the disk the handle presents: for a sector in
    the overlay the byte at [cow_sectors_offset + 512 * i + j] of the file
    behind [cow_fd], for any other sector the byte at [512 * i + j] of the
    file behind [fd]; 0 where that descriptor is -1, and [None] where the
    file has no such byte. *)
Definition sector_byte (bs : BlockDriverState) (w : world) (i j : Z)
  : option Z :=
  if in_overlay bs i then
    if cow_fd bs <? 0 then Some 0
    else f ← Sys.file_of w (cow_fd bs);
         i_data f !! Z.to_nat (cow_sectors_offset bs + i * 512 + j)
  else
    if fd bs <? 0 then Some 0
    else f ← Sys.file_of w (fd bs); i_data f !! Z.to_nat (i * 512 + j).

(** [snap.cow] opened: sector 1 is in the overlay, sectors 0 and 2 are
    not. *)
Definition fresh_handle : BlockDriverState :=
  default blank_handle (fst (host_bdrv_open "snap.cow" 0 fresh_world)).

Definition fresh_opened : world :=
  snd (host_bdrv_open "snap.cow" 0 fresh_world).

(** * Properties *)

(** ** Integers that fit their type *)

Lemma to_int_fits z : in_int z -> to_int z = z.
Proof.
  unfold in_int, INT_MIN, INT_MAX, to_int, wrap_signed. intros Hz.
  rewrite Z.mod_small; lia.
Qed.

Lemma to_int64_fits z : in_int64 z -> to_int64 z = z.
Proof.
  unfold in_int64, INT64_MIN, INT64_MAX, to_int64, wrap_signed. intros Hz.
  rewrite Z.mod_small; lia.
Qed.

Lemma to_size_t_fits z : 0 <= z < 2 ^ 64 -> to_size_t z = z.
Proof. intros Hz. unfold to_size_t, to_uint64. apply Z.mod_small, Hz. Qed.

Lemma in_int_int64 z : in_int z -> in_int64 z.
Proof. unfold in_int, in_int64, INT_MIN, INT_MAX, INT64_MIN, INT64_MAX. lia. Qed.

(** ** The run scanner *)

Section Scanner.

Variables (mem : list Z) (bitmap sector_num changed : Z).

Lemma is_changed_scan_bounds todo k :
  k <= is_changed_scan mem bitmap sector_num changed todo k
    <= k + Z.of_nat todo.
Proof.
  revert k. induction todo as [|todo IH]; intros k; simpl; [lia|].
  destruct (_ =? changed); [|lia].
  specialize (IH (k + 1)). lia.
Qed.

Lemma is_changed_scan_run todo k :
  INT64_MIN <= sector_num + k ->
  sector_num + k + Z.of_nat todo <= INT64_MAX + 1 ->
  let n := is_changed_scan mem bitmap sector_num changed todo k in
  (forall j, k <= j < n -> is_bit_set mem bitmap (sector_num + j) = changed)
  /\ (n < k + Z.of_nat todo ->
      is_bit_set mem bitmap (sector_num + n) <> changed).
Proof.
  revert k. induction todo as [|todo IH]; intros k Hlo Hhi; simpl.
  - split; intros; lia.
  - rewrite to_int64_fits by (unfold in_int64; lia).
    destruct (is_bit_set mem bitmap (sector_num + k) =? changed) eqn:Hbit.
    + apply Z.eqb_eq in Hbit.
      destruct (IH (k + 1)) as [Hrun Hstop]; [lia..|].
      split.
      * intros j Hj. destruct (decide (j = k)) as [->|Hne]; [done|].
        apply Hrun. lia.
      * intros Hlt. apply Hstop. lia.
    + apply Z.eqb_neq in Hbit. split; [intros; lia | done].
Qed.

End Scanner.

Lemma is_changed_num_same mem bitmap sector_num nb_sectors :
  1 <= nb_sectors ->
  1 <= snd (is_changed mem bitmap sector_num nb_sectors) <= nb_sectors.
Proof.
  intros Hnb. unfold is_changed. destruct bitmap as [p|]; simpl; [|lia].
  destruct (nb_sectors =? 0) eqn:Hz; [lia|]. simpl.
  pose proof (is_changed_scan_bounds mem p sector_num
                (is_bit_set mem p sector_num) (Z.to_nat (nb_sectors - 1)) 1).
  lia.
Qed.

Lemma read_source_run bs sector_num nb_sectors :
  snd (read_source bs sector_num nb_sectors)
  = snd (is_changed (cow_bitmap_addr bs) (cow_bitmap bs) sector_num nb_sectors).
Proof.
  unfold read_source. destruct (is_changed _ _ _ _) as [changed n].
  by destruct (negb _).
Qed.

(** ** The read loop *)

Lemma bdrv_read_loop_done fuel bs w sector_num mem buf nb_sectors :
  nb_sectors <= 0 ->
  bdrv_read_loop fuel bs w sector_num mem buf nb_sectors = Some (0, mem, w).
Proof.
  intros Hnb. assert ((nb_sectors >? 0) = false) as Hgt by lia.
  destruct fuel; simpl; by rewrite Hgt.
Qed.

Lemma bdrv_read_loop_total bs fuel :
  forall w sector_num mem buf nb_sectors,
    nb_sectors <= INT_MAX ->
    (Z.to_nat nb_sectors <= fuel)%nat ->
    exists r, forall fuel',
      (Z.to_nat nb_sectors <= fuel')%nat ->
      bdrv_read_loop fuel' bs w sector_num mem buf nb_sectors = Some r.
Proof.
  induction fuel as [|fuel IH]; intros w s mem buf nb Hmax Hfuel.
  - exists (0, mem, w). intros fuel' _. apply bdrv_read_loop_done. lia.
  - destruct (decide (nb <= 0)) as [Hle|Hpos].
    { exists (0, mem, w). intros fuel' _. by apply bdrv_read_loop_done. }
    assert ((nb >? 0) = true) as Hgt by lia.
    pose proof (is_changed_num_same (cow_bitmap_addr bs) (cow_bitmap bs) s nb
                  ltac:(lia)) as Hn.
    rewrite <- read_source_run in Hn.
    destruct (read_source bs s nb) as [[fd0 off] n] eqn:Hsrc. simpl in Hn.
    assert (to_int (nb - n) = nb - n) as Hrest.
    { apply to_int_fits. unfold in_int, INT_MIN, INT_MAX in *. lia. }
    destruct (fd0 <? 0) eqn:Hfd.
    + destruct (IH w (to_int64 (s + n))
                  (memset mem buf 0 (to_size_t (to_int (n * 512))))
                  (buf + to_int (n * 512)) (nb - n)) as [r Hr]; [lia..|].
      exists r. intros [|fuel'] Hfuel'; [lia|]. simpl.
      rewrite Hgt, Hsrc, Hfd, Hrest. apply Hr. lia.
    + destruct (Sys.lseek64_set w fd0
                  (to_int64 (off + to_int64 (s * 512)))) as [retl w1] eqn:Hseek.
      destruct (Sys.read w1 fd0 (to_size_t (to_int (n * 512))))
        as [[r0 data] w2] eqn:Hread.
      destruct (negb (to_int r0 =? to_int (n * 512))) eqn:Hshort.
      * exists (-1, store_bytes mem buf data, w2).
        intros [|fuel'] Hfuel'; [lia|]. simpl.
        by rewrite Hgt, Hsrc, Hfd, Hseek, Hread, Hshort.
      * destruct (IH w2 (to_int64 (s + n)) (store_bytes mem buf data)
                    (buf + to_int (n * 512)) (nb - n)) as [r Hr]; [lia..|].
        exists r. intros [|fuel'] Hfuel'; [lia|]. simpl.
        rewrite Hgt, Hsrc, Hfd, Hseek, Hread, Hshort, Hrest. apply Hr. lia.
Qed.

(** C10. [bdrv_read] returns for every request whose sector count is an
    [int]: while sectors remain the run scanner answers a run length between
    1 and the remaining count, the remaining count goes strictly down at
    each round, and [nb_sectors] rounds are enough (more rounds give the
    same result). *)
Theorem bdrv_read_terminates bs w sector_num mem buf nb_sectors :
  nb_sectors <= INT_MAX ->
  (1 <= nb_sectors ->
   let n := snd (is_changed (cow_bitmap_addr bs) (cow_bitmap bs)
                            sector_num nb_sectors) in
   1 <= n <= nb_sectors /\ 0 <= to_int (nb_sectors - n) < nb_sectors)
  /\ exists r,
       bdrv_read bs w sector_num mem buf nb_sectors = Some r
       /\ forall fuel, (Z.to_nat nb_sectors <= fuel)%nat ->
            bdrv_read_loop fuel bs w sector_num mem buf nb_sectors = Some r.
Proof.
  intros Hmax. split.
  - intros Hnb n.
    pose proof (is_changed_num_same (cow_bitmap_addr bs) (cow_bitmap bs)
                  sector_num nb_sectors Hnb) as Hn.
    fold n in Hn. split; [done|].
    rewrite to_int_fits; unfold in_int, INT_MIN, INT_MAX in *; lia.
  - destruct (bdrv_read_loop_total bs (Z.to_nat nb_sectors) w sector_num mem
                buf nb_sectors Hmax) as [r Hr]; [lia|].
    exists r. split; [apply Hr; lia | done].
Qed.

Lemma bdrv_read_terminates_witness :
  3 <= INT_MAX
  /\ exists r,
       bdrv_read blank_handle empty_world 0 (replicate 1536 7) 0 3 = Some r.
Proof.
  split; [unfold INT_MAX; lia|].
  destruct (bdrv_read_terminates blank_handle empty_world 0
              (replicate 1536 7) 0 3) as [_ [r [Hr _]]].
  - unfold INT_MAX; lia.
  - exists r. exact Hr.
Defined.

(** With a bitmap and a requested length of at least 1: the state of the
    starting sector and the length of the run that shares it. *)
Lemma is_changed_present mem p sector_num nb_sectors :
  1 <= nb_sectors ->
  INT64_MIN <= sector_num ->
  sector_num + nb_sectors <= INT64_MAX + 1 ->
  exists n,
    is_changed mem (Some p) sector_num nb_sectors
    = (is_bit_set mem p sector_num, n)
    /\ 1 <= n <= nb_sectors
    /\ (forall j, 0 <= j < n ->
          is_bit_set mem p (sector_num + j) = is_bit_set mem p sector_num)
    /\ (n < nb_sectors ->
          is_bit_set mem p (sector_num + n) <> is_bit_set mem p sector_num).
Proof.
  intros Hnb Hlo Hhi.
  unfold is_changed. assert ((nb_sectors =? 0) = false) as -> by lia.
  set (changed := is_bit_set mem p sector_num).
  set (todo := Z.to_nat (nb_sectors - 1)).
  exists (is_changed_scan mem p sector_num changed todo 1).
  pose proof (is_changed_scan_bounds mem p sector_num changed todo 1) as Hb.
  destruct (is_changed_scan_run mem p sector_num changed todo 1)
    as [Hrun Hstop]; [lia | lia |].
  split; [done|]. split; [lia|]. split.
  - intros j Hj. destruct (decide (j = 0)) as [->|Hne].
    + by rewrite Z.add_0_r.
    + apply Hrun. lia.
  - intros Hlt. apply Hstop. lia.
Qed.

(** C6. With the bitmap absent the scanner answers "not dirty" and the
    requested length, whatever the request.  With a bitmap and a requested
    length of at least 1 it answers the dirty state of the starting sector
    and the number [n] of leading sectors that share it: between 1 and the
    requested length, every sector of the run has the state of the first,
    and the run stops short of the requested length only at a sector in the
    other state.  A length below 1 is never asked for: the scanner is called
    from the loop of [bdrv_read] alone, which is left without a scan when
    no sector remains. *)
Theorem is_changed_run mem sector_num nb_sectors :
  is_changed mem None sector_num nb_sectors = (0, nb_sectors)
  /\ (forall p,
        1 <= nb_sectors ->
        INT64_MIN <= sector_num ->
        sector_num + nb_sectors <= INT64_MAX + 1 ->
        exists n,
          is_changed mem (Some p) sector_num nb_sectors
          = (is_bit_set mem p sector_num, n)
          /\ 1 <= n <= nb_sectors
          /\ (forall j, 0 <= j < n ->
                is_bit_set mem p (sector_num + j)
                = is_bit_set mem p sector_num)
          /\ (n < nb_sectors ->
                is_bit_set mem p (sector_num + n)
                <> is_bit_set mem p sector_num))
  /\ (forall fuel bs w m buf,
        nb_sectors <= 0 ->
        bdrv_read_loop fuel bs w sector_num m buf nb_sectors
        = Some (0, m, w)).
Proof.
  split; [done|]. split.
  - intros p Hnb Hlo Hhi. by apply is_changed_present.
  - intros fuel bs w m buf Hnone. by apply bdrv_read_loop_done.
Qed.

(** Bits 0 and 1 set, bit 2 clear: the run at sector 0 has length 2. *)
Lemma is_changed_run_witness :
  1 <= 3 /\ INT64_MIN <= 0 /\ 0 + 3 <= INT64_MAX + 1
  /\ is_changed [3] None 0 3 = (0, 3)
  /\ exists n,
       is_changed [3] (Some 0) 0 3 = (is_bit_set [3] 0 0, n) /\ 1 <= n <= 3.
Proof.
  assert (1 <= 3) as H1 by lia.
  assert (INT64_MIN <= 0) as H2 by (unfold INT64_MIN; lia).
  assert (0 + 3 <= INT64_MAX + 1) as H3 by (unfold INT64_MAX; lia).
  split; [exact H1|]. split; [exact H2|]. split; [exact H3|].
  destruct (is_changed_run [3] 0 3) as (Hnone & Hp & _).
  split; [exact Hnone|].
  destruct (Hp 0 H1 H2 H3) as [n [Heq [Hn _]]].
  exists n. split; [exact Heq | exact Hn].
Defined.

Example is_changed_run_of_two : is_changed [3] (Some 0) 0 3 = (1, 2).
Proof. reflexivity. Qed.

(** ** Bits of the bitmap *)

Lemma land_pow2 x k :
  0 <= k -> Z.land x (2 ^ k) = if Z.testbit x k then 2 ^ k else 0.
Proof.
  intros Hk. apply Z.bits_inj'. intros n Hn.
  rewrite Z.land_spec, Z.pow2_bits_eqb by done.
  destruct (Z.eqb_spec k n) as [->|Hne].
  - destruct (Z.testbit x n) eqn:Hx; simpl.
    + by rewrite Z.pow2_bits_true.
    + by rewrite Z.bits_0.
  - rewrite andb_false_r. destruct (Z.testbit x k).
    + rewrite Z.pow2_bits_false; [done | lia].
    + by rewrite Z.bits_0.
Qed.

Lemma bit_mask bitnum :
  0 <= bitnum -> to_int (shl 1 (Z.rem bitnum 8)) = 2 ^ (bitnum mod 8).
Proof.
  intros Hb. rewrite Z.rem_mod_nonneg by lia.
  unfold shl. rewrite Z.shiftl_1_l.
  pose proof (Z.mod_pos_bound bitnum 8 ltac:(lia)) as Hk.
  apply to_int_fits. unfold in_int, INT_MIN, INT_MAX.
  assert (0 < 2 ^ (bitnum mod 8) <= 2 ^ 7) as Hp.
  { split; [apply Z.pow_pos_nonneg; lia | apply Z.pow_le_mono_r; lia]. }
  lia.
Qed.

(** For a sector number that is not negative, [is_bit_set] reads bit
    [bitnum mod 8] of byte [bitnum / 8] of the bitmap. *)
Lemma is_bit_set_testbit mem bitmap bitnum :
  0 <= bitnum ->
  is_bit_set mem bitmap bitnum
  = if Z.testbit (load8 mem (bitmap + bitnum / 8)) (bitnum mod 8)
    then 1 else 0.
Proof.
  intros Hb. unfold is_bit_set. rewrite bit_mask by done.
  rewrite Z.quot_div_nonneg by lia.
  pose proof (Z.mod_pos_bound bitnum 8 ltac:(lia)) as Hk.
  rewrite land_pow2 by lia. unfold notnot.
  destruct (Z.testbit _ _); [|done].
  assert (0 < 2 ^ (bitnum mod 8)) by (apply Z.pow_pos_nonneg; lia).
  destruct (Z.eqb_spec (2 ^ (bitnum mod 8)) 0); [lia | done].
Qed.

Lemma is_bit_set_01 mem bitmap bitnum :
  is_bit_set mem bitmap bitnum = 0 \/ is_bit_set mem bitmap bitnum = 1.
Proof. unfold is_bit_set, notnot. destruct (_ =? 0); auto. Qed.

Lemma load8_store8_eq mem a v :
  0 <= a < Z.of_nat (length mem) -> load8 (store8 mem a v) a = v.
Proof.
  intros Ha. unfold load8, store8.
  assert ((a <? 0) = false) as -> by lia.
  rewrite list_lookup_insert_eq; [done | lia].
Qed.

Lemma load8_store8_ne mem a a' v :
  a <> a' -> load8 (store8 mem a v) a' = load8 mem a'.
Proof.
  intros Hne. unfold load8, store8.
  destruct (a' <? 0) eqn:Ha'; [done|].
  destruct (a <? 0) eqn:Ha; [done|].
  rewrite list_lookup_insert_ne; [done | lia].
Qed.

Lemma length_store8 mem a v : length (store8 mem a v) = length mem.
Proof. unfold store8. destruct (a <? 0); [done | apply length_insert]. Qed.

Lemma length_set_bit mem bitmap bitnum :
  length (set_bit mem bitmap bitnum) = length mem.
Proof. apply length_store8. Qed.

Lemma set_bit_same mem bitmap bitnum :
  0 <= bitnum ->
  0 <= bitmap + bitnum / 8 < Z.of_nat (length mem) ->
  is_bit_set (set_bit mem bitmap bitnum) bitmap bitnum = 1.
Proof.
  intros Hb Ha. rewrite is_bit_set_testbit by done.
  unfold set_bit. rewrite bit_mask, Z.quot_div_nonneg by lia.
  rewrite load8_store8_eq by done.
  pose proof (Z.mod_pos_bound bitnum 8 ltac:(lia)) as Hk.
  unfold to_uint8. rewrite Z.mod_pow2_bits_low by lia.
  rewrite Z.lor_spec, Z.pow2_bits_true by lia.
  by rewrite orb_true_r.
Qed.

Lemma set_bit_other mem bitmap bitnum j :
  0 <= bitnum -> 0 <= j -> j <> bitnum ->
  is_bit_set (set_bit mem bitmap bitnum) bitmap j = is_bit_set mem bitmap j.
Proof.
  intros Hb Hj Hne. rewrite !is_bit_set_testbit by done.
  unfold set_bit. rewrite bit_mask, Z.quot_div_nonneg by lia.
  set (a := bitmap + bitnum / 8).
  destruct (decide (a = bitmap + j / 8)) as [Heq|Hdiff].
  - rewrite <- Heq.
    destruct (decide (0 <= a < Z.of_nat (length mem))) as [Hin|Hout].
    + rewrite load8_store8_eq by done.
      pose proof (Z.mod_pos_bound bitnum 8 ltac:(lia)) as Hk.
      pose proof (Z.mod_pos_bound j 8 ltac:(lia)) as Hk'.
      unfold to_uint8. rewrite Z.mod_pow2_bits_low by lia.
      rewrite Z.lor_spec, Z.pow2_bits_false; [by rewrite orb_false_r|].
      intros Hmod. apply Hne.
      rewrite (Z.div_mod j 8), (Z.div_mod bitnum 8) by lia.
      subst a. lia.
    + unfold store8. destruct (a <? 0) eqn:Hneg; [done|].
      rewrite list_insert_ge; [done | lia].
  - by rewrite load8_store8_ne.
Qed.

(** The bits [set_bits] sets, and those it leaves alone. *)
Lemma set_bits_spec bitmap sector_num todo :
  forall mem i,
    0 <= sector_num + i ->
    sector_num + i + Z.of_nat todo <= INT64_MAX + 1 ->
    let mem' := set_bits mem bitmap sector_num todo i in
    length mem' = length mem
    /\ (forall j, sector_num + i <= j < sector_num + i + Z.of_nat todo ->
          0 <= bitmap + j / 8 < Z.of_nat (length mem) ->
          is_bit_set mem' bitmap j = 1)
    /\ (forall j, 0 <= j ->
          ~ (sector_num + i <= j < sector_num + i + Z.of_nat todo) ->
          is_bit_set mem' bitmap j = is_bit_set mem bitmap j).
Proof.
  induction todo as [|todo IH]; intros mem i Hlo Hhi; simpl.
  - split; [done|]. split; [intros; lia | done].
  - rewrite to_int64_fits
      by (unfold in_int64, INT64_MIN, INT64_MAX in *; lia).
    destruct (IH (set_bit mem bitmap (sector_num + i)) (i + 1))
      as (Hlen & Hset & Hkeep); [lia..|].
    rewrite length_set_bit in Hlen, Hset.
    split; [done|]. split.
    + intros j Hj Hin. destruct (decide (j = sector_num + i)) as [->|Hne].
      * rewrite Hkeep by lia. by apply set_bit_same.
      * apply Hset; [lia | done].
    + intros j Hj Hout. rewrite Hkeep by lia.
      apply set_bit_other; lia.
Qed.

(** ** What a system call on one descriptor can change *)

Lemma get_ofile_range w fd o :
  Sys.get_ofile w fd = Some o ->
  0 <= fd /\ (Z.to_nat fd < length (w_fds w))%nat.
Proof.
  unfold Sys.get_ofile. destruct (fd <? 0) eqn:Hneg; [done|].
  destruct (w_fds w !! Z.to_nat fd) as [x|] eqn:Hx; [|done].
  intros _. split; [lia|]. by eapply lookup_lt_Some.
Qed.

Lemma get_set_ofile_eq w fd o x :
  Sys.get_ofile w fd = Some o ->
  Sys.get_ofile (Sys.set_ofile w fd x) fd = x.
Proof.
  intros Hget. destruct (get_ofile_range _ _ _ Hget) as [Hfd Hlen].
  unfold Sys.get_ofile, Sys.set_ofile. simpl.
  assert ((fd <? 0) = false) as -> by lia.
  by rewrite list_lookup_insert_eq.
Qed.

Lemma get_set_ofile_ne w fd d x :
  0 <= fd -> d <> fd ->
  Sys.get_ofile (Sys.set_ofile w fd x) d = Sys.get_ofile w d.
Proof.
  intros Hfd Hne. unfold Sys.get_ofile, Sys.set_ofile. simpl.
  destruct (d <? 0) eqn:Hd; [done|].
  rewrite list_lookup_insert_ne; [done | lia].
Qed.

Lemma touches_refl fd w : touches fd w w.
Proof. split; eauto. Qed.

Lemma touches_trans fd w1 w2 w3 :
  touches fd w1 w2 -> touches fd w2 w3 -> touches fd w1 w3.
Proof.
  intros H12 H23. split.
  - intros d Hd. rewrite (t_others _ _ _ H23), (t_others _ _ _ H12); done.
  - intros o Ho. destruct (t_same_ino _ _ _ H12 o Ho) as (o' & Ho' & Hi & Hr).
    destruct (t_same_ino _ _ _ H23 o' Ho') as (o'' & Ho'' & Hi' & Hr').
    exists o''. split; [done|]. split; congruence.
  - intros Hnone. pose proof (t_closed _ _ _ H12 Hnone) as ->.
    by apply (t_closed _ _ _ H23).
  - intros ino Hino. rewrite (t_inodes _ _ _ H23), (t_inodes _ _ _ H12); [done..|].
    intros o' Ho'. destruct (Sys.get_ofile w1 fd) as [o|] eqn:Ho.
    + destruct (t_same_ino _ _ _ H12 o Ho) as (o2 & Ho2 & Hi & _).
      assert (o2 = o') as -> by congruence. rewrite Hi. by apply Hino.
    + pose proof (t_closed _ _ _ H12 Ho) as ->. congruence.
  - rewrite (t_names _ _ _ H23). apply (t_names _ _ _ H12).
  - rewrite (t_stderr _ _ _ H23). apply (t_stderr _ _ _ H12).
Qed.

Lemma touches_set_pos w fd o pos :
  Sys.get_ofile w fd = Some o ->
  touches fd w (Sys.set_ofile w fd (Some (mkOfile (o_ino o) (o_rdwr o) pos))).
Proof.
  intros Hget. destruct (get_ofile_range _ _ _ Hget) as [Hfd Hlen]. split.
  - intros d Hd. by apply get_set_ofile_ne.
  - intros o0 Ho0. eexists. split; [by eapply get_set_ofile_eq|].
    assert (o0 = o) as -> by congruence. done.
  - congruence.
  - done.
  - done.
  - done.
Qed.

Lemma lseek64_set_touches w fd offset :
  touches fd w (snd (Sys.lseek64_set w fd offset)).
Proof.
  unfold Sys.lseek64_set. destruct (Sys.get_ofile w fd) as [o|] eqn:Hget.
  - destruct (offset <? 0); simpl; [apply touches_refl|].
    by apply touches_set_pos.
  - apply touches_refl.
Qed.

Lemma read_touches w fd count :
  touches fd w (snd (Sys.read w fd count)).
Proof.
  unfold Sys.read. destruct (Sys.get_ofile w fd) as [o|] eqn:Hget.
  - destruct (w_inodes w !! o_ino o); simpl; [|apply touches_refl].
    by apply touches_set_pos.
  - apply touches_refl.
Qed.

Lemma write_touches w fd buf count :
  touches fd w (snd (Sys.write w fd buf count)).
Proof.
  unfold Sys.write. destruct (Sys.get_ofile w fd) as [o|] eqn:Hget;
    [|apply touches_refl].
  destruct (o_rdwr o) eqn:Hrw; [|apply touches_refl].
  destruct (w_inodes w !! o_ino o) as [f|] eqn:Hf; [|apply touches_refl].
  simpl. destruct (get_ofile_range _ _ _ Hget) as [Hfd Hlen]. split.
  - intros d Hd. by rewrite get_set_ofile_ne.
  - intros o0 Ho0. eexists. split.
    + apply (get_set_ofile_eq (with_inodes _ w) fd o). exact Hget.
    + assert (o0 = o) as -> by congruence. done.
  - congruence.
  - intros ino Hino. simpl. apply list_lookup_insert_ne.
    by apply Hino.
  - done.
  - done.
Qed.

(** ** The write path *)

Lemma bdrv_write_touches bs w sector_num mem buf nb_sectors :
  touches (fst (write_target bs)) w
          (snd (bdrv_write bs w sector_num mem buf nb_sectors)).
Proof.
  unfold bdrv_write. destruct (negb (read_only bs =? 0)); [apply touches_refl|].
  destruct (write_target bs) as [tfd off]. simpl.
  pose proof (lseek64_set_touches w tfd
                (to_int64 (off + to_int64 (sector_num * 512)))) as Hseek.
  destruct (Sys.lseek64_set _ _ _) as [retl w1]. simpl in Hseek.
  destruct (retl =? -1); [done|].
  pose proof (write_touches w1 tfd (drop (Z.to_nat buf) mem)
                (to_size_t (to_int (nb_sectors * 512)))) as Hwrite.
  destruct (Sys.write _ _ _ _) as [r w2]. simpl in Hwrite.
  assert (touches tfd w w2) as Hall by (by eapply touches_trans).
  destruct (negb _); [done|]. by destruct (cow_bitmap bs).
Qed.

(** The handle after [bdrv_write]: as before, except that a successful
    write through an overlay has run [set_bits] over the bitmap. *)
Lemma bdrv_write_handle bs w sector_num mem buf nb_sectors r bs' w' :
  bdrv_write bs w sector_num mem buf nb_sectors = (r, bs', w') ->
  (r = 0 \/ r = -1)
  /\ match cow_bitmap bs with
     | Some p =>
         if r =? 0
         then bs' = with_cow_bitmap_addr
                      (set_bits (cow_bitmap_addr bs) p sector_num
                                (Z.to_nat nb_sectors) 0) bs
         else bs' = bs
     | None => bs' = bs
     end.
Proof.
  unfold bdrv_write. destruct (negb (read_only bs =? 0)).
  { intros [= <- <- <-]. split; [auto|]. by destruct (cow_bitmap bs). }
  destruct (write_target bs) as [tfd off].
  destruct (Sys.lseek64_set _ _ _) as [retl w1].
  destruct (retl =? -1).
  { intros [= <- <- <-]. split; [auto|]. by destruct (cow_bitmap bs). }
  destruct (Sys.write _ _ _ _) as [r0 w2].
  destruct (negb _).
  { intros [= <- <- <-]. split; [auto|]. by destruct (cow_bitmap bs). }
  destruct (cow_bitmap bs); intros [= <- <- <-]; (split; [auto | done]).
Qed.

(** C3. On a handle whose [read_only] flag is set every [bdrv_write] returns
    -1 and leaves the handle (bitmap included) and the world (every file and
    descriptor) exactly as they were. *)
Theorem bdrv_write_read_only bs w sector_num mem buf nb_sectors :
  read_only bs <> 0 ->
  bdrv_write bs w sector_num mem buf nb_sectors = (-1, bs, w).
Proof.
  intros Hro. unfold bdrv_write.
  by destruct (Z.eqb_spec (read_only bs) 0).
Qed.

Lemma bdrv_write_read_only_witness :
  read_only ro_handle <> 0
  /\ bdrv_write ro_handle ro_world 1 (replicate 512 255) 0 1
     = (-1, ro_handle, ro_world).
Proof.
  assert (read_only ro_handle <> 0) as Hro by (simpl; lia).
  split; [exact Hro|].
  exact (bdrv_write_read_only ro_handle ro_world 1 (replicate 512 255) 0 1 Hro).
Defined.

(** C9. With no bitmap, [bdrv_commit] issues no system call on any
    descriptor: the handle, the files and the descriptor table stay as they
    were; it prints "Already committed" and returns 0, not the -1 of a
    commit that failed. *)
Theorem bdrv_commit_no_overlay bs w :
  cow_bitmap bs = None ->
  exists w',
    bdrv_commit bs w = Some (0, bs, w')
    /\ w_inodes w' = w_inodes w
    /\ w_fds w' = w_fds w
    /\ w_names w' = w_names w
    /\ w_stderr w' = w_stderr w ++ [Already_committed (filename bs)].
Proof.
  intros Hnone. exists (eprint (Already_committed (filename bs)) w).
  unfold bdrv_commit. rewrite Hnone. done.
Qed.

Lemma bdrv_commit_no_overlay_witness :
  cow_bitmap ro_handle = None
  /\ exists w', bdrv_commit ro_handle ro_world = Some (0, ro_handle, w')
                /\ w_inodes w' = w_inodes ro_world.
Proof.
  assert (cow_bitmap ro_handle = None) as Hnone by reflexivity.
  split; [exact Hnone|].
  destruct (bdrv_commit_no_overlay ro_handle ro_world Hnone)
    as (w' & Hrun & Hino & _).
  exists w'. split; [exact Hrun | exact Hino].
Defined.

(** C5. After a [bdrv_write] of [n] sectors at sector [a] that returned 0
    on a handle with an overlay, every bit of [a, a+n) is set, whatever it
    was before, and the bit of every other sector is as it was. *)
Theorem bdrv_write_sets_bits bs w a mem buf n p bs' w' :
  cow_bitmap bs = Some p ->
  bitmap_covers bs p ->
  0 <= a ->
  0 <= n ->
  a + n <= total_sectors bs ->
  bdrv_write bs w a mem buf n = (0, bs', w') ->
  cow_bitmap bs' = Some p
  /\ (forall j, a <= j < a + n -> is_bit_set (cow_bitmap_addr bs') p j = 1)
  /\ (forall j, 0 <= j -> ~ (a <= j < a + n) ->
        is_bit_set (cow_bitmap_addr bs') p j
        = is_bit_set (cow_bitmap_addr bs) p j).
Proof.
  intros Hp (Hp0 & Hmax & Hlen) Ha Hn Hend Hrun.
  destruct (bdrv_write_handle _ _ _ _ _ _ _ _ _ Hrun) as [_ Hbs].
  rewrite Hp in Hbs. simpl in Hbs. subst bs'. simpl.
  destruct (set_bits_spec p a (Z.to_nat n) (cow_bitmap_addr bs) 0)
    as (Hl & Hset & Hkeep); [lia | unfold INT64_MAX in *; lia |].
  split; [done|]. split.
  - intros j Hj. apply Hset; [lia|].
    assert (0 <= j / 8 < (total_sectors bs + 7) / 8); [|lia].
    Z.div_mod_to_equations. lia.
  - intros j Hj Hout. apply Hkeep; [done | lia].
Qed.

Lemma bdrv_write_sets_bits_witness :
  cow_bitmap snap_handle = Some 0
  /\ bitmap_covers snap_handle 0
  /\ 0 <= 1
  /\ 0 <= 1
  /\ 1 + 1 <= total_sectors snap_handle
  /\ snap_written = (0, snd (fst snap_written), snd snap_written)
  /\ forall j, 1 <= j < 1 + 1 ->
       is_bit_set (cow_bitmap_addr (snd (fst snap_written))) 0 j = 1.
Proof.
  assert (cow_bitmap snap_handle = Some 0) as H1 by reflexivity.
  assert (bitmap_covers snap_handle 0) as H2.
  { unfold bitmap_covers. repeat split; vm_compute; discriminate. }
  assert (0 <= 1) as H3 by lia.
  assert (1 + 1 <= total_sectors snap_handle) as H4 by (simpl; lia).
  assert (snap_written = (0, snd (fst snap_written), snd snap_written)) as H5
    by (vm_compute; reflexivity).
  split; [exact H1|]. split; [exact H2|]. split; [exact H3|].
  split; [exact H3|]. split; [exact H4|]. split; [exact H5|].
  exact (proj1 (proj2 (bdrv_write_sets_bits snap_handle snap_world 1
                         (replicate 512 255) 0 1 0 _ _ H1 H2 H3 H3 H4 H5))).
Defined.

(** C4. With an overlay present, [bdrv_write] seeks and writes on the
    overlay descriptor [cow_fd] only: no file other than the one behind
    [cow_fd] changes, and the backing file, being another file, keeps its
    bytes whatever the outcome of the write. *)
Theorem bdrv_write_overlay_isolation bs w sector_num mem buf nb_sectors p :
  cow_bitmap bs = Some p ->
  ~ same_file w (fd bs) (cow_fd bs) ->
  let w' := snd (bdrv_write bs w sector_num mem buf nb_sectors) in
  write_target bs = (cow_fd bs, cow_sectors_offset bs)
  /\ touches (cow_fd bs) w w'
  /\ Sys.file_of w' (fd bs) = Sys.file_of w (fd bs).
Proof.
  intros Hp Hdiff w'.
  assert (write_target bs = (cow_fd bs, cow_sectors_offset bs)) as Htgt
    by (unfold write_target; by rewrite Hp).
  pose proof (bdrv_write_touches bs w sector_num mem buf nb_sectors) as Ht.
  rewrite Htgt in Ht. simpl in Ht. fold w' in Ht.
  split; [done|]. split; [done|].
  destruct (Sys.get_ofile w (cow_fd bs)) as [oc|] eqn:Hc.
  - assert (fd bs <> cow_fd bs) as Hne.
    { intros Heq. apply Hdiff. exists oc, oc. by rewrite Heq. }
    unfold Sys.file_of. rewrite (t_others _ _ _ Ht) by done.
    destruct (Sys.get_ofile w (fd bs)) as [ob|] eqn:Hb; [|done]. simpl.
    apply (t_inodes _ _ _ Ht). intros o Ho Hsame. apply Hdiff.
    exists ob, o. split; [done|]. split; [congruence | done].
  - by rewrite (t_closed _ _ _ Ht Hc).
Qed.

Lemma bdrv_write_overlay_isolation_witness :
  cow_bitmap snap_handle = Some 0
  /\ ~ same_file snap_world (fd snap_handle) (cow_fd snap_handle)
  /\ Sys.file_of (snd snap_written) (fd snap_handle)
     = Sys.file_of snap_world (fd snap_handle).
Proof.
  assert (cow_bitmap snap_handle = Some 0) as H1 by reflexivity.
  assert (~ same_file snap_world (fd snap_handle) (cow_fd snap_handle)) as H2.
  { intros (o1 & o2 & Ho1 & Ho2 & Hino).
    vm_compute in Ho1, Ho2.
    injection Ho1 as <-. injection Ho2 as <-. discriminate Hino. }
  split; [exact H1|]. split; [exact H2|].
  exact (proj2 (proj2 (bdrv_write_overlay_isolation snap_handle snap_world 1
                         (replicate 512 255) 0 1 0 H1 H2))).
Defined.

(** ** Stores into the caller's buffer *)

Lemma length_store_bytes mem a data :
  length (store_bytes mem a data) = length mem.
Proof.
  unfold store_bytes. destruct (a <? 0); [done | apply length_inserts].
Qed.

Lemma load8_store_bytes_below mem a data j :
  j < a -> load8 (store_bytes mem a data) j = load8 mem j.
Proof.
  intros Hj. unfold load8, store_bytes.
  destruct (j <? 0) eqn:Hneg; [done|].
  destruct (a <? 0) eqn:Ha; [done|].
  rewrite list_lookup_inserts_lt; [done | lia].
Qed.

Lemma load8_memset_zero mem a n j :
  0 <= a -> a + n <= Z.of_nat (length mem) -> a <= j < a + n ->
  load8 (memset mem a 0 n) j = 0.
Proof.
  intros Ha Hlen Hj. unfold load8, memset, store_bytes.
  assert ((j <? 0) = false) as -> by lia.
  assert ((a <? 0) = false) as -> by lia.
  rewrite list_lookup_inserts by (rewrite ?length_replicate; lia).
  rewrite lookup_replicate_2; [done | lia].
Qed.

(** ** One round of the read loop *)

Lemma bdrv_read_loop_step fuel bs w s mem buf nb res :
  0 < nb ->
  bdrv_read_loop fuel bs w s mem buf nb = Some res ->
  exists fuel' fdsel off n,
    fuel = S fuel'
    /\ read_source bs s nb = (fdsel, off, n)
    /\ ((fdsel < 0
         /\ bdrv_read_loop fuel' bs w (to_int64 (s + n))
              (memset mem buf 0 (to_size_t (to_int (n * 512))))
              (buf + to_int (n * 512)) (to_int (nb - n)) = Some res)
        \/ (0 <= fdsel
            /\ exists r0 data w2,
                 Sys.read
                   (snd (Sys.lseek64_set w fdsel
                           (to_int64 (off + to_int64 (s * 512)))))
                   fdsel (to_size_t (to_int (n * 512))) = (r0, data, w2)
                 /\ ((to_int r0 <> to_int (n * 512)
                      /\ res = (-1, store_bytes mem buf data, w2))
                     \/ (to_int r0 = to_int (n * 512)
                         /\ bdrv_read_loop fuel' bs w2 (to_int64 (s + n))
                              (store_bytes mem buf data)
                              (buf + to_int (n * 512)) (to_int (nb - n))
                            = Some res)))).
Proof.
  intros Hnb. assert ((nb >? 0) = true) as Hgt by lia.
  destruct fuel as [|fuel']; simpl; rewrite Hgt; [done|].
  destruct (read_source bs s nb) as [[fdsel off] n].
  intros Hrun. exists fuel', fdsel, off, n. split; [done|]. split; [done|].
  destruct (fdsel <? 0) eqn:Hfd.
  - left. split; [lia | done].
  - right. split; [lia|].
    destruct (Sys.lseek64_set _ _ _) as [retl w1]. simpl.
    destruct (Sys.read _ _ _) as [[r0 data] w2].
    exists r0, data, w2. split; [done|].
    destruct (Z.eqb_spec (to_int r0) (to_int (n * 512))) as [Heq|Hne];
      simpl in Hrun.
    + right. done.
    + left. split; [done | congruence].
Qed.

(** The loop stores from [buf] on, never below it. *)
Lemma bdrv_read_loop_below bs fuel :
  forall w s mem buf nb r mem' w',
    request_fits mem buf nb ->
    bdrv_read_loop fuel bs w s mem buf nb = Some (r, mem', w') ->
    length mem' = length mem
    /\ forall j, j < buf -> load8 mem' j = load8 mem j.
Proof.
  induction fuel as [|fuel IH]; intros w s mem buf nb r mem' w' Hfit Hrun.
  - destruct (decide (nb <= 0)) as [Hle|Hpos].
    + rewrite bdrv_read_loop_done in Hrun by done.
      injection Hrun as <- <- <-. done.
    + assert (0 < nb) as Hlt by lia.
      destruct (bdrv_read_loop_step _ _ _ _ _ _ _ _ Hlt Hrun)
        as (? & ? & ? & ? & ? & _); done.
  - destruct (decide (nb <= 0)) as [Hle|Hpos].
    { rewrite bdrv_read_loop_done in Hrun by done.
      injection Hrun as <- <- <-. done. }
    assert (0 < nb) as Hlt by lia.
    destruct (bdrv_read_loop_step _ _ _ _ _ _ _ _ Hlt Hrun)
      as (fuel' & fdsel & off & n & [= <-] & Hsrc & Hstep).
    pose proof (is_changed_num_same (cow_bitmap_addr bs) (cow_bitmap bs) s nb
                  ltac:(lia)) as Hn.
    rewrite <- read_source_run, Hsrc in Hn. simpl in Hn.
    destruct Hfit as (Hsz & Hbuf & Hlen).
    assert (to_int (n * 512) = n * 512) as Hn512
      by (apply to_int_fits; unfold in_int, INT_MIN, INT_MAX in *; lia).
    assert (to_int (nb - n) = nb - n) as Hrest
      by (apply to_int_fits; unfold in_int, INT_MIN, INT_MAX in *; lia).
    rewrite Hn512, Hrest in Hstep.
    destruct Hstep as [[_ Hnext] | (_ & r0 & data & w2 & _ & [[_ Hres] | [_ Hnext]])].
    + apply IH in Hnext as [Hl Hkeep].
      * unfold memset in *. rewrite length_store_bytes in Hl. split; [done|].
        intros j Hj. rewrite Hkeep by lia.
        by apply load8_store_bytes_below.
      * unfold request_fits, memset. rewrite length_store_bytes. lia.
    + injection Hres as -> -> ->. rewrite length_store_bytes. split; [done|].
      intros j Hj. by apply load8_store_bytes_below.
    + apply IH in Hnext as [Hl Hkeep].
      * rewrite length_store_bytes in Hl. split; [done|].
        intros j Hj. rewrite Hkeep by lia.
        by apply load8_store_bytes_below.
      * unfold request_fits. rewrite length_store_bytes. lia.
Qed.

(** ** Reading where there is no backing file *)

Lemma read_source_clean bs s nb fdsel off n :
  1 <= nb -> INT64_MIN <= s -> s + nb <= INT64_MAX + 1 ->
  read_source bs s nb = (fdsel, off, n) ->
  1 <= n <= nb
  /\ (forall i, s <= i < s + n -> clean bs i -> fdsel = fd bs /\ off = 0)
  /\ ((forall i, s <= i < s + nb -> clean bs i) -> n = nb).
Proof.
  intros Hnb Hlo Hhi. unfold read_source, clean.
  destruct (cow_bitmap bs) as [p|].
  - destruct (is_changed_present (cow_bitmap_addr bs) p s nb Hnb Hlo Hhi)
      as (n0 & -> & Hn0 & Hrun & Hstop).
    set (c := is_bit_set (cow_bitmap_addr bs) p s) in *.
    destruct (Z.eqb_spec c 0) as [Hc|Hc]; simpl; intros [= <- <- <-].
    + split; [done|]. split; [done|]. intros Hall.
      destruct (decide (n0 < nb)) as [Hlt|]; [|lia].
      exfalso. apply (Hstop Hlt). rewrite Hc. apply Hall. lia.
    + split; [done|]. split.
      * intros i Hi Hclean. exfalso. apply Hc.
        rewrite <- (Hrun (i - s)) by lia.
        by replace (s + (i - s)) with i by lia.
      * intros Hall. exfalso. apply Hc. apply Hall. lia.
  - simpl. intros [= <- <- <-]. split; [lia|]. done.
Qed.

Lemma bdrv_read_loop_zero bs fuel :
  forall w s mem buf nb mem' w',
    fd bs < 0 ->
    request_fits mem buf nb ->
    INT64_MIN <= s -> s + nb <= INT64_MAX ->
    bdrv_read_loop fuel bs w s mem buf nb = Some (0, mem', w') ->
    forall i, s <= i < s + nb -> clean bs i ->
    forall j, 0 <= j < 512 -> load8 mem' (buf + (i - s) * 512 + j) = 0.
Proof.
  induction fuel as [|fuel IH];
    intros w s mem buf nb mem' w' Hfd Hfit Hlo Hhi Hrun i Hi Hclean j Hj;
    assert (0 < nb) as Hlt by lia;
    destruct (bdrv_read_loop_step _ _ _ _ _ _ _ _ Hlt Hrun)
      as (fuel' & fdsel & off & n & Hfuel & Hsrc & Hstep); [done|].
  injection Hfuel as <-.
  assert (1 <= nb) as Hnb by lia.
  assert (s + nb <= INT64_MAX + 1) as Hhi' by lia.
  destruct (read_source_clean bs s nb fdsel off n Hnb Hlo Hhi' Hsrc)
    as (Hn & Hsel & _).
  destruct Hfit as (Hsz & Hbuf & Hlen).
  assert (to_int (n * 512) = n * 512) as Hn512
    by (apply to_int_fits; unfold in_int, INT_MIN, INT_MAX in *; lia).
  assert (to_int (nb - n) = nb - n) as Hrest
    by (apply to_int_fits; unfold in_int, INT_MIN, INT_MAX in *; lia).
  assert (to_int64 (s + n) = s + n) as Hnext64
    by (apply to_int64_fits; unfold in_int64, INT64_MIN, INT64_MAX in *; lia).
  assert (to_size_t (n * 512) = n * 512) as Hsize
    by (apply to_size_t_fits; unfold INT_MAX in *; lia).
  rewrite Hn512, Hrest, Hnext64, Hsize in Hstep.
  destruct (decide (i < s + n)) as [Hin|Hlater].
  - destruct (Hsel i ltac:(lia) Hclean) as [-> ->].
    destruct Hstep as [[_ Hnext] | [Hopen _]]; [|lia].
    apply bdrv_read_loop_below in Hnext as [_ Hkeep].
    + rewrite Hkeep by lia. apply load8_memset_zero; lia.
    + unfold request_fits, memset. rewrite length_store_bytes. lia.
  - replace (buf + (i - s) * 512 + j)
      with (buf + n * 512 + (i - (s + n)) * 512 + j) by lia.
    destruct Hstep
      as [[_ Hnext] | (_ & r0 & data & w2 & _ & [[_ Hres] | [_ Hnext]])];
      [| done |].
    + eapply (IH _ _ _ _ _ _ _ Hfd) in Hnext; [apply Hnext; done | | lia | lia | lia |done..].
      unfold request_fits, memset. rewrite length_store_bytes. lia.
    + eapply (IH _ _ _ _ _ _ _ Hfd) in Hnext; [apply Hnext; done | | lia | lia | lia |done..].
      unfold request_fits. rewrite length_store_bytes. lia.
Qed.

(** C7. On a handle without backing descriptor ([fd < 0]) a sector that is
    not in the overlay reads as zeros and not as an error: a request made of
    such sectors returns 0 without touching any file, and in every request
    that returns 0 the 512 bytes of the caller's buffer that belong to such
    a sector are all 0. *)
Theorem bdrv_read_zero_fill bs w sector_num mem buf nb_sectors :
  fd bs < 0 ->
  request_fits mem buf nb_sectors ->
  INT64_MIN <= sector_num ->
  sector_num + nb_sectors <= INT64_MAX ->
  ((forall i, sector_num <= i < sector_num + nb_sectors -> clean bs i) ->
   exists mem',
     bdrv_read bs w sector_num mem buf nb_sectors = Some (0, mem', w))
  /\ (forall mem' w',
        bdrv_read bs w sector_num mem buf nb_sectors = Some (0, mem', w') ->
        forall i, sector_num <= i < sector_num + nb_sectors -> clean bs i ->
        forall j, 0 <= j < 512 ->
          load8 mem' (buf + (i - sector_num) * 512 + j) = 0).
Proof.
  intros Hfd Hfit Hlo Hhi. split.
  - intros Hall. unfold bdrv_read.
    destruct (decide (nb_sectors <= 0)) as [Hle|Hpos].
    { exists mem. by apply bdrv_read_loop_done. }
    assert ((nb_sectors >? 0) = true) as Hgt by lia.
    destruct (Z.to_nat nb_sectors) as [|fuel] eqn:Hfuel; [lia|]. simpl.
    rewrite Hgt.
    destruct (read_source bs sector_num nb_sectors) as [[fdsel off] n]
      eqn:Hsrc.
    assert (1 <= nb_sectors) as Hnb by lia.
    assert (sector_num + nb_sectors <= INT64_MAX + 1) as Hhi' by lia.
    destruct (read_source_clean bs sector_num nb_sectors fdsel off n
                Hnb Hlo Hhi' Hsrc) as (Hn & Hsel & Hfull).
    rewrite (Hfull Hall) in *.
    destruct (Hsel sector_num ltac:(lia) (Hall sector_num ltac:(lia)))
      as [-> ->].
    assert ((fd bs <? 0) = true) as -> by lia.
    rewrite Z.sub_diag. eexists. by apply bdrv_read_loop_done.
  - intros mem' w' Hrun. by eapply bdrv_read_loop_zero.
Qed.

(** Two sectors read from a handle with neither bitmap nor backing file
    into a buffer that held sevens. *)
Lemma bdrv_read_zero_fill_witness :
  fd blank_handle < 0
  /\ request_fits (replicate 1024 7) 0 2
  /\ INT64_MIN <= 1
  /\ 1 + 2 <= INT64_MAX
  /\ (forall i, 1 <= i < 1 + 2 -> clean blank_handle i)
  /\ exists mem',
       bdrv_read blank_handle empty_world 1 (replicate 1024 7) 0 2
       = Some (0, mem', empty_world).
Proof.
  assert (fd blank_handle < 0) as H1 by (simpl; lia).
  assert (request_fits (replicate 1024 7) 0 2) as H2.
  { unfold request_fits. repeat split; vm_compute; discriminate. }
  assert (INT64_MIN <= 1) as H3 by (vm_compute; discriminate).
  assert (1 + 2 <= INT64_MAX) as H4 by (vm_compute; discriminate).
  assert (forall i, 1 <= i < 1 + 2 -> clean blank_handle i) as H5
    by (intros i _; exact I).
  split; [exact H1|]. split; [exact H2|]. split; [exact H3|].
  split; [exact H4|]. split; [exact H5|].
  exact (proj1 (bdrv_read_zero_fill blank_handle empty_world 1
                  (replicate 1024 7) 0 2 H1 H2 H3 H4) H5).
Defined.

Example bdrv_read_blank_sectors :
  bdrv_read blank_handle empty_world 1 (replicate 1024 7) 0 2
  = Some (0, replicate 1024 0, empty_world).
Proof. vm_compute. reflexivity. Qed.

(** ** Commit *)

Lemma with_cow_bitmap_restore bs p :
  cow_bitmap bs = Some p ->
  with_cow_bitmap (Some p) (with_cow_bitmap None bs) = bs.
Proof. destruct bs. simpl. by intros ->. Qed.

(** Whatever its outcome, the commit loop hands the handle back as it got
    it: the pointer it hid is restored, and nothing stored through it. *)
Lemma bdrv_commit_loop_handle p todo :
  forall i bs w r bs' w',
    cow_bitmap bs = Some p ->
    bdrv_commit_loop todo p i bs w = Some (r, bs', w') ->
    bs' = bs.
Proof.
  induction todo as [|todo IH]; intros i bs w r bs' w' Hp; simpl.
  { by intros [= _ <- _]. }
  destruct (negb (is_bit_set (cow_bitmap_addr bs) p i =? 0)); [|by apply IH].
  destruct (bdrv_read bs w i sector_array 0 1) as [[[r1 sector] w1]|]; [|done].
  destruct (negb (r1 =? 0)); [by intros [= _ <- _]|].
  destruct (bdrv_write (with_cow_bitmap None bs) w1 i sector 0 1)
    as [[r2 bs2] w2] eqn:Hwrite.
  apply bdrv_write_handle in Hwrite as [_ Hbs2]. simpl in Hbs2. subst bs2.
  rewrite (with_cow_bitmap_restore bs p Hp).
  destruct (negb (r2 =? 0)); [by intros [= _ <- _]|].
  by apply IH.
Qed.

(** [bdrv_commit] always returns: each sector it reads is a request of one
    sector, for which one round of the read loop is enough. *)
Lemma bdrv_commit_loop_returns p todo :
  forall i bs w, exists res, bdrv_commit_loop todo p i bs w = Some res.
Proof.
  induction todo as [|todo IH]; intros i bs w; simpl; [by eexists|].
  destruct (negb (is_bit_set (cow_bitmap_addr bs) p i =? 0)); [|apply IH].
  destruct (bdrv_read_loop_total bs 1 w i sector_array 0 1) as [res Hres];
    [unfold INT_MAX; lia | simpl; lia |].
  unfold bdrv_read. rewrite (Hres (Z.to_nat 1)) by lia.
  destruct res as [[r sector] w1].
  destruct (negb (r =? 0)); [by eexists|].
  destruct (bdrv_write _ _ _ _ _ _) as [[r2 bs2] w2].
  destruct (negb (r2 =? 0)); [by eexists | apply IH].
Qed.

Lemma bdrv_commit_returns bs w : exists res, bdrv_commit bs w = Some res.
Proof.
  unfold bdrv_commit. destruct (cow_bitmap bs) as [p|]; [|by eexists].
  destruct (negb (read_only bs =? 0)); [by eexists|].
  apply bdrv_commit_loop_returns.
Qed.

(** C1 (as amended). When [bdrv_commit] returns 0 on a handle with an
    overlay, the handle is exactly as before: the bitmap pointer is back in
    place and no dirty bit was cleared, so a later read of a sector whose
    bit is set still takes it from the overlay descriptor. *)
Theorem bdrv_commit_keeps_overlay bs w p bs' w' :
  cow_bitmap bs = Some p ->
  bdrv_commit bs w = Some (0, bs', w') ->
  bs' = bs
  /\ forall i, is_bit_set (cow_bitmap_addr bs) p i = 1 ->
       read_source bs' i 1 = (cow_fd bs, cow_sectors_offset bs, 1).
Proof.
  intros Hp Hrun.
  assert (bs' = bs) as ->.
  { unfold bdrv_commit in Hrun. rewrite Hp in Hrun.
    destruct (negb (read_only bs =? 0)); [by injection Hrun|].
    by eapply bdrv_commit_loop_handle. }
  split; [done|]. intros i Hbit.
  unfold read_source, is_changed. rewrite Hp. simpl. by rewrite Hbit.
Qed.

Lemma bdrv_commit_keeps_overlay_witness :
  cow_bitmap dirty_handle = Some 0
  /\ bdrv_commit dirty_handle dirty_world
     = Some (0, dirty_handle, committed_world)
  /\ read_source dirty_handle 1 1 = (1, 0, 1).
Proof.
  assert (cow_bitmap dirty_handle = Some 0) as H1 by reflexivity.
  assert (bdrv_commit dirty_handle dirty_world
          = Some (0, dirty_handle, committed_world)) as H2
    by (vm_compute; reflexivity).
  split; [exact H1|]. split; [exact H2|].
  exact (proj2 (bdrv_commit_keeps_overlay dirty_handle dirty_world 0
                  dirty_handle committed_world H1 H2) 1 eq_refl).
Defined.

(** C1, as first stated, fails: the commit of the snapshot with sector 1
    dirty returns 0 and copies the sector into [disk.img], yet afterwards
    the bitmap is still in place with bit 1 set, and a read of sector 1
    picks the overlay descriptor (1), not the backing descriptor (0). *)
Lemma bdrv_commit_overlay_stays :
  cow_bitmap dirty_handle = Some 0
  /\ exists bs' w',
       bdrv_commit dirty_handle dirty_world = Some (0, bs', w')
       /\ cow_bitmap bs' <> None
       /\ is_bit_set (cow_bitmap_addr bs') 0 1 = 1
       /\ fd bs' = 0 /\ cow_fd bs' = 1
       /\ read_source bs' 1 1 = (cow_fd bs', cow_sectors_offset bs', 1)
       /\ (i_data <$> Sys.file_of w' (fd bs'))
          = Some (replicate 512 1 ++ replicate 512 255 ++ replicate 512 3).
Proof.
  split; [reflexivity|].
  exists dirty_handle, committed_world.
  split; [vm_compute; reflexivity|].
  split; [discriminate|].
  repeat (split; [vm_compute; reflexivity|]).
  vm_compute; reflexivity.
Qed.

(** ** Opening an image *)

Lemma alloc_fd_lookup fds o k fds' :
  Sys.alloc_fd fds o = (k, fds') -> fds' !! k = Some (Some o).
Proof.
  revert k fds'. induction fds as [|[x|] rest IH]; intros k fds'; simpl.
  - by intros [= <- <-].
  - destruct (Sys.alloc_fd rest o) as [k0 rest'] eqn:Hrest.
    intros [= <- <-]. simpl. by apply IH.
  - by intros [= <- <-].
Qed.

(** What [open] answers for a path that names the file [f]. *)
Lemma open_named w path rdwr ino f :
  Sys.lookup_name (w_names w) path = Some ino ->
  w_inodes w !! ino = Some f ->
  if i_readable f && (negb rdwr || i_writable f) then
    exists fd w',
      Sys.open w path rdwr = (fd, w') /\ 0 <= fd
      /\ Sys.get_ofile w' fd = Some (mkOfile ino rdwr 0)
      /\ w_inodes w' = w_inodes w /\ w_names w' = w_names w
      /\ w_stderr w' = w_stderr w
  else Sys.open w path rdwr = (-1, w).
Proof.
  intros Hname Hino. unfold Sys.open. rewrite Hname, Hino.
  destruct (i_readable f && (negb rdwr || i_writable f)); [|done].
  destruct (Sys.alloc_fd (w_fds w) (mkOfile ino rdwr 0)) as [k fds'] eqn:Hk.
  exists (Z.of_nat k), (with_fds fds' w). split; [done|]. split; [lia|].
  split; [|done].
  unfold Sys.get_ofile.
  assert ((Z.of_nat k <? 0) = false) as -> by (apply Z.ltb_ge; lia).
  simpl. rewrite Nat2Z.id. by rewrite (alloc_fd_lookup _ _ _ _ Hk).
Qed.

Lemma stat_same w w' path :
  w_names w' = w_names w -> w_inodes w' = w_inodes w ->
  Sys.stat w' path = Sys.stat w path.
Proof. intros Hn Hi. unfold Sys.stat. by rewrite Hn, Hi. Qed.

Lemma close_stderr w fd : w_stderr (Sys.close w fd) = w_stderr w.
Proof. unfold Sys.close. by destruct (Sys.get_ofile w fd). Qed.

Lemma bdrv_close_stderr bs w : w_stderr (bdrv_close bs w) = w_stderr w.
Proof.
  unfold bdrv_close.
  destruct (cow_fd bs >=? 0), (fd bs >=? 0); by rewrite ?close_stderr.
Qed.

(** ** Byte order of the header fields *)

Lemma be_decode_4 b0 b1 b2 b3 :
  be_decode [b0; b1; b2; b3] = b0 * 2 ^ 24 + b1 * 2 ^ 16 + b2 * 2 ^ 8 + b3.
Proof. unfold be_decode. simpl. lia. Qed.

Lemma le_decode_4 b0 b1 b2 b3 :
  le_decode [b0; b1; b2; b3] = b0 + b1 * 2 ^ 8 + b2 * 2 ^ 16 + b3 * 2 ^ 24.
Proof. simpl. lia. Qed.

Lemma bswap32_bytes b0 b1 b2 b3 :
  0 <= b0 < 256 -> 0 <= b1 < 256 -> 0 <= b2 < 256 -> 0 <= b3 < 256 ->
  bswap32 (b0 + b1 * 2 ^ 8 + b2 * 2 ^ 16 + b3 * 2 ^ 24)
  = b0 * 2 ^ 24 + b1 * 2 ^ 16 + b2 * 2 ^ 8 + b3.
Proof.
  intros H0 H1 H2 H3. unfold bswap32.
  change (2 ^ 8) with 256. change (2 ^ 16) with 65536.
  change (2 ^ 24) with 16777216.
  Z.div_mod_to_equations. lia.
Qed.

Lemma four_bytes (b : list Z) :
  bytes_ok b -> length b = 4%nat ->
  exists b0 b1 b2 b3,
    b = [b0; b1; b2; b3]
    /\ 0 <= b0 < 256 /\ 0 <= b1 < 256 /\ 0 <= b2 < 256 /\ 0 <= b3 < 256.
Proof.
  intros Hok Hlen.
  destruct b as [|b0 [|b1 [|b2 [|b3 [|]]]]]; try discriminate.
  exists b0, b1, b2, b3. split; [done|].
  unfold bytes_ok in Hok.
  apply Forall_cons_1 in Hok as [H0 Hok]. apply Forall_cons_1 in Hok as [H1 Hok].
  apply Forall_cons_1 in Hok as [H2 Hok]. apply Forall_cons_1 in Hok as [H3 _].
  done.
Qed.

Section OpenProps.

Variable WORDS_BIGENDIAN : bool.
Variables COW_MAGIC COW_VERSION : Z.
Variable sizeof_cow_header : Z.
Variables offsetof_backing_file sizeof_backing_file : nat.
Variables offsetof_mtime offsetof_size : nat.

Local Abbreviation the_load := (load_host WORDS_BIGENDIAN).
Local Abbreviation the_htonl := (htonl WORDS_BIGENDIAN).
Local Abbreviation the_probe_image :=
  (probe_image WORDS_BIGENDIAN COW_MAGIC COW_VERSION sizeof_cow_header
               offsetof_backing_file sizeof_backing_file
               offsetof_mtime offsetof_size).
Local Abbreviation the_bdrv_open :=
  (bdrv_open WORDS_BIGENDIAN COW_MAGIC COW_VERSION sizeof_cow_header
             offsetof_backing_file sizeof_backing_file
             offsetof_mtime offsetof_size).
Local Abbreviation container :=
  (cow_container COW_MAGIC COW_VERSION sizeof_cow_header).
Local Abbreviation backing_of :=
  (named_backing offsetof_backing_file sizeof_backing_file).
Local Abbreviation mtime_of := (stored_mtime offsetof_mtime).

(** Whatever the byte order of the host, [htonl] of a 32-bit header field
    is the big-endian value of its four bytes. *)
Lemma htonl_load_host b :
  bytes_ok b -> length b = 4%nat -> the_htonl (the_load b) = be_decode b.
Proof.
  intros Hok Hlen.
  destruct (four_bytes b Hok Hlen) as (b0 & b1 & b2 & b3 & -> & H0 & H1 & H2 & H3).
  unfold htonl, load_host, to_uint32.
  destruct WORDS_BIGENDIAN.
  - rewrite be_decode_4. apply Z.mod_small. lia.
  - rewrite le_decode_4, be_decode_4, Z.mod_small by lia.
    by apply bswap32_bytes.
Qed.

(** A 32-bit field holds the big-endian value [v] exactly when the host
    finds it equal to [htonl(v)]. *)
Lemma load_host_is_htonl b v :
  bytes_ok b -> length b = 4%nat -> be_decode b = v ->
  (the_load b =? the_htonl v) = true.
Proof.
  intros Hok Hlen <-. apply Z.eqb_eq.
  destruct (four_bytes b Hok Hlen) as (b0 & b1 & b2 & b3 & -> & H0 & H1 & H2 & H3).
  unfold htonl, load_host, to_uint32.
  destruct WORDS_BIGENDIAN.
  - rewrite be_decode_4. symmetry. apply Z.mod_small. lia.
  - rewrite le_decode_4, be_decode_4, Z.mod_small by lia.
    replace (b0 * 2 ^ 24 + b1 * 2 ^ 16 + b2 * 2 ^ 8 + b3)
      with (b3 + b2 * 2 ^ 8 + b1 * 2 ^ 16 + b0 * 2 ^ 24) by lia.
    rewrite bswap32_bytes by done. lia.
Qed.

Lemma bytes_ok_field raw off len : bytes_ok raw -> bytes_ok (field raw off len).
Proof.
  unfold bytes_ok, field. intros Hok.
  by apply Forall_take, Forall_drop.
Qed.

Lemma length_field raw off len :
  (off + len <= length raw)%nat -> length (field raw off len) = len.
Proof. intros Hlen. unfold field. rewrite length_take, length_drop. lia. Qed.

Lemma open_image_named filename snapshot bs w ino f :
  Sys.lookup_name (w_names w) filename = Some ino ->
  w_inodes w !! ino = Some f ->
  if i_readable f then
    Sys.open w filename false <> (-1, w)
    /\ exists fd bs1 w1 rdwr,
         open_image filename snapshot bs w = Go_on fd bs1 w1
         /\ Sys.get_ofile w1 fd = Some (mkOfile ino rdwr 0)
         /\ w_inodes w1 = w_inodes w /\ w_names w1 = w_names w
         /\ w_stderr w1 = w_stderr w
  else
    Sys.open w filename false = (-1, w)
    /\ open_image filename snapshot bs w
       = Goto_fail bs (eprint (Perror filename) w).
Proof.
  intros Hname Hino. unfold open_image.
  pose proof (open_named w filename true ino f Hname Hino) as Hrw.
  pose proof (open_named w filename false ino f Hname Hino) as Hro.
  destruct (i_readable f); simpl in *.
  - destruct Hro as (fd' & w2 & Hopen' & Hfd' & Hget' & Hi' & Hn' & He').
    split. { rewrite Hopen'. intros [= -> _]. lia. }
    destruct (i_writable f).
    + destruct Hrw as (fd & w1 & -> & Hfd & Hget & Hi & Hn & He).
      assert ((fd <? 0) = false) as -> by lia.
      by exists fd, (with_fd fd bs), w1, true.
    + rewrite Hrw. simpl. rewrite Hopen'.
      assert ((fd' <? 0) = false) as -> by lia.
      by eexists fd', _, w2, false.
  - by rewrite Hrw, Hro.
Qed.

Lemma probe_image_stale filename snapshot fd bs w ino rdwr f raw st_mtime :
  8 <= sizeof_cow_header ->
  Z.of_nat offsetof_mtime + 4 <= sizeof_cow_header ->
  Sys.get_ofile w fd = Some (mkOfile ino rdwr 0) ->
  w_inodes w !! ino = Some f ->
  sizeof_cow_header <= Z.of_nat (length (i_data f)) ->
  raw = take (Z.to_nat sizeof_cow_header) (i_data f) ->
  bytes_ok raw ->
  be_decode (field raw 0 4) = COW_MAGIC ->
  be_decode (field raw 4 4) = COW_VERSION ->
  hd 0 (field raw offsetof_backing_file sizeof_backing_file) <> 0 ->
  Sys.stat w (backing_of raw) = Some st_mtime ->
  st_mtime <> mtime_of raw ->
  exists bs' w',
    the_probe_image filename snapshot fd bs w
    = Goto_fail bs'
        (eprint (Timestamp_mismatch filename (backing_of raw)) w')
    /\ w_stderr w' = w_stderr w.
Proof.
  intros Hsz Hmt Hget Hino Hlen Hraw Hok Hmagic Hversion Hnamed Hstat Hstale.
  assert (length raw = Z.to_nat sizeof_cow_header) as Hrawlen.
  { rewrite Hraw, length_take. lia. }
  unfold probe_image, Sys.read. rewrite Hget. simpl. rewrite Hino.
  rewrite drop_0, <- Hraw, Hrawlen, Z2Nat.id, Z.eqb_refl by lia. simpl.
  rewrite (load_host_is_htonl _ COW_MAGIC), (load_host_is_htonl _ COW_VERSION);
    [| by apply bytes_ok_field | apply length_field; lia | done
     | by apply bytes_ok_field | apply length_field; lia | done].
  simpl. unfold open_backing. simpl.
  destruct (Z.eqb_spec (hd 0 (field raw offsetof_backing_file
                                sizeof_backing_file)) 0) as [|_]; [done|].
  simpl. fold (backing_of raw).
  erewrite stat_same; [rewrite Hstat | done | done].
  rewrite htonl_load_host; [| by apply bytes_ok_field | apply length_field; lia].
  fold (mtime_of raw).
  destruct (Z.eqb_spec st_mtime (mtime_of raw)) as [|_]; [done|].
  simpl. eexists _, _. split; [reflexivity | done].
Qed.

(** C8. When the file opened is a COW container that names a backing file
    and the backing file's current modification time is not the one stored
    in the header, [bdrv_open] returns no handle; and whenever it got as
    far as reading the header (memory for the handle, image readable) the
    last thing it printed is the timestamp complaint. *)
Theorem bdrv_open_stale_backing w filename snapshot raw st_mtime :
  8 <= sizeof_cow_header ->
  Z.of_nat offsetof_mtime + 4 <= sizeof_cow_header ->
  container w filename raw ->
  hd 0 (field raw offsetof_backing_file sizeof_backing_file) <> 0 ->
  Sys.stat w (backing_of raw) = Some st_mtime ->
  st_mtime <> mtime_of raw ->
  fst (the_bdrv_open filename snapshot w) = None
  /\ (Sys.malloc w <> None ->
      Sys.open w filename false <> (-1, w) ->
      w_stderr (snd (the_bdrv_open filename snapshot w))
      = w_stderr w ++ [Timestamp_mismatch filename (backing_of raw)]).
Proof.
  intros Hsz Hmt (ino & f & Hname & Hino & Hlen & Hraw & Hok & Hmagic & Hver)
         Hnamed Hstat Hstale.
  unfold bdrv_open.
  destruct (Sys.malloc w) as [bs0|]; [|by split].
  set (bs := with_filename _ _).
  pose proof (open_image_named filename snapshot bs w ino f Hname Hino) as Himg.
  destruct (i_readable f).
  - destruct Himg as (_ & fd & bs1 & w1 & rdwr & -> & Hget & Hi & Hn & He).
    simpl.
    destruct (probe_image_stale filename snapshot fd bs1 w1 ino rdwr f raw
                st_mtime) as (bs' & w' & -> & He');
      [done | done | done | by rewrite Hi | done | done | done | done | done
       | done | by rewrite (stat_same w w1) | done |].
    simpl. split; [done|]. intros _ _.
    rewrite bdrv_close_stderr. simpl. by rewrite He', He.
  - destruct Himg as [Hclosed ->]. simpl. split; [done|]. by intros _ ?.
Qed.

End OpenProps.

(** The machines above are what [bdrv_open] makes of [disk.img]. *)
Example snap_handle_opened :
  host_bdrv_open "disk.img" 1 (disk_world true true)
  = (Some snap_handle, snap_world).
Proof. vm_compute. reflexivity. Qed.

Example ro_handle_opened :
  host_bdrv_open "disk.img" 0 (disk_world true false)
  = (Some ro_handle, ro_world).
Proof. vm_compute. reflexivity. Qed.

Lemma bdrv_open_stale_backing_witness :
  8 <= 1056
  /\ Z.of_nat 1032 + 4 <= 1056
  /\ cow_container 0x4f4f4f4d 2 1056 stale_world "snap.cow" stale_header
  /\ hd 0 (field stale_header 8 1024) <> 0
  /\ Sys.stat stale_world (named_backing 8 1024 stale_header) = Some 1000
  /\ 1000 <> stored_mtime 1032 stale_header
  /\ fst (host_bdrv_open "snap.cow" 0 stale_world) = None.
Proof.
  assert (8 <= 1056) as H1 by lia.
  assert (Z.of_nat 1032 + 4 <= 1056) as H2 by lia.
  assert (cow_container 0x4f4f4f4d 2 1056 stale_world "snap.cow" stale_header)
    as H3.
  { exists 1%nat, (mkInode stale_container 1200 true true).
    split; [reflexivity|]. split; [reflexivity|].
    split; [vm_compute; discriminate|]. split; [reflexivity|].
    split.
    { apply (bool_decide_unpack (Forall (fun b => 0 <= b < 256) stale_header)).
      vm_compute. exact I. }
    split; vm_compute; reflexivity. }
  assert (hd 0 (field stale_header 8 1024) <> 0) as H4
    by (vm_compute; discriminate).
  assert (Sys.stat stale_world (named_backing 8 1024 stale_header) = Some 1000)
    as H5 by (vm_compute; reflexivity).
  assert (1000 <> stored_mtime 1032 stale_header) as H6
    by (vm_compute; discriminate).
  split; [exact H1|]. split; [exact H2|]. split; [exact H3|].
  split; [exact H4|]. split; [exact H5|]. split; [exact H6|].
  exact (proj1 (bdrv_open_stale_backing false 0x4f4f4f4d 2 1056 8 1024 1032
                  1040 stale_world "snap.cow" 0 stale_header 1000
                  H1 H2 H3 H4 H5 H6)).
Defined.

Example bdrv_open_stale_message :
  w_stderr (snd (host_bdrv_open "snap.cow" 0 stale_world))
  = [Timestamp_mismatch "snap.cow" "disk.img"].
Proof. vm_compute. reflexivity. Qed.

(** C2 (what the code does). [bdrv_open] never looks at the length of the
    path: for a path of 1024 characters that names a raw image, [strcpy]
    stores 1025 bytes into the 1024-byte [filename] array, nothing is
    reported, and the handle is returned with the whole path in it. *)
Theorem bdrv_open_long_path :
  String.length long_path = 1024%nat
  /\ FILENAME_CAPACITY < strcpy_stores long_path
  /\ exists bs w',
       host_bdrv_open long_path 0 long_world = (Some bs, w')
       /\ filename bs = long_path
       /\ fd bs = 0 /\ total_sectors bs = 3
       /\ w_stderr w' = [].
Proof.
  split; [vm_compute; reflexivity|].
  split; [vm_compute; reflexivity|].
  eexists _, _. split; [vm_compute; reflexivity|].
  repeat split.
Qed.

(** * Further properties *)

(** ** Bytes of a file *)

Lemma length_pread data pos len :
  0 <= len -> Z.of_nat (length (pread data pos len)) <= len.
Proof. intros Hlen. unfold pread. rewrite length_take. lia. Qed.

Lemma length_pread_inside data pos len :
  0 <= pos -> 0 <= len -> pos + len <= Z.of_nat (length data) ->
  Z.of_nat (length (pread data pos len)) = len.
Proof.
  intros Hpos Hlen Hin. unfold pread. rewrite length_take, length_drop. lia.
Qed.

Lemma length_pread_short data pos len :
  0 <= pos -> 0 < len -> Z.of_nat (length data) < pos + len ->
  Z.of_nat (length (pread data pos len)) < len.
Proof.
  intros Hpos Hlen Hin. unfold pread. rewrite length_take, length_drop. lia.
Qed.

(** What was written at [pos] is what is read back from [pos]. *)
Lemma pread_overwrite_same old pos d :
  0 <= pos ->
  pread (Sys.overwrite old (Z.to_nat pos) d) pos (Z.of_nat (length d)) = d.
Proof.
  intros Hpos. unfold pread, Sys.overwrite. rewrite Nat2Z.id.
  destruct d as [|x d]; [by rewrite take_0|].
  set (d' := x :: d).
  rewrite drop_app_length' by (by rewrite length_resize).
  by rewrite take_app_length.
Qed.

(** Bytes that lie before the written range, inside the old file, are as
    they were. *)
Lemma pread_overwrite_before old pos d q len :
  0 <= q -> 0 <= len -> q + len <= pos ->
  q + len <= Z.of_nat (length old) ->
  pread (Sys.overwrite old (Z.to_nat pos) d) q len = pread old q len.
Proof.
  intros Hq Hlen Hbefore Hin. unfold pread, Sys.overwrite.
  destruct d as [|x d]; [done|].
  apply list_eq. intros k.
  destruct (decide (k < Z.to_nat len)%nat) as [Hk|Hk].
  - rewrite !lookup_take_lt, !lookup_drop by done.
    rewrite lookup_app_l by (rewrite length_resize; lia).
    rewrite lookup_resize by lia. done.
  - rewrite !lookup_take_ge by lia. done.
Qed.

(** Bytes that lie after the written range are as they were. *)
Lemma pread_overwrite_after old pos d q len :
  0 <= pos -> pos + Z.of_nat (length d) <= q ->
  pread (Sys.overwrite old (Z.to_nat pos) d) q len = pread old q len.
Proof.
  intros Hpos Hafter. unfold pread, Sys.overwrite.
  destruct d as [|x d]; [done|]. set (d' := x :: d) in *.
  f_equal. rewrite app_assoc.
  rewrite drop_app_ge by (rewrite length_app, length_resize; lia).
  rewrite drop_drop. f_equal.
  rewrite length_app, length_resize. lia.
Qed.

Lemma length_overwrite old pos d :
  (length old <= length (Sys.overwrite old pos d))%nat
  /\ (d <> [] -> pos + length d <= length (Sys.overwrite old pos d))%nat.
Proof.
  unfold Sys.overwrite. destruct d as [|x d]; [done|].
  rewrite !length_app, length_resize, length_drop. simpl. lia.
Qed.

(** ** Seek, read and write on an open file *)

Lemma file_of_Some w fd f :
  Sys.file_of w fd = Some f <->
  exists o, Sys.get_ofile w fd = Some o /\ w_inodes w !! o_ino o = Some f.
Proof.
  unfold Sys.file_of. destruct (Sys.get_ofile w fd) as [o|]; simpl.
  - split; [by exists o | by intros (o' & [= <-] & ?)].
  - split; [done | by intros (o' & ? & _)].
Qed.

Lemma lseek64_set_ok w fd o offset :
  Sys.get_ofile w fd = Some o -> 0 <= offset ->
  Sys.lseek64_set w fd offset
  = (offset, Sys.set_ofile w fd (Some (mkOfile (o_ino o) (o_rdwr o) offset))).
Proof.
  intros Hget Hoff. unfold Sys.lseek64_set. rewrite Hget.
  by assert ((offset <? 0) = false) as -> by lia.
Qed.

(** Seeking to [pos] and reading [count] bytes delivers the bytes of the
    file at [pos] and changes no file. *)
Lemma seek_read w fd o f pos count :
  Sys.get_ofile w fd = Some o -> w_inodes w !! o_ino o = Some f ->
  0 <= pos ->
  exists w',
    Sys.read (snd (Sys.lseek64_set w fd pos)) fd count
    = (Z.of_nat (length (pread (i_data f) pos count)),
       pread (i_data f) pos count, w')
    /\ w_inodes w' = w_inodes w.
Proof.
  intros Hget Hino Hpos. rewrite (lseek64_set_ok w fd o pos Hget Hpos). simpl.
  unfold Sys.read. rewrite (get_set_ofile_eq w fd o _ Hget). simpl.
  rewrite Hino. eexists. split; [reflexivity | done].
Qed.

(** Seeking to [pos] and writing [count] bytes of [buf], on a descriptor
    open for writing: the file behind it is overwritten at [pos]. *)
Lemma seek_write w fd o f pos buf count :
  Sys.get_ofile w fd = Some o -> w_inodes w !! o_ino o = Some f ->
  0 <= pos -> o_rdwr o = true ->
  let d := take (Z.to_nat count) buf in
  exists w',
    Sys.write (snd (Sys.lseek64_set w fd pos)) fd buf count
    = (Z.of_nat (length d), w')
    /\ Sys.file_of w' fd
       = Some (mkInode (Sys.overwrite (i_data f) (Z.to_nat pos) d)
                       (i_mtime f) (i_readable f) (i_writable f))
    /\ touches fd w w'.
Proof.
  intros Hget Hino Hpos Hrw d.
  pose proof (lseek64_set_touches w fd pos) as Hseek.
  rewrite (lseek64_set_ok w fd o pos Hget Hpos) in *. simpl in *.
  set (w1 := Sys.set_ofile w fd _) in *.
  pose proof (write_touches w1 fd buf count) as Hwrite.
  assert (Sys.get_ofile w1 fd = Some (mkOfile (o_ino o) (o_rdwr o) pos)) as Hget1
    by apply (get_set_ofile_eq w fd o _ Hget).
  unfold Sys.write in *. rewrite Hget1 in *. simpl in *.
  rewrite Hrw, Hino in *. simpl in *.
  eexists. split; [reflexivity|]. split; [|by eapply touches_trans].
  apply file_of_Some. eexists. split.
  - apply (get_set_ofile_eq (with_inodes _ w1) fd _ _ Hget1).
  - simpl. apply list_lookup_insert_eq. by eapply lookup_lt_Some.
Qed.

(** A descriptor on which a seek to an offset that is not negative fails
    is not open. *)
Lemma lseek64_set_fails w fd offset w1 :
  Sys.lseek64_set w fd offset = (-1, w1) -> 0 <= offset ->
  Sys.get_ofile w fd = None.
Proof.
  intros Hrun Hoff. unfold Sys.lseek64_set in Hrun.
  destruct (Sys.get_ofile w fd) as [o|]; [|done].
  assert ((offset <? 0) = false) as Hlt by lia. rewrite Hlt in Hrun.
  injection Hrun as Hneg _. lia.
Qed.

Lemma write_refused w fd o buf count :
  Sys.get_ofile w fd = Some o ->
  o_rdwr o = false \/ w_inodes w !! o_ino o = None ->
  Sys.write w fd buf count = (-1, w).
Proof.
  intros Hget Hwhy. unfold Sys.write. rewrite Hget.
  destruct (o_rdwr o); [|done].
  destruct Hwhy as [|Hnone]; [done|]. by rewrite Hnone.
Qed.

(** ** What a successful write leaves in the file *)

Lemma offsets_fit_values off a n :
  offsets_fit off a n ->
  to_int64 (off + to_int64 (a * 512)) = off + a * 512
  /\ to_int (n * 512) = n * 512
  /\ to_size_t (n * 512) = n * 512
  /\ 0 <= off + a * 512.
Proof.
  intros (Ha & Hn & Hsz & Hoff & Hend).
  unfold INT_MAX, INT64_MAX in *.
  rewrite (to_int64_fits (a * 512))
    by (unfold in_int64, INT64_MIN, INT64_MAX; lia).
  rewrite to_int64_fits by (unfold in_int64, INT64_MIN, INT64_MAX; lia).
  rewrite to_int_fits by (unfold in_int, INT_MIN, INT_MAX; lia).
  rewrite to_size_t_fits by lia. repeat split; lia.
Qed.

Lemma bdrv_write_effect bs w a mem buf n bs' w' tfd off :
  write_target bs = (tfd, off) ->
  offsets_fit off a n ->
  bdrv_write bs w a mem buf n = (0, bs', w') ->
  let d := pread mem buf (n * 512) in
  Z.of_nat (length d) = n * 512
  /\ exists f,
       Sys.file_of w tfd = Some f
       /\ Sys.file_of w' tfd
          = Some (mkInode (Sys.overwrite (i_data f)
                             (Z.to_nat (off + a * 512)) d)
                          (i_mtime f) (i_readable f) (i_writable f))
       /\ touches tfd w w'.
Proof.
  intros Htgt Hfit Hrun d.
  destruct (offsets_fit_values off a n Hfit) as (Hpos & Hcnt & Hsize & Hnonneg).
  unfold bdrv_write in Hrun.
  destruct (negb (read_only bs =? 0)); [by injection Hrun|].
  rewrite Htgt, Hpos, Hcnt, Hsize in Hrun.
  destruct (Sys.get_ofile w tfd) as [o|] eqn:Hget.
  2: { unfold Sys.lseek64_set in Hrun. rewrite Hget in Hrun.
       simpl in Hrun. by injection Hrun. }
  destruct (o_rdwr o) eqn:Hrw.
  2: { rewrite (lseek64_set_ok w tfd o _ Hget Hnonneg) in Hrun.
       assert ((off + a * 512 =? -1) = false) as Hne by lia.
       rewrite Hne in Hrun.
       rewrite (write_refused _ tfd _ _ _ (get_set_ofile_eq w tfd o _ Hget))
         in Hrun by (by left).
       destruct Hfit as (_ & Hn & _).
       change (to_int (-1)) with (-1) in Hrun.
       assert ((-1 =? n * 512) = false) as Hne' by lia.
       rewrite Hne' in Hrun. by injection Hrun. }
  destruct (w_inodes w !! o_ino o) as [f|] eqn:Hino.
  2: { rewrite (lseek64_set_ok w tfd o _ Hget Hnonneg) in Hrun.
       assert ((off + a * 512 =? -1) = false) as Hne by lia.
       rewrite Hne in Hrun.
       rewrite (write_refused _ tfd _ _ _ (get_set_ofile_eq w tfd o _ Hget))
         in Hrun by (by right).
       destruct Hfit as (_ & Hn & _).
       change (to_int (-1)) with (-1) in Hrun.
       assert ((-1 =? n * 512) = false) as Hne' by lia.
       rewrite Hne' in Hrun. by injection Hrun. }
  destruct (seek_write w tfd o f (off + a * 512) (drop (Z.to_nat buf) mem)
              (n * 512) Hget Hino Hnonneg Hrw) as (w2 & Hwrite & Hfile & Htouch).
  rewrite (lseek64_set_ok w tfd o _ Hget Hnonneg) in Hrun, Hwrite.
  simpl in Hwrite.
  assert ((off + a * 512 =? -1) = false) as Hne by lia.
  rewrite Hne, Hwrite in Hrun. fold (pread mem buf (n * 512)) in *. fold d in Hrun, Hfile.
  destruct Hfit as (_ & Hn & Hsz & _).
  pose proof (length_pread mem buf (n * 512) ltac:(lia)) as Hlen. fold d in Hlen.
  rewrite to_int_fits in Hrun by (unfold in_int, INT_MIN, INT_MAX in *; lia).
  destruct (Z.eqb_spec (Z.of_nat (length d)) (n * 512)) as [Heq|Hneq];
    simpl in Hrun; [|by injection Hrun].
  split; [done|]. exists f.
  split; [apply file_of_Some; by exists o|].
  assert (w' = w2) as ->
    by (destruct (cow_bitmap bs); by injection Hrun).
  done.
Qed.

(** ** A request served from one descriptor *)

Lemma read_source_raw bs a n :
  cow_bitmap bs = None -> read_source bs a n = (fd bs, 0, n).
Proof. intros Hnone. unfold read_source, is_changed. by rewrite Hnone. Qed.

Lemma read_source_dirty bs p a n :
  cow_bitmap bs = Some p ->
  1 <= n -> INT64_MIN <= a -> a + n <= INT64_MAX + 1 ->
  (forall i, a <= i < a + n -> is_bit_set (cow_bitmap_addr bs) p i = 1) ->
  read_source bs a n = (cow_fd bs, cow_sectors_offset bs, n).
Proof.
  intros Hp Hn Hlo Hhi Hdirty. unfold read_source. rewrite Hp.
  destruct (is_changed_present (cow_bitmap_addr bs) p a n Hn Hlo Hhi)
    as (n0 & -> & Hn0 & _ & Hstop).
  rewrite (Hdirty a) by lia. simpl.
  destruct (decide (n0 < n)) as [Hlt|]; [|repeat f_equal; lia].
  exfalso. apply (Hstop Hlt). rewrite !Hdirty by lia. done.
Qed.

Lemma bdrv_read_one_run bs w a mem buf n fdsel off f :
  1 <= n ->
  offsets_fit off a n ->
  read_source bs a n = (fdsel, off, n) ->
  Sys.file_of w fdsel = Some f ->
  let data := pread (i_data f) (off + a * 512) (n * 512) in
  exists w',
    bdrv_read bs w a mem buf n
    = Some (if Z.of_nat (length data) =? n * 512 then 0 else -1,
            store_bytes mem buf data, w')
    /\ w_inodes w' = w_inodes w.
Proof.
  intros Hn Hfit Hsrc Hfile data.
  apply file_of_Some in Hfile as (o & Hget & Hino).
  destruct (offsets_fit_values off a n Hfit) as (Hpos & Hcnt & Hsize & Hnonneg).
  destruct (get_ofile_range _ _ _ Hget) as [Hfd _].
  destruct (seek_read w fdsel o f (off + a * 512) (n * 512) Hget Hino Hnonneg)
    as (w2 & Hread & Hsame).
  fold data in Hread.
  unfold bdrv_read. destruct (Z.to_nat n) as [|fuel] eqn:Hfuel; [lia|].
  simpl. assert ((n >? 0) = true) as -> by lia.
  rewrite Hsrc. assert ((fdsel <? 0) = false) as -> by lia.
  rewrite Hpos, Hcnt, Hsize.
  destruct (Sys.lseek64_set w fdsel (off + a * 512)) as [retl w1].
  simpl in Hread. rewrite Hread.
  destruct Hfit as (_ & _ & Hsz & _).
  pose proof (length_pread (i_data f) (off + a * 512) (n * 512) ltac:(lia))
    as Hlen. fold data in Hlen.
  rewrite to_int_fits by (unfold in_int, INT_MIN, INT_MAX in *; lia).
  destruct (Z.of_nat (length data) =? n * 512); simpl.
  - rewrite Z.sub_diag. exists w2. split; [|done].
    by apply bdrv_read_loop_done.
  - by exists w2.
Qed.

(** ** Calls that only read *)

Lemma reads_only_refl w : reads_only w w.
Proof. split; eauto. Qed.

Lemma reads_only_trans w1 w2 w3 :
  reads_only w1 w2 -> reads_only w2 w3 -> reads_only w1 w3.
Proof.
  intros H12 H23. split.
  - rewrite (ro_inodes _ _ H23). apply (ro_inodes _ _ H12).
  - rewrite (ro_names _ _ H23). apply (ro_names _ _ H12).
  - intros d o Ho. destruct (ro_bind _ _ H12 d o Ho) as (o' & Ho' & Hi & Hr).
    destruct (ro_bind _ _ H23 d o' Ho') as (o'' & Ho'' & Hi' & Hr').
    exists o''. split; [done|]. split; congruence.
  - intros d Hd. apply (ro_closed _ _ H23), (ro_closed _ _ H12), Hd.
Qed.

Lemma reads_only_set_pos w fd o pos :
  Sys.get_ofile w fd = Some o ->
  reads_only w (Sys.set_ofile w fd (Some (mkOfile (o_ino o) (o_rdwr o) pos))).
Proof.
  intros Hget. destruct (get_ofile_range _ _ _ Hget) as [Hfd _].
  split; [done | done | |].
  - intros d o0 Ho0. destruct (decide (d = fd)) as [->|Hne].
    + eexists. split; [by eapply get_set_ofile_eq|].
      assert (o0 = o) as -> by congruence. done.
    + exists o0. by rewrite get_set_ofile_ne.
  - intros d Hd. destruct (decide (d = fd)) as [->|Hne]; [congruence|].
    by rewrite get_set_ofile_ne.
Qed.

Lemma lseek64_set_reads_only w fd offset :
  reads_only w (snd (Sys.lseek64_set w fd offset)).
Proof.
  unfold Sys.lseek64_set. destruct (Sys.get_ofile w fd) as [o|] eqn:Hget;
    [|apply reads_only_refl].
  destruct (offset <? 0); [apply reads_only_refl|].
  by apply reads_only_set_pos.
Qed.

Lemma read_reads_only w fd count :
  reads_only w (snd (Sys.read w fd count)).
Proof.
  unfold Sys.read. destruct (Sys.get_ofile w fd) as [o|] eqn:Hget;
    [|apply reads_only_refl].
  destruct (w_inodes w !! o_ino o); [|apply reads_only_refl].
  by apply reads_only_set_pos.
Qed.

Lemma bdrv_read_loop_reads_only bs fuel :
  forall w s mem buf nb r mem' w',
    bdrv_read_loop fuel bs w s mem buf nb = Some (r, mem', w') ->
    reads_only w w'.
Proof.
  induction fuel as [|fuel IH]; intros w s mem buf nb r mem' w' Hrun;
    (destruct (decide (nb <= 0)) as [Hle|Hpos];
     [ rewrite bdrv_read_loop_done in Hrun by done;
       injection Hrun as <- <- <-; apply reads_only_refl |]);
    assert (0 < nb) as Hlt by lia;
    destruct (bdrv_read_loop_step _ _ _ _ _ _ _ _ Hlt Hrun)
      as (fuel' & fdsel & off & n & Hfuel & Hsrc & Hstep); [done|].
  injection Hfuel as <-.
  destruct Hstep as [[_ Hnext] | (_ & r0 & data & w2 & Hread & Hrest)].
  - by eapply IH.
  - assert (reads_only w w2) as Hw2.
    { eapply reads_only_trans; [apply lseek64_set_reads_only|].
      pose proof (read_reads_only
                    (snd (Sys.lseek64_set w fdsel
                            (to_int64 (off + to_int64 (s * 512)))))
                    fdsel (to_size_t (to_int (n * 512)))) as Hro.
      by rewrite Hread in Hro. }
    destruct Hrest as [[_ Hres] | [_ Hnext]].
    + by injection Hres as -> -> ->.
    + eapply reads_only_trans; [done | by eapply IH].
Qed.

Lemma reads_only_file_of w w' d :
  reads_only w w' -> Sys.file_of w' d = Sys.file_of w d.
Proof.
  intros Hro. unfold Sys.file_of.
  destruct (Sys.get_ofile w d) as [o|] eqn:Hd.
  - destruct (ro_bind _ _ Hro d o Hd) as (o' & -> & Hi & _). simpl.
    by rewrite (ro_inodes _ _ Hro), Hi.
  - by rewrite (ro_closed _ _ Hro d Hd).
Qed.

(** X1. [bdrv_read] writes to no file: whatever it returns, every file has
    the bytes it had, no name changed, and every descriptor refers to the
    file it referred to before. *)
Theorem bdrv_read_changes_no_file bs w sector_num mem buf nb_sectors r mem' w' :
  bdrv_read bs w sector_num mem buf nb_sectors = Some (r, mem', w') ->
  w_inodes w' = w_inodes w
  /\ w_names w' = w_names w
  /\ forall d, Sys.file_of w' d = Sys.file_of w d.
Proof.
  intros Hrun. apply bdrv_read_loop_reads_only in Hrun.
  split; [apply (ro_inodes _ _ Hrun)|]. split; [apply (ro_names _ _ Hrun)|].
  intros d. by apply reads_only_file_of.
Qed.

Lemma bdrv_read_changes_no_file_witness :
  bdrv_read snap_handle snap_world 0 (replicate 512 0) 0 1
  = Some (0, replicate 512 1,
          Sys.set_ofile snap_world 0 (Some (mkOfile 0 true 512)))
  /\ w_inodes (Sys.set_ofile snap_world 0 (Some (mkOfile 0 true 512)))
     = w_inodes snap_world.
Proof.
  assert (bdrv_read snap_handle snap_world 0 (replicate 512 0) 0 1
          = Some (0, replicate 512 1,
                  Sys.set_ofile snap_world 0 (Some (mkOfile 0 true 512))))
    as Hrun by (vm_compute; reflexivity).
  split; [exact Hrun|].
  exact (proj1 (bdrv_read_changes_no_file _ _ _ _ _ _ _ _ _ Hrun)).
Defined.

(** ** Reading from the backing file *)

Lemma read_source_all_clean bs a n :
  1 <= n -> INT64_MIN <= a -> a + n <= INT64_MAX + 1 ->
  (forall i, a <= i < a + n -> clean bs i) ->
  read_source bs a n = (fd bs, 0, n).
Proof.
  intros Hn Hlo Hhi Hclean.
  destruct (read_source bs a n) as [[fdsel off] n0] eqn:Hsrc.
  destruct (read_source_clean bs a n fdsel off n0 Hn Hlo Hhi Hsrc)
    as (Hn0 & Hsel & Hfull).
  rewrite (Hfull Hclean) in *.
  destruct (Hsel a ltac:(lia) (Hclean a ltac:(lia))) as [-> ->]. done.
Qed.

(** X2. A request of sectors none of which is in the overlay (any request,
    when there is no overlay), that starts inside the backing file and is
    no longer than one [read] call transfers, is served from the backing
    file: it delivers the bytes of the file from byte [sector_num * 512] on
    and returns 0 when the file has them all, and returns -1 when the file
    ends before the last requested byte. *)
Theorem bdrv_read_backing bs w sector_num mem buf nb_sectors f :
  1 <= nb_sectors ->
  offsets_fit 0 sector_num nb_sectors ->
  nb_sectors * 512 <= MAX_RW_COUNT ->
  (forall i, sector_num <= i < sector_num + nb_sectors -> clean bs i) ->
  Sys.file_of w (fd bs) = Some f ->
  sector_num * 512 <= Z.of_nat (length (i_data f)) ->
  exists w',
    bdrv_read bs w sector_num mem buf nb_sectors
    = Some (if (sector_num + nb_sectors) * 512 <=? Z.of_nat (length (i_data f))
            then 0 else -1,
            store_bytes mem buf
              (pread (i_data f) (sector_num * 512) (nb_sectors * 512)),
            w')
    /\ w_inodes w' = w_inodes w.
Proof.
  intros Hn Hfit _ Hclean Hfile _.
  assert (read_source bs sector_num nb_sectors = (fd bs, 0, nb_sectors)) as Hsrc.
  { destruct Hfit as (Ha & _ & _ & _ & Hend).
    apply read_source_all_clean; unfold INT64_MIN, INT64_MAX in *; try lia.
    done. }
  destruct (bdrv_read_one_run bs w sector_num mem buf nb_sectors (fd bs) 0 f
              Hn Hfit Hsrc Hfile) as (w' & Hrun & Hsame).
  exists w'. split; [|done]. rewrite Hrun. rewrite Z.add_0_l.
  destruct Hfit as (Ha & _ & _ & _ & _).
  set (data := pread (i_data f) (sector_num * 512) (nb_sectors * 512)).
  destruct (Z.leb_spec ((sector_num + nb_sectors) * 512)
              (Z.of_nat (length (i_data f)))) as [Hin|Hout].
  - unfold data. rewrite (length_pread_inside (i_data f)) by lia.
    by rewrite Z.eqb_refl.
  - pose proof (length_pread_short (i_data f) (sector_num * 512)
                  (nb_sectors * 512) ltac:(lia) ltac:(lia) ltac:(lia)) as Hlt.
    fold data in Hlt.
    by destruct (Z.eqb_spec (Z.of_nat (length data)) (nb_sectors * 512)); [lia|].
Qed.

(** Sector 1 of [disk.img] through the read-only handle, and a request
    that runs past the end of the image. *)
Lemma bdrv_read_backing_witness :
  1 <= 1 /\ offsets_fit 0 1 1
  /\ 1 * 512 <= MAX_RW_COUNT
  /\ (forall i, 1 <= i < 1 + 1 -> clean ro_handle i)
  /\ Sys.file_of ro_world (fd ro_handle)
     = Some (mkInode disk_image 1000 true false)
  /\ 1 * 512 <= Z.of_nat (length disk_image)
  /\ exists w',
       bdrv_read ro_handle ro_world 1 (replicate 512 0) 0 1
       = Some (0, store_bytes (replicate 512 0) 0 (pread disk_image 512 512),
               w').
Proof.
  assert (1 <= 1) as H1 by lia.
  assert (offsets_fit 0 1 1) as H2
    by (unfold offsets_fit; repeat split; vm_compute; discriminate).
  assert (forall i, 1 <= i < 1 + 1 -> clean ro_handle i) as H3
    by (intros i _; exact I).
  assert (Sys.file_of ro_world (fd ro_handle)
          = Some (mkInode disk_image 1000 true false)) as H4 by reflexivity.
  assert (1 * 512 <= MAX_RW_COUNT) as H5 by (vm_compute; discriminate).
  assert (1 * 512
          <= Z.of_nat (length (i_data (mkInode disk_image 1000 true false))))
    as H6 by (vm_compute; discriminate).
  split; [exact H1|]. split; [exact H2|]. split; [exact H5|].
  split; [exact H3|]. split; [exact H4|]. split; [exact H6|].
  destruct (bdrv_read_backing ro_handle ro_world 1 (replicate 512 0) 0 1 _
              H1 H2 H5 H3 H4 H6) as (w' & Hrun & _).
  exists w'. exact Hrun.
Defined.

Example bdrv_read_past_end :
  fst (fst (default (0, [], ro_world)
              (bdrv_read ro_handle ro_world 2 (replicate 1024 0) 0 2))) = -1.
Proof. vm_compute. reflexivity. Qed.

(** ** What a write leaves behind *)



Lemma store_bytes_nil mem a : store_bytes mem a [] = mem.
Proof. unfold store_bytes. by destruct (a <? 0). Qed.

Lemma bdrv_write_read_source bs w a mem buf n bs' w' :
  0 < n ->
  offsets_fit (snd (write_target bs)) a n ->
  match cow_bitmap bs with
  | Some p => bitmap_covers bs p /\ a + n <= total_sectors bs
  | None => True
  end ->
  bdrv_write bs w a mem buf n = (0, bs', w') ->
  read_source bs' a n = (fst (write_target bs), snd (write_target bs), n).
Proof.
  intros Hn Hfit Hcov Hrun.
  destruct (bdrv_write_handle _ _ _ _ _ _ _ _ _ Hrun) as [_ Hbs].
  unfold write_target in *. destruct (cow_bitmap bs) as [p|] eqn:Hp.
  - simpl in Hbs, Hfit. subst bs'. simpl.
    destruct Hcov as ((Hp0 & Hmax & Hlen) & Hend).
    destruct Hfit as (Ha & _ & _ & _ & Hfit).
    destruct (set_bits_spec p a (Z.to_nat n) (cow_bitmap_addr bs) 0)
      as (_ & Hset & _); [lia | unfold INT64_MAX in *; lia |].
    rewrite (read_source_dirty _ p); simpl;
      [done | done | lia | unfold INT64_MIN; lia | unfold INT64_MAX in *; lia |].
    intros i Hi. apply Hset; [lia|].
    assert (0 <= i / 8 < (total_sectors bs + 7) / 8); [|lia].
    Z.div_mod_to_equations. lia.
  - subst bs'. simpl. by apply read_source_raw.
Qed.

(** X4. Round trip: after a write of [nb_sectors] sectors at [sector_num]
    that returned 0, a read of the same sectors through the handle the write
    left returns 0 and delivers exactly the bytes that were written, with an
    overlay (the range lying inside the bitmap) as well as without. *)
Theorem bdrv_write_then_read bs w sector_num mem buf nb_sectors bs' w'
    mem2 buf2 :
  offsets_fit (snd (write_target bs)) sector_num nb_sectors ->
  match cow_bitmap bs with
  | Some p => bitmap_covers bs p /\ sector_num + nb_sectors <= total_sectors bs
  | None => True
  end ->
  bdrv_write bs w sector_num mem buf nb_sectors = (0, bs', w') ->
  exists w'',
    bdrv_read bs' w' sector_num mem2 buf2 nb_sectors
    = Some (0, store_bytes mem2 buf2 (pread mem buf (nb_sectors * 512)), w'').
Proof.
  intros Hfit Hcov Hrun.
  destruct (decide (nb_sectors = 0)) as [->|Hne].
  { exists w'. unfold bdrv_read, pread. simpl. by rewrite store_bytes_nil. }
  assert (0 < nb_sectors) as Hn by (destruct Hfit as (_ & ? & _); lia).
  pose proof (bdrv_write_read_source _ _ _ _ _ _ _ _ Hn Hfit Hcov Hrun) as Hsrc.
  destruct (write_target bs) as [tfd off] eqn:Htgt. simpl in *.
  destruct (bdrv_write_effect bs w sector_num mem buf nb_sectors bs' w' tfd off
              Htgt Hfit Hrun) as (Hlen & f & _ & Hfile' & _).
  destruct (bdrv_read_one_run bs' w' sector_num mem2 buf2 nb_sectors tfd off _
              ltac:(lia) Hfit Hsrc Hfile') as (w'' & Hread & _).
  cbn [i_data] in Hread.
  destruct (offsets_fit_values _ _ _ Hfit) as (_ & _ & _ & Hpos).
  set (d := pread mem buf (nb_sectors * 512)) in *.
  assert (pread (Sys.overwrite (i_data f)
                   (Z.to_nat (off + sector_num * 512)) d)
                (off + sector_num * 512) (nb_sectors * 512) = d) as Hback
    by (rewrite <- Hlen; by apply pread_overwrite_same).
  rewrite Hback, Hlen, Z.eqb_refl in Hread. by exists w''.
Qed.

Lemma bdrv_write_then_read_witness :
  offsets_fit (snd (write_target snap_handle)) 1 1
  /\ (bitmap_covers snap_handle 0 /\ 1 + 1 <= total_sectors snap_handle)
  /\ snap_written = (0, dirty_handle, dirty_world)
  /\ exists w'',
       bdrv_read dirty_handle dirty_world 1 (replicate 512 0) 0 1
       = Some (0, store_bytes (replicate 512 0) 0
                    (pread (replicate 512 255) 0 (1 * 512)), w'').
Proof.
  assert (offsets_fit (snd (write_target snap_handle)) 1 1) as H1
    by (unfold offsets_fit; repeat split; vm_compute; discriminate).
  assert (bitmap_covers snap_handle 0 /\ 1 + 1 <= total_sectors snap_handle)
    as H2.
  { split; [unfold bitmap_covers; repeat split|]; vm_compute; discriminate. }
  assert (snap_written = (0, dirty_handle, dirty_world)) as H3
    by (vm_compute; reflexivity).
  split; [exact H1|]. split; [exact H2|]. split; [exact H3|].
  exact (bdrv_write_then_read snap_handle snap_world 1 (replicate 512 255) 0 1
           dirty_handle dirty_world (replicate 512 0) 0 H1 H2 H3).
Defined.

(** X5. A write that fails marks nothing dirty: whenever [bdrv_write]
    returns something other than 0 it returns -1 and the handle, bitmap
    included, is as it was; and a write never changes anything of the handle
    but the bitmap bytes. *)
Theorem bdrv_write_failure_keeps_bitmap bs w sector_num mem buf nb_sectors
    r bs' w' :
  bdrv_write bs w sector_num mem buf nb_sectors = (r, bs', w') ->
  (r = 0 \/ r = -1)
  /\ (r <> 0 -> bs' = bs)
  /\ (cow_bitmap bs = None -> bs' = bs)
  /\ with_cow_bitmap_addr (cow_bitmap_addr bs) bs' = bs.
Proof.
  intros Hrun.
  destruct (bdrv_write_handle _ _ _ _ _ _ _ _ _ Hrun) as [Hr Hbs].
  split; [done|]. destruct (cow_bitmap bs) as [p|].
  - destruct (Z.eqb_spec r 0) as [->|Hne].
    + split; [done|]. split; [done|]. subst bs'. by destruct bs.
    + subst bs'. split; [done|]. split; [done|]. by destruct bs.
  - subst bs'. split; [done|]. split; [done|]. by destruct bs.
Qed.

(** A write through a handle whose overlay descriptor is not open. *)
Lemma bdrv_write_failure_keeps_bitmap_witness :
  bdrv_write snap_handle empty_world 0 (replicate 512 9) 0 1
  = (-1, snap_handle, empty_world)
  /\ (-1 <> 0 -> snap_handle = snap_handle).
Proof.
  assert (bdrv_write snap_handle empty_world 0 (replicate 512 9) 0 1
          = (-1, snap_handle, empty_world)) as Hrun by (vm_compute; reflexivity).
  split; [exact Hrun|].
  exact (proj1 (proj2 (bdrv_write_failure_keeps_bitmap _ _ _ _ _ _ _ _ _ Hrun))).
Defined.

(** ** What a commit can change *)

Lemma reads_only_confined fd w w' : reads_only w w' -> confined fd w w'.
Proof.
  intros Hro. split.
  - apply (ro_names _ _ Hro).
  - apply (ro_bind _ _ Hro).
  - apply (ro_closed _ _ Hro).
  - intros ino _. by rewrite (ro_inodes _ _ Hro).
Qed.

Lemma touches_confined fd w w' : touches fd w w' -> confined fd w w'.
Proof.
  intros Ht. split.
  - apply (t_names _ _ _ Ht).
  - intros d o Ho. destruct (decide (d = fd)) as [->|Hne].
    + by apply (t_same_ino _ _ _ Ht).
    + exists o. by rewrite (t_others _ _ _ Ht).
  - intros d Hd. destruct (decide (d = fd)) as [->|Hne].
    + by rewrite (t_closed _ _ _ Ht Hd).
    + by rewrite (t_others _ _ _ Ht).
  - apply (t_inodes _ _ _ Ht).
Qed.

Lemma confined_trans fd w1 w2 w3 :
  confined fd w1 w2 -> confined fd w2 w3 -> confined fd w1 w3.
Proof.
  intros H12 H23. split.
  - rewrite (c_names _ _ _ H23). apply (c_names _ _ _ H12).
  - intros d o Ho. destruct (c_bind _ _ _ H12 d o Ho) as (o' & Ho' & Hi & Hr).
    destruct (c_bind _ _ _ H23 d o' Ho') as (o'' & Ho'' & Hi' & Hr').
    exists o''. split; [done|]. split; congruence.
  - intros d Hd. apply (c_closed _ _ _ H23), (c_closed _ _ _ H12), Hd.
  - intros ino Hino.
    rewrite (c_inodes _ _ _ H23), (c_inodes _ _ _ H12); [done..|].
    intros o2 Ho2. destruct (Sys.get_ofile w1 fd) as [o1|] eqn:Ho1.
    + destruct (c_bind _ _ _ H12 fd o1 Ho1) as (o' & Ho' & Hi & _).
      assert (o' = o2) as -> by congruence. rewrite Hi. by apply Hino.
    + rewrite (c_closed _ _ _ H12 fd Ho1) in Ho2. done.
Qed.

Lemma confined_eprint fd w w' d :
  confined fd w w' -> confined fd w (eprint d w').
Proof. intros [Hn Hb Hc Hi]. by split. Qed.

Lemma bdrv_commit_loop_confined p todo :
  forall i bs w r bs' w',
    cow_bitmap bs = Some p ->
    bdrv_commit_loop todo p i bs w = Some (r, bs', w') ->
    (r = 0 \/ r = -1) /\ confined (fd bs) w w'.
Proof.
  induction todo as [|todo IH]; intros i bs w r bs' w' Hp; simpl.
  { intros [= <- _ <-]. split; [auto|].
    apply confined_eprint, reads_only_confined, reads_only_refl. }
  destruct (negb (is_bit_set (cow_bitmap_addr bs) p i =? 0)); [|by apply IH].
  destruct (bdrv_read bs w i sector_array 0 1) as [[[r1 sector] w1]|] eqn:Hread;
    [|done].
  apply bdrv_read_loop_reads_only in Hread.
  destruct (negb (r1 =? 0)).
  { intros [= <- _ <-]. split; [auto|].
    by apply confined_eprint, reads_only_confined. }
  pose proof (bdrv_write_touches (with_cow_bitmap None bs) w1 i sector 0 1)
    as Hwrite.
  destruct (bdrv_write (with_cow_bitmap None bs) w1 i sector 0 1)
    as [[r2 bs2] w2] eqn:Hw.
  apply bdrv_write_handle in Hw as [_ Hbs2]. simpl in Hbs2, Hwrite. subst bs2.
  assert (confined (fd bs) w w2) as Hc.
  { eapply confined_trans; [by apply reads_only_confined|].
    by apply touches_confined. }
  rewrite (with_cow_bitmap_restore bs p Hp).
  destruct (negb (r2 =? 0)).
  { intros [= <- _ <-]. split; [auto|]. by apply confined_eprint. }
  intros Hrest. destruct (IH _ _ _ _ _ _ Hp Hrest) as [Hr Hc'].
  split; [done|]. by eapply confined_trans.
Qed.

(** X6. [bdrv_commit] always returns, with 0 or -1; whatever it returns,
    the handle (bitmap included) is as it was, no name changed, every
    descriptor refers to the file it referred to, and no file other than the
    one behind the backing descriptor [fd] has changed: a commit never
    writes to the overlay. *)
Theorem bdrv_commit_frame bs w :
  exists r w',
    bdrv_commit bs w = Some (r, bs, w')
    /\ (r = 0 \/ r = -1)
    /\ w_names w' = w_names w
    /\ (forall d o, Sys.get_ofile w d = Some o ->
          exists o', Sys.get_ofile w' d = Some o'
                     /\ o_ino o' = o_ino o /\ o_rdwr o' = o_rdwr o)
    /\ (forall ino,
          (forall o, Sys.get_ofile w (fd bs) = Some o -> o_ino o <> ino) ->
          w_inodes w' !! ino = w_inodes w !! ino).
Proof.
  assert (forall r w', (r = 0 \/ r = -1) -> confined (fd bs) w w' ->
            bdrv_commit bs w = Some (r, bs, w') ->
            exists r w',
              bdrv_commit bs w = Some (r, bs, w')
              /\ (r = 0 \/ r = -1)
              /\ w_names w' = w_names w
              /\ (forall d o, Sys.get_ofile w d = Some o ->
                    exists o', Sys.get_ofile w' d = Some o'
                               /\ o_ino o' = o_ino o /\ o_rdwr o' = o_rdwr o)
              /\ (forall ino,
                    (forall o, Sys.get_ofile w (fd bs) = Some o ->
                               o_ino o <> ino) ->
                    w_inodes w' !! ino = w_inodes w !! ino)) as Hpack.
  { intros r w' Hr [Hn Hb _ Hi] Hrun. exists r, w'. done. }
  destruct (bdrv_commit_returns bs w) as [[[r bs'] w'] Hrun].
  unfold bdrv_commit in *. destruct (cow_bitmap bs) as [p|] eqn:Hp.
  - destruct (negb (read_only bs =? 0)).
    + injection Hrun as <- <- <-. refine (Hpack _ _ _ _ eq_refl); [auto|].
      apply confined_eprint, reads_only_confined, reads_only_refl.
    + pose proof (bdrv_commit_loop_handle _ _ _ _ _ _ _ _ Hp Hrun) as ->.
      destruct (bdrv_commit_loop_confined _ _ _ _ _ _ _ _ Hp Hrun) as [Hr Hc].
      by apply (Hpack r w').
  - injection Hrun as <- <- <-. refine (Hpack _ _ _ _ eq_refl); [auto|].
    apply confined_eprint, reads_only_confined, reads_only_refl.
Qed.

(** ** What a successful commit leaves in the backing file *)

Lemma same_file_confined fd w w' d1 d2 :
  confined fd w w' -> same_file w' d1 d2 -> same_file w d1 d2.
Proof.
  intros Hc (o1' & o2' & H1 & H2 & Hino).
  destruct (Sys.get_ofile w d1) as [o1|] eqn:Ho1;
    [|by rewrite (c_closed _ _ _ Hc d1 Ho1) in H1].
  destruct (Sys.get_ofile w d2) as [o2|] eqn:Ho2;
    [|by rewrite (c_closed _ _ _ Hc d2 Ho2) in H2].
  destruct (c_bind _ _ _ Hc d1 o1 Ho1) as (x1 & Hx1 & Hi1 & _).
  destruct (c_bind _ _ _ Hc d2 o2 Ho2) as (x2 & Hx2 & Hi2 & _).
  exists o1, o2. split; [done|]. split; [done|]. congruence.
Qed.

Lemma touches_file_of_other fd w w' d :
  touches fd w w' -> ~ same_file w d fd ->
  Sys.file_of w' d = Sys.file_of w d.
Proof.
  intros Ht Hdiff.
  destruct (Sys.get_ofile w fd) as [oc|] eqn:Hc;
    [|by rewrite (t_closed _ _ _ Ht Hc)].
  assert (d <> fd) as Hne.
  { intros ->. apply Hdiff. by exists oc, oc. }
  unfold Sys.file_of. rewrite (t_others _ _ _ Ht) by done.
  destruct (Sys.get_ofile w d) as [ob|] eqn:Hb; [|done]. simpl.
  apply (t_inodes _ _ _ Ht). intros o Ho Hsame. apply Hdiff.
  exists ob, o. split; [done|]. split; [congruence | done].
Qed.

Lemma file_of_eprint d w fd : Sys.file_of (eprint d w) fd = Sys.file_of w fd.
Proof. done. Qed.

Lemma store_bytes_whole arr data :
  length data = length arr -> store_bytes arr 0 data = data.
Proof.
  intros Hlen. unfold store_bytes. simpl.
  rewrite <- (app_nil_r arr), list_inserts_0_r by done. apply app_nil_r.
Qed.

Lemma pread_whole data len :
  Z.of_nat (length data) = len -> pread data 0 len = data.
Proof.
  intros <-. unfold pread. simpl. rewrite Nat2Z.id. apply firstn_all.
Qed.

(** One dirty sector of the commit loop: what the read delivers and what
    the write leaves in the backing file. *)
Lemma commit_sector bs w p i fc fb r1 sector w1 r2 bs2 w2 :
  cow_bitmap bs = Some p ->
  is_bit_set (cow_bitmap_addr bs) p i = 1 ->
  0 <= i -> 0 <= cow_sectors_offset bs ->
  cow_sectors_offset bs + (i + 1) * 512 <= INT64_MAX ->
  ~ same_file w (fd bs) (cow_fd bs) ->
  Sys.file_of w (cow_fd bs) = Some fc ->
  Sys.file_of w (fd bs) = Some fb ->
  bdrv_read bs w i sector_array 0 1 = Some (r1, sector, w1) -> r1 = 0 ->
  bdrv_write (with_cow_bitmap None bs) w1 i sector 0 1 = (r2, bs2, w2) ->
  r2 = 0 ->
  sector = pread (i_data fc) (cow_sectors_offset bs + i * 512) 512
  /\ Z.of_nat (length sector) = 512
  /\ Sys.file_of w2 (cow_fd bs) = Some fc
  /\ Sys.file_of w2 (fd bs)
     = Some (mkInode (Sys.overwrite (i_data fb) (Z.to_nat (i * 512)) sector)
                     (i_mtime fb) (i_readable fb) (i_writable fb))
  /\ confined (fd bs) w w2.
Proof.
  intros Hp Hbit Hi Hoff Hend Hdiff Hfc Hfb Hread -> Hwrite ->.
  assert (offsets_fit (cow_sectors_offset bs) i 1) as Hfit1
    by (unfold offsets_fit, INT_MAX, INT64_MAX in *; lia).
  assert (offsets_fit 0 i 1) as Hfit0
    by (unfold offsets_fit, INT_MAX, INT64_MAX in *; lia).
  assert (read_source bs i 1 = (cow_fd bs, cow_sectors_offset bs, 1)) as Hsrc.
  { apply (read_source_dirty bs p); [done | lia | unfold INT64_MIN; lia
                                     | unfold INT64_MAX in *; lia |].
    intros k Hk. by replace k with i by lia. }
  destruct (bdrv_read_one_run bs w i sector_array 0 1 _ _ fc ltac:(lia)
              Hfit1 Hsrc Hfc) as (w1' & Hread' & _).
  rewrite Hread in Hread'. change (1 * 512) with 512 in Hread'.
  set (data := pread (i_data fc) (cow_sectors_offset bs + i * 512) 512) in *.
  destruct (Z.eqb_spec (Z.of_nat (length data)) 512) as [Hlen|]; [|done].
  injection Hread' as Hsector _.
  rewrite store_bytes_whole in Hsector
    by (unfold sector_array; rewrite length_replicate; lia).
  subst sector.
  pose proof (bdrv_read_loop_reads_only _ _ _ _ _ _ _ _ _ _ Hread) as Hro.
  destruct (bdrv_write_effect (with_cow_bitmap None bs) w1 i data 0 1 bs2 w2
              (fd bs) 0 eq_refl Hfit0 Hwrite)
    as (_ & f & Hf & Hf' & Htouch).
  change (1 * 512) with 512 in Hf'.
  rewrite (pread_whole data 512 Hlen), Z.add_0_l in Hf'.
  rewrite (reads_only_file_of w w1) in Hf by done.
  assert (f = fb) as -> by congruence.
  split; [done|]. split; [done|].
  assert (confined (fd bs) w w1) as Hc1 by by apply reads_only_confined.
  split; [|split; [done|]].
  - rewrite (touches_file_of_other (fd bs) w1 w2); cycle 1.
    + exact Htouch.
    + intros Hsame. apply Hdiff.
      destruct (same_file_confined _ _ _ _ _ Hc1 Hsame) as (o1 & o2 & ? & ? & ?).
      by exists o2, o1.
    + by rewrite (reads_only_file_of w w1).
  - eapply confined_trans; [exact Hc1 | by apply touches_confined].
Qed.

Lemma bdrv_commit_loop_converges p fc todo :
  forall i bs w fb bs' w',
    cow_bitmap bs = Some p ->
    0 <= i -> 0 <= cow_sectors_offset bs ->
    cow_sectors_offset bs + (i + Z.of_nat todo) * 512 <= INT64_MAX ->
    (i + Z.of_nat todo) * 512 <= Z.of_nat (length (i_data fb)) ->
    ~ same_file w (fd bs) (cow_fd bs) ->
    Sys.file_of w (cow_fd bs) = Some fc ->
    Sys.file_of w (fd bs) = Some fb ->
    bdrv_commit_loop todo p i bs w = Some (0, bs', w') ->
    Sys.file_of w' (cow_fd bs) = Some fc
    /\ exists fb',
         Sys.file_of w' (fd bs) = Some fb'
         /\ (forall q len, 0 <= q -> 0 <= len -> q + len <= i * 512 ->
               pread (i_data fb') q len = pread (i_data fb) q len)
         /\ (forall k, i <= k < i + Z.of_nat todo ->
               is_bit_set (cow_bitmap_addr bs) p k = 1 ->
               pread (i_data fb') (k * 512) 512
               = pread (i_data fc) (cow_sectors_offset bs + k * 512) 512
               /\ Z.of_nat (length (pread (i_data fb') (k * 512) 512)) = 512)
         /\ (forall k, i <= k < i + Z.of_nat todo ->
               is_bit_set (cow_bitmap_addr bs) p k = 0 ->
               pread (i_data fb') (k * 512) 512
               = pread (i_data fb) (k * 512) 512).
Proof.
  induction todo as [|todo IH];
    intros i bs w fb bs' w' Hp Hi Hoff Hend Hlen Hdiff Hfc Hfb; simpl.
  { intros [= _ <-]. rewrite !file_of_eprint. split; [done|].
    exists fb. split; [done|]. split; [done|]. split; intros; lia. }
  destruct (is_bit_set_01 (cow_bitmap_addr bs) p i) as [Hbit|Hbit];
    rewrite Hbit; simpl.
  - (* sector [i] is clean *)
    intros Hrest.
    destruct (IH (i + 1) bs w fb bs' w' Hp) as (Hfc' & fb' & Hfb' & Hbefore
                                                & Hdirty & Hclean);
      [lia | done | lia | lia | done | done | done | done |].
    split; [done|]. exists fb'. split; [done|]. split; [|split].
    + intros q len Hq Hl Hb. apply Hbefore; lia.
    + intros k Hk Hk1. apply Hdirty; [|done].
      destruct (decide (k = i)) as [->|]; [congruence | lia].
    + intros k Hk Hk0. destruct (decide (k = i)) as [->|].
      * apply Hbefore; lia.
      * apply Hclean; [lia | done].
  - (* sector [i] is dirty *)
    destruct (bdrv_read bs w i sector_array 0 1) as [[[r1 sector] w1]|]
      eqn:Hread; [|done].
    destruct (Z.eqb_spec r1 0) as [->|]; [|done]. simpl.
    destruct (bdrv_write (with_cow_bitmap None bs) w1 i sector 0 1)
      as [[r2 bs2] w2] eqn:Hwrite.
    pose proof (bdrv_write_handle _ _ _ _ _ _ _ _ _ Hwrite) as [_ Hbs2].
    simpl in Hbs2. subst bs2.
    destruct (Z.eqb_spec r2 0) as [->|]; [|done]. simpl.
    rewrite (with_cow_bitmap_restore bs p Hp). intros Hrest.
    destruct (commit_sector bs w p i fc fb 0 sector w1 0 _ w2 Hp Hbit Hi Hoff
                ltac:(lia) Hdiff Hfc Hfb Hread eq_refl Hwrite eq_refl)
      as (Hsector & Hslen & Hfc2 & Hfb2 & Hconf).
    set (fb2 := mkInode (Sys.overwrite (i_data fb) (Z.to_nat (i * 512)) sector)
                        (i_mtime fb) (i_readable fb) (i_writable fb)) in *.
    pose proof (length_overwrite (i_data fb) (Z.to_nat (i * 512)) sector)
      as [Hgrow _].
    destruct (IH (i + 1) bs w2 fb2 bs' w' Hp) as (Hfc' & fb' & Hfb' & Hbefore
                                                  & Hdirty & Hclean);
      [lia | done | lia | simpl; lia
       | by intros Hsame; apply Hdiff, (same_file_confined _ _ _ _ _ Hconf)
       | done | done | done |].
    assert (pread (i_data fb2) (i * 512) 512 = sector) as Hback.
    { pose proof (pread_overwrite_same (i_data fb) (i * 512) sector
                    ltac:(lia)) as Hsame.
      by rewrite Hslen in Hsame. }
    split; [done|]. exists fb'. split; [done|]. split; [|split].
    + intros q len Hq Hl Hb. rewrite Hbefore by lia. simpl.
      apply pread_overwrite_before; lia.
    + intros k Hk Hk1. destruct (decide (k = i)) as [->|].
      * rewrite Hbefore, Hback by lia. by rewrite <- Hsector.
      * apply Hdirty; [lia | done].
    + intros k Hk Hk0. destruct (decide (k = i)) as [->|]; [congruence|].
      rewrite Hclean by (done || lia). simpl.
      apply pread_overwrite_after; lia.
Qed.

(** X7. Commit convergence.  When [bdrv_commit] returns 0 on a writable
    handle with an overlay whose backing file holds all [total_sectors]
    sectors, the overlay file is as it was and the backing file has, for
    every sector whose bit is set, the 512 bytes of that sector in the
    overlay, and for every other sector the bytes it had. *)
Theorem bdrv_commit_converges bs w p fc fb bs' w' :
  cow_bitmap bs = Some p ->
  0 <= cow_sectors_offset bs ->
  0 <= total_sectors bs ->
  cow_sectors_offset bs + total_sectors bs * 512 <= INT64_MAX ->
  total_sectors bs * 512 <= Z.of_nat (length (i_data fb)) ->
  ~ same_file w (fd bs) (cow_fd bs) ->
  Sys.file_of w (cow_fd bs) = Some fc ->
  Sys.file_of w (fd bs) = Some fb ->
  bdrv_commit bs w = Some (0, bs', w') ->
  Sys.file_of w' (cow_fd bs) = Some fc
  /\ exists fb',
       Sys.file_of w' (fd bs) = Some fb'
       /\ (forall k, 0 <= k < total_sectors bs ->
             is_bit_set (cow_bitmap_addr bs) p k = 1 ->
             pread (i_data fb') (k * 512) 512
             = pread (i_data fc) (cow_sectors_offset bs + k * 512) 512
             /\ Z.of_nat (length (pread (i_data fb') (k * 512) 512)) = 512)
       /\ (forall k, 0 <= k < total_sectors bs ->
             is_bit_set (cow_bitmap_addr bs) p k = 0 ->
             pread (i_data fb') (k * 512) 512
             = pread (i_data fb) (k * 512) 512).
Proof.
  intros Hp Hoff Htot Hend Hlen Hdiff Hfc Hfb Hrun.
  unfold bdrv_commit in Hrun. rewrite Hp in Hrun.
  destruct (negb (read_only bs =? 0)); [by injection Hrun|].
  destruct (bdrv_commit_loop_converges p fc (Z.to_nat (total_sectors bs)) 0 bs w
              fb bs' w' Hp) as (Hfc' & fb' & Hfb' & _ & Hdirty & Hclean);
    [lia | done | lia | lia | done | done | done | done |].
  split; [done|]. exists fb'. split; [done|]. split.
  - intros k Hk. apply Hdirty. lia.
  - intros k Hk. apply Hclean. lia.
Qed.

Lemma bdrv_commit_converges_witness :
  cow_bitmap dirty_handle = Some 0
  /\ 0 <= cow_sectors_offset dirty_handle
  /\ 0 <= total_sectors dirty_handle
  /\ cow_sectors_offset dirty_handle + total_sectors dirty_handle * 512
     <= INT64_MAX
  /\ total_sectors dirty_handle * 512 <= Z.of_nat (length disk_image)
  /\ ~ same_file dirty_world (fd dirty_handle) (cow_fd dirty_handle)
  /\ bdrv_commit dirty_handle dirty_world
     = Some (0, dirty_handle, committed_world)
  /\ Sys.file_of committed_world (cow_fd dirty_handle)
     = Sys.file_of dirty_world (cow_fd dirty_handle).
Proof.
  assert (cow_bitmap dirty_handle = Some 0) as H1 by reflexivity.
  assert (0 <= cow_sectors_offset dirty_handle) as H2
    by (vm_compute; discriminate).
  assert (0 <= total_sectors dirty_handle) as H3 by (vm_compute; discriminate).
  assert (cow_sectors_offset dirty_handle + total_sectors dirty_handle * 512
          <= INT64_MAX) as H4 by (vm_compute; discriminate).
  assert (total_sectors dirty_handle * 512
          <= Z.of_nat (length (i_data (mkInode disk_image 1000 true true))))
    as H5 by (vm_compute; discriminate).
  assert (~ same_file dirty_world (fd dirty_handle) (cow_fd dirty_handle))
    as H6.
  { intros (o1 & o2 & Ho1 & Ho2 & Hino).
    vm_compute in Ho1, Ho2.
    injection Ho1 as <-. injection Ho2 as <-. discriminate Hino. }
  assert (Sys.file_of dirty_world (cow_fd dirty_handle)
          = Some (mkInode (replicate 512 0 ++ replicate 512 255) 0 true true))
    as H7 by (vm_compute; reflexivity).
  assert (Sys.file_of dirty_world (fd dirty_handle)
          = Some (mkInode disk_image 1000 true true)) as H8
    by (vm_compute; reflexivity).
  assert (bdrv_commit dirty_handle dirty_world
          = Some (0, dirty_handle, committed_world)) as H9
    by (vm_compute; reflexivity).
  split; [exact H1|]. split; [exact H2|]. split; [exact H3|].
  split; [exact H4|]. split; [exact H5|]. split; [exact H6|].
  split; [exact H9|].
  rewrite H7.
  exact (proj1 (bdrv_commit_converges dirty_handle dirty_world 0 _ _
                  dirty_handle committed_world H1 H2 H3 H4 H5 H6 H7 H8 H9)).
Defined.

(** ** Descriptors and files across [bdrv_open] *)

Lemma get_ofile_negative w d : d < 0 -> Sys.get_ofile w d = None.
Proof. intros Hd. unfold Sys.get_ofile. by assert ((d <? 0) = true) as -> by lia. Qed.

Lemma alloc_fd_fresh fds o k fds' :
  Sys.alloc_fd fds o = (k, fds') ->
  mjoin (fds !! k) = None
  /\ forall j, j <> k -> mjoin (fds' !! j) = mjoin (fds !! j).
Proof.
  revert k fds'. induction fds as [|[x|] rest IH]; intros k fds'; simpl.
  - intros [= <- <-]. split; [done|]. by intros [|j] Hj.
  - destruct (Sys.alloc_fd rest o) as [k0 rest'] eqn:Hrest.
    intros [= <- <-]. destruct (IH _ _ eq_refl) as [Hfree Hother].
    split; [done|]. intros [|j] Hj; [done|]. simpl. apply Hother. lia.
  - intros [= <- <-]. split; [done|]. by intros [|j] Hj.
Qed.

Lemma get_ofile_with_fds w fds d :
  Sys.get_ofile (with_fds fds w) d
  = if d <? 0 then None else mjoin (fds !! Z.to_nat d).
Proof. done. Qed.

(** What [open] does to the descriptor table. *)
Lemma open_cases w path rdwr fd w' :
  Sys.open w path rdwr = (fd, w') ->
  (fd = -1 /\ w' = w)
  \/ (0 <= fd
      /\ Sys.get_ofile w fd = None
      /\ (exists o, Sys.get_ofile w' fd = Some o /\ o_rdwr o = rdwr
                    /\ o_pos o = 0
                    /\ Sys.lookup_name (w_names w) path = Some (o_ino o)
                    /\ is_Some (w_inodes w !! o_ino o))
      /\ (forall d, d <> fd -> Sys.get_ofile w' d = Sys.get_ofile w d)
      /\ w_names w' = w_names w /\ w_inodes w' = w_inodes w
      /\ w_stderr w' = w_stderr w).
Proof.
  unfold Sys.open.
  destruct (Sys.lookup_name (w_names w) path) as [ino|] eqn:Hname;
    [|intros [= <- <-]; by left].
  destruct (w_inodes w !! ino) as [f|] eqn:Hino; [|intros [= <- <-]; by left].
  destruct (i_readable f && (negb rdwr || i_writable f));
    [|intros [= <- <-]; by left].
  destruct (Sys.alloc_fd (w_fds w) (mkOfile ino rdwr 0)) as [k fds'] eqn:Hk.
  intros [= <- <-]. right.
  destruct (alloc_fd_fresh _ _ _ _ Hk) as [Hfree Hother].
  pose proof (alloc_fd_lookup _ _ _ _ Hk) as Hnew.
  assert ((Z.of_nat k <? 0) = false) as Hpos by (apply Z.ltb_ge; lia).
  split; [lia|]. split.
  { unfold Sys.get_ofile. by rewrite Hpos, Nat2Z.id. }
  split.
  { exists (mkOfile ino rdwr 0). rewrite get_ofile_with_fds, Hpos, Nat2Z.id, Hnew.
    simpl. by rewrite Hino. }
  split; [|done].
  intros d Hd. rewrite get_ofile_with_fds. unfold Sys.get_ofile.
  destruct (d <? 0) eqn:Hneg; [done|]. apply Hother. lia.
Qed.

(** What [mkstemp] followed by [unlink] of the name it chose does. *)
Lemma mkstemp_unlink_cases w tmpl fd name w1 :
  Sys.mkstemp w tmpl = (fd, name, w1) ->
  (fd = -1 /\ w1 = w)
  \/ (0 <= fd
      /\ Sys.get_ofile w fd = None
      /\ Sys.get_ofile w1 fd = Some (mkOfile (length (w_inodes w)) true 0)
      /\ (forall d, d <> fd -> Sys.get_ofile w1 d = Sys.get_ofile w d)
      /\ w_names (Sys.unlink w1 name) = w_names w
      /\ w_inodes w1 = w_inodes w ++ [mkInode [] 0 true true]
      /\ w_stderr w1 = w_stderr w).
Proof.
  unfold Sys.mkstemp. destruct (w_mkstemp w) as [nm|];
    [|intros [= <- <- <-]; by left].
  destruct (Sys.alloc_fd (w_fds w) (mkOfile (length (w_inodes w)) true 0))
    as [k fds'] eqn:Hk.
  intros [= <- <- <-]. right.
  destruct (alloc_fd_fresh _ _ _ _ Hk) as [Hfree Hother].
  pose proof (alloc_fd_lookup _ _ _ _ Hk) as Hnew.
  assert ((Z.of_nat k <? 0) = false) as Hpos by (apply Z.ltb_ge; lia).
  split; [lia|]. split.
  { unfold Sys.get_ofile. by rewrite Hpos, Nat2Z.id. }
  split.
  { rewrite get_ofile_with_fds, Hpos, Nat2Z.id, Hnew. done. }
  split.
  { intros d Hd. rewrite get_ofile_with_fds. unfold Sys.get_ofile.
    destruct (d <? 0) eqn:Hneg; [done|]. apply Hother. lia. }
  split; [|done].
  unfold Sys.unlink. simpl. by rewrite String.eqb_refl.
Qed.

Lemma get_ofile_close w fd d :
  Sys.get_ofile (Sys.close w fd) d
  = if decide (d = fd) then None else Sys.get_ofile w d.
Proof.
  unfold Sys.close. destruct (Sys.get_ofile w fd) as [o|] eqn:Hget.
  - destruct (get_ofile_range _ _ _ Hget) as [Hfd _].
    destruct (decide (d = fd)) as [->|Hne].
    + by apply (get_set_ofile_eq w fd o).
    + by apply get_set_ofile_ne.
  - destruct (decide (d = fd)) as [->|Hne]; done.
Qed.

Lemma get_ofile_bdrv_close bs w d :
  Sys.get_ofile (bdrv_close bs w) d
  = if decide (d = fd bs \/ d = cow_fd bs) then None else Sys.get_ofile w d.
Proof.
  unfold bdrv_close.
  assert (forall w1 x, Sys.get_ofile (if x >=? 0 then Sys.close w1 x else w1) d
                       = if decide (d = x) then None else Sys.get_ofile w1 d)
    as Hstep.
  { intros w1 x. destruct (Z.geb_spec x 0) as [Hx|Hx].
    - apply get_ofile_close.
    - destruct (decide (d = x)) as [->|]; [|done].
      by apply get_ofile_negative. }
  rewrite (Hstep (if cow_fd bs >=? 0 then Sys.close w (cow_fd bs) else w)),
          (Hstep w).
  repeat case_decide; tauto || done.
Qed.

Lemma bdrv_close_files bs w :
  w_names (bdrv_close bs w) = w_names w
  /\ w_inodes (bdrv_close bs w) = w_inodes w.
Proof.
  assert (forall w1 x, w_names (Sys.close w1 x) = w_names w1
                       /\ w_inodes (Sys.close w1 x) = w_inodes w1) as Hclose.
  { intros w1 x. unfold Sys.close. by destruct (Sys.get_ofile w1 x). }
  unfold bdrv_close.
  destruct (cow_fd bs >=? 0), (fd bs >=? 0);
    rewrite ?(proj1 (Hclose _ _)), ?(proj2 (Hclose _ _)); done.
Qed.

(** Closing a handle that holds only descriptors it opened itself leaves
    the descriptor table as it was before they were opened. *)
Lemma opened_by_close w0 bs w :
  opened_by w0 bs w ->
  (forall d, Sys.get_ofile (bdrv_close bs w) d = Sys.get_ofile w0 d)
  /\ w_names (bdrv_close bs w) = w_names w0
  /\ (forall i f, w_inodes w0 !! i = Some f ->
        w_inodes (bdrv_close bs w) !! i = Some f).
Proof.
  intros [Hothers Hfd Hcow Hnames Hinodes].
  destruct (bdrv_close_files bs w) as [-> ->].
  split; [|done]. intros d. rewrite get_ofile_bdrv_close.
  case_decide as Hd.
  - destruct Hd as [-> | ->]; done.
  - apply Hothers; tauto.
Qed.

Lemma opened_by_fields w0 bs bs' w :
  fd bs' = fd bs -> cow_fd bs' = cow_fd bs ->
  opened_by w0 bs w -> opened_by w0 bs' w.
Proof. intros Hfd Hcow [Ho Hf Hc Hn Hi]. split; rewrite ?Hfd, ?Hcow; done. Qed.

Lemma opened_by_eprint w0 bs w d :
  opened_by w0 bs w -> opened_by w0 bs (eprint d w).
Proof. intros [Ho Hf Hc Hn Hi]. by split. Qed.

(** A system call on one of the handle's own descriptors that changes no
    file. *)
Lemma opened_by_own_call w0 bs w w1 fdx :
  opened_by w0 bs w ->
  fdx = fd bs \/ fdx = cow_fd bs ->
  touches fdx w w1 -> reads_only w w1 ->
  opened_by w0 bs w1.
Proof.
  intros [Ho Hf Hc Hn Hi] Hown Ht Hro. split; [|done|done| |].
  - intros d Hd1 Hd2. rewrite (t_others _ _ _ Ht); [by apply Ho|].
    destruct Hown; congruence.
  - by rewrite (ro_names _ _ Hro).
  - intros i f Hf0. rewrite (ro_inodes _ _ Hro). by apply Hi.
Qed.

(** The handle takes a descriptor that was just allocated as its [fd]. *)
Lemma opened_by_adopt_fd w0 bs w w1 fdn :
  opened_by w0 bs w -> fd bs < 0 ->
  Sys.get_ofile w fdn = None ->
  (forall d, d <> fdn -> Sys.get_ofile w1 d = Sys.get_ofile w d) ->
  w_names w1 = w_names w -> w_inodes w1 = w_inodes w ->
  opened_by w0 (with_fd fdn bs) w1.
Proof.
  intros [Ho Hf Hc Hn Hi] Hneg Hfree Hother Hnames Hinodes.
  split; simpl.
  - intros d Hd1 Hd2. rewrite Hother by done.
    destruct (decide (d = fd bs)) as [->|Hne]; [|by apply Ho].
    by rewrite Hf, get_ofile_negative.
  - destruct (decide (fdn = cow_fd bs)) as [->|Hne]; [done|].
    destruct (decide (fdn = fd bs)) as [->|Hne']; [done|].
    by rewrite <- Ho.
  - done.
  - congruence.
  - intros i f Hf0. rewrite Hinodes. by apply Hi.
Qed.

(** The descriptor the handle has as [fd] becomes its [cow_fd]. *)
Lemma opened_by_move w0 bs w :
  opened_by w0 bs w -> cow_fd bs < 0 ->
  opened_by w0 (with_fd (-1) (with_cow_fd (fd bs) bs)) w.
Proof.
  intros [Ho Hf Hc Hn Hi] Hneg. split; simpl; [|done..].
  intros d Hd1 Hd2.
  destruct (decide (d = cow_fd bs)) as [->|Hne]; [|by apply Ho].
  by rewrite Hc, get_ofile_negative.
Qed.

Section OpenMore.

Variable WORDS_BIGENDIAN : bool.
Variables COW_MAGIC COW_VERSION : Z.
Variable sizeof_cow_header : Z.
Variables offsetof_backing_file sizeof_backing_file : nat.
Variables offsetof_mtime offsetof_size : nat.

Local Abbreviation my_probe_image :=
  (probe_image WORDS_BIGENDIAN COW_MAGIC COW_VERSION sizeof_cow_header
               offsetof_backing_file sizeof_backing_file
               offsetof_mtime offsetof_size).
Local Abbreviation my_bdrv_open :=
  (bdrv_open WORDS_BIGENDIAN COW_MAGIC COW_VERSION sizeof_cow_header
             offsetof_backing_file sizeof_backing_file
             offsetof_mtime offsetof_size).
Local Abbreviation my_open_backing := (open_backing WORDS_BIGENDIAN).
Local Abbreviation my_map_bitmap := (map_bitmap sizeof_cow_header).

Lemma open_image_opened w0 filename snapshot bs w :
  opened_by w0 bs w -> fd bs < 0 ->
  match open_image filename snapshot bs w with
  | Goto_fail bs' w' => opened_by w0 bs' w'
  | Go_on fdn bs' w' =>
      opened_by w0 bs' w' /\ fd bs' = fdn /\ cow_fd bs' = cow_fd bs
  end.
Proof.
  intros Hob Hneg. unfold open_image.
  destruct (Sys.open w filename true) as [fd1 w1] eqn:Hopen1.
  destruct (open_cases _ _ _ _ _ Hopen1)
    as [[-> ->] | (Hfd1 & Hfree & _ & Hother & Hn & Hi & _)].
  - simpl.
    destruct (Sys.open w filename false) as [fd2 w2] eqn:Hopen2.
    destruct (open_cases _ _ _ _ _ Hopen2)
      as [[-> ->] | (Hfd2 & Hfree & _ & Hother & Hn & Hi & _)].
    + simpl. by apply opened_by_eprint.
    + assert ((fd2 <? 0) = false) as -> by lia.
      split; [|by destruct (snapshot =? 0)].
      destruct (snapshot =? 0).
      * apply (opened_by_adopt_fd w0 (with_read_only 1 bs) w); try done.
        by apply (opened_by_fields w0 bs).
      * by apply (opened_by_adopt_fd w0 bs w).
  - assert ((fd1 <? 0) = false) as -> by lia.
    split; [|done]. by apply (opened_by_adopt_fd w0 bs w).
Qed.

Lemma open_backing_opened w0 filename cow_header bs w :
  opened_by w0 bs w -> fd bs < 0 ->
  outcome_in (opened_by w0) (my_open_backing filename cow_header bs w).
Proof.
  intros Hob Hneg. unfold open_backing.
  destruct (negb (hd 0 (backing_file cow_header) =? 0)); [|done].
  destruct (Sys.stat w _) as [st|]; [|by apply opened_by_eprint].
  destruct (negb (st =? _)); [by apply opened_by_eprint|].
  destruct (Sys.open w _ false) as [fd2 w2] eqn:Hopen.
  destruct (open_cases _ _ _ _ _ Hopen)
    as [[-> ->] | (Hfd2 & Hfree & _ & Hother & Hn & Hi & _)]; [done|].
  assert ((fd2 <? 0) = false) as -> by lia. simpl.
  by apply (opened_by_adopt_fd w0 bs w).
Qed.

Lemma map_bitmap_opened w0 bs w :
  opened_by w0 bs w -> outcome_in (opened_by w0) (my_map_bitmap bs w).
Proof.
  intros Hob. unfold map_bitmap.
  destruct (Sys.mmap_shared w _ _); simpl;
    by apply (opened_by_fields w0 bs).
Qed.

Lemma probe_image_opened w0 filename snapshot bs w :
  opened_by w0 bs w -> cow_fd bs < 0 ->
  match my_probe_image filename snapshot (fd bs) bs w with
  | Goto_fail bs' w' => opened_by w0 bs' w'
  | Go_on s bs' w' => opened_by w0 bs' w' /\ (s <> 0 -> cow_fd bs' < 0)
  end.
Proof.
  intros Hob Hneg. unfold probe_image.
  pose proof (read_touches w (fd bs) sizeof_cow_header) as Ht.
  pose proof (read_reads_only w (fd bs) sizeof_cow_header) as Hro.
  destruct (Sys.read w (fd bs) sizeof_cow_header) as [[r raw] w1].
  simpl in Ht, Hro.
  assert (opened_by w0 bs w1) as Hob1
    by (apply (opened_by_own_call w0 bs w w1 (fd bs)); auto).
  destruct (negb (r =? sizeof_cow_header)); [by apply opened_by_eprint|].
  destruct (_ && _).
  - set (bs1 := with_fd (-1) (with_cow_fd (fd bs) (with_total_sectors _ bs))).
    assert (opened_by w0 bs1 w1) as Hob2.
    { apply (opened_by_fields w0 (with_fd (-1) (with_cow_fd (fd bs) bs)));
        [done | done |]. by apply opened_by_move. }
    pose proof (open_backing_opened w0 filename
                  (load_cow_header WORDS_BIGENDIAN offsetof_backing_file
                     sizeof_backing_file offsetof_mtime offsetof_size raw)
                  bs1 w1 Hob2 ltac:(simpl; lia)) as Hback.
    destruct (open_backing _ _ _ _ _) as [bs2 w2 | [] bs2 w2]; simpl in *;
      [done|].
    pose proof (map_bitmap_opened w0 bs2 w2 Hback) as Hmap.
    destruct (map_bitmap _ _ _) as [bs3 w3 | [] bs3 w3]; simpl in *; [done|].
    split; [done | by intros []].
  - pose proof (lseek64_set_touches w1 (fd bs) 0) as _.
    destruct (Sys.lseek64_end w1 (fd bs)) as [size0 w2] eqn:Hend.
    assert (touches (fd bs) w1 w2 /\ reads_only w1 w2) as [Ht2 Hro2].
    { unfold Sys.lseek64_end in Hend.
      destruct (Sys.get_ofile w1 (fd bs)) as [o|] eqn:Hget;
        [|injection Hend as _ <-; split;
          [apply touches_refl | apply reads_only_refl]].
      destruct (w_inodes w1 !! o_ino o);
        injection Hend as _ <-;
        split; (apply touches_refl || apply reads_only_refl
                || by apply touches_set_pos || by apply reads_only_set_pos). }
    split.
    + apply (opened_by_fields w0 bs); [done | done |].
      apply (opened_by_own_call w0 bs w1 w2 (fd bs)); auto.
    + done.
Qed.

Lemma make_snapshot_opened w0 bs w :
  opened_by w0 bs w -> cow_fd bs < 0 ->
  outcome_in (opened_by w0) (make_snapshot bs w).
Proof.
  intros Hob Hneg. unfold make_snapshot.
  destruct (Sys.mkstemp w template) as [[cfd name] w1] eqn:Hmk.
  destruct (mkstemp_unlink_cases _ _ _ _ _ Hmk)
    as [[-> ->] | (Hcfd & Hfree & _ & Hother & Hn & Hi & _)]; [done|].
  assert ((cfd <? 0) = false) as -> by lia.
  assert (opened_by w0 (with_cow_fd cfd bs) (Sys.unlink w1 name)) as Hob1.
  { destruct Hob as [Ho Hf Hc Hnames Hinodes]. split.
    - intros d Hd1 Hd2. simpl in Hd1, Hd2.
      change (Sys.get_ofile (Sys.unlink w1 name) d)
        with (Sys.get_ofile w1 d).
      rewrite Hother by done.
      destruct (decide (d = cow_fd bs)) as [->|Hne]; [|by apply Ho].
      by rewrite Hc, get_ofile_negative.
    - done.
    - simpl. destruct (decide (cfd = fd bs)) as [->|Hne]; [done|].
      destruct (decide (cfd = cow_fd bs)) as [->|Hne']; [done|].
      by rewrite <- Ho.
    - by rewrite Hn.
    - intros i f Hf0. change (w_inodes (Sys.unlink w1 name)) with (w_inodes w1).
      rewrite Hi. apply lookup_app_l_Some. by apply Hinodes. }
  destruct (Sys.mmap_anon _ _); simpl;
    by apply (opened_by_fields w0 (with_cow_fd cfd bs)).
Qed.

Lemma bdrv_open_opened filename snapshot w :
  match my_bdrv_open filename snapshot w with
  | (None, w') =>
      (forall d, Sys.get_ofile w' d = Sys.get_ofile w d)
      /\ w_names w' = w_names w
      /\ (forall i f, w_inodes w !! i = Some f -> w_inodes w' !! i = Some f)
  | (Some bs, w') => opened_by w bs w'
  end.
Proof.
  unfold bdrv_open. destruct (Sys.malloc w) as [bs0|]; [|done].
  set (bs := with_filename _ _).
  assert (opened_by w bs w) as Hob.
  { split; try done; simpl; by apply get_ofile_negative. }
  pose proof (open_image_opened w filename snapshot bs w Hob ltac:(simpl; lia))
    as Himg.
  destruct (open_image filename snapshot bs w) as [bs1 w1 | fdn bs1 w1];
    simpl; [by apply opened_by_close|].
  destruct Himg as (Hob1 & <- & Hcow1).
  pose proof (probe_image_opened w filename snapshot bs1 w1 Hob1
                ltac:(rewrite Hcow1; simpl; lia)) as Hprobe.
  destruct (probe_image _ _ _ _ _ _ _ _ _ _ _ _ _) as [bs2 w2 | s bs2 w2];
    simpl; [by apply opened_by_close|].
  destruct Hprobe as [Hob2 Hs].
  destruct (Z.eqb_spec s 0) as [->|Hne]; simpl; [done|].
  pose proof (make_snapshot_opened w bs2 w2 Hob2 (Hs Hne)) as Hsnap.
  destruct (make_snapshot bs2 w2) as [bs3 w3 | [] bs3 w3]; simpl in *;
    [by apply opened_by_close | done].
Qed.

(** X8. [bdrv_open] leaks no descriptor and disturbs none: when it returns
    no handle, every descriptor is as it was before the call (what was
    opened on the way is closed again); when it returns a handle, the
    descriptors the handle holds were free before the call and every other
    descriptor is as it was. *)
Theorem bdrv_open_descriptors filename snapshot w :
  match my_bdrv_open filename snapshot w with
  | (None, w') => forall d, Sys.get_ofile w' d = Sys.get_ofile w d
  | (Some bs, w') =>
      Sys.get_ofile w (fd bs) = None
      /\ Sys.get_ofile w (cow_fd bs) = None
      /\ forall d, d <> fd bs -> d <> cow_fd bs ->
           Sys.get_ofile w' d = Sys.get_ofile w d
  end.
Proof.
  pose proof (bdrv_open_opened filename snapshot w) as H.
  destruct (my_bdrv_open filename snapshot w) as [[bs|] w'].
  - destruct H as [Ho Hf Hc _ _]. done.
  - by destruct H as [H _].
Qed.

(** X9. [bdrv_open] writes to no file and leaves no name behind: on every
    path the names are those before the call (the temporary COW file of a
    snapshot is unlinked at once) and every file that existed has the bytes
    it had. *)
Theorem bdrv_open_files_untouched filename snapshot w :
  let w' :=
    snd (bdrv_open WORDS_BIGENDIAN COW_MAGIC COW_VERSION sizeof_cow_header
                   offsetof_backing_file sizeof_backing_file
                   offsetof_mtime offsetof_size filename snapshot w) in
  w_names w' = w_names w
  /\ forall i f, w_inodes w !! i = Some f -> w_inodes w' !! i = Some f.
Proof.
  pose proof (bdrv_open_opened filename snapshot w) as H.
  destruct (my_bdrv_open filename snapshot w) as [[bs|] w']; simpl.
  - destruct H as [_ _ _ Hn Hi]. done.
  - by destruct H as (_ & Hn & Hi).
Qed.

End OpenMore.

(** ** One bit of the bitmap *)

(** X10. [set_bit] sets one bit and no other: for sector numbers that are
    not negative, after [set_bit] on sector [bitnum] (whose byte lies inside
    the bitmap) [is_bit_set] answers 1 for [bitnum] and, for every other
    sector, what it answered before. *)
Theorem set_bit_is_bit_set mem bitmap bitnum j :
  0 <= bitnum -> 0 <= j ->
  0 <= bitmap + bitnum / 8 < Z.of_nat (length mem) ->
  is_bit_set (set_bit mem bitmap bitnum) bitmap j
  = if decide (j = bitnum) then 1 else is_bit_set mem bitmap j.
Proof.
  intros Hb Hj Hin. destruct (decide (j = bitnum)) as [->|Hne].
  - by apply set_bit_same.
  - by apply set_bit_other.
Qed.

Lemma set_bit_is_bit_set_witness :
  0 <= 10 /\ 0 <= 9 /\ 0 <= 0 + 10 / 8 < Z.of_nat (length [0; 2])
  /\ is_bit_set (set_bit [0; 2] 0 10) 0 9
     = if decide (9 = 10) then 1 else is_bit_set [0; 2] 0 9.
Proof.
  assert (0 <= 10) as H1 by lia.
  assert (0 <= 9) as H2 by lia.
  assert (0 <= 0 + 10 / 8 < Z.of_nat (length [0; 2])) as H3
    by (split; vm_compute; [discriminate | reflexivity]).
  split; [exact H1|]. split; [exact H2|]. split; [exact H3|].
  exact (set_bit_is_bit_set [0; 2] 0 10 9 H1 H2 H3).
Defined.

(** ** Byte swapping *)

Lemma uint32_bytes x :
  0 <= x < 2 ^ 32 ->
  exists b0 b1 b2 b3,
    x = b0 + b1 * 2 ^ 8 + b2 * 2 ^ 16 + b3 * 2 ^ 24
    /\ 0 <= b0 < 256 /\ 0 <= b1 < 256 /\ 0 <= b2 < 256 /\ 0 <= b3 < 256.
Proof.
  intros Hx.
  exists (x mod 256), (x / 256 mod 256), (x / 65536 mod 256), (x / 16777216).
  change (2 ^ 8) with 256. change (2 ^ 16) with 65536.
  change (2 ^ 24) with 16777216. change (2 ^ 32) with 4294967296 in Hx.
  Z.div_mod_to_equations. lia.
Qed.

Lemma bswap32_involutive x :
  0 <= x < 2 ^ 32 -> bswap32 (bswap32 x) = x /\ 0 <= bswap32 x < 2 ^ 32.
Proof.
  intros Hx.
  destruct (uint32_bytes x Hx) as (b0 & b1 & b2 & b3 & -> & H0 & H1 & H2 & H3).
  rewrite bswap32_bytes by done.
  replace (b0 * 2 ^ 24 + b1 * 2 ^ 16 + b2 * 2 ^ 8 + b3)
    with (b3 + b2 * 2 ^ 8 + b1 * 2 ^ 16 + b0 * 2 ^ 24) by lia.
  rewrite bswap32_bytes by done. split; lia.
Qed.

Lemma htonl_involutive big v :
  0 <= v < 2 ^ 32 -> htonl big (htonl big v) = v.
Proof.
  intros Hv. unfold htonl, to_uint32. destruct big.
  - by rewrite !(Z.mod_small v) by done.
  - rewrite (Z.mod_small v) by done.
    destruct (bswap32_involutive v Hv) as [Hinv Hrange].
    by rewrite (Z.mod_small (bswap32 v)).
Qed.

(** The test the prober makes on a 32-bit field succeeds only when the
    field holds the value in network byte order. *)
Lemma load_host_htonl_inv big b v :
  bytes_ok b -> length b = 4%nat -> 0 <= v < 2 ^ 32 ->
  (load_host big b =? htonl big v) = true -> be_decode b = v.
Proof.
  intros Hok Hlen Hv Heq. apply Z.eqb_eq in Heq.
  rewrite <- (htonl_load_host big b Hok Hlen), Heq.
  by apply htonl_involutive.
Qed.

Lemma be_decode_4_range b :
  bytes_ok b -> length b = 4%nat -> 0 <= be_decode b < 2 ^ 32.
Proof.
  intros Hok Hlen.
  destruct (four_bytes b Hok Hlen) as (b0 & b1 & b2 & b3 & -> & H0 & H1 & H2 & H3).
  rewrite be_decode_4. lia.
Qed.

(** ** Opening a raw image *)

Lemma with_fds_with_fds a b w : with_fds a (with_fds b w) = with_fds a w.
Proof. done. Qed.

Lemma open_image_readable filename snapshot bs w ino f :
  Sys.lookup_name (w_names w) filename = Some ino ->
  w_inodes w !! ino = Some f ->
  i_readable f = true ->
  exists fdn fds1,
    open_image filename snapshot bs w
    = Go_on fdn
        (with_fd fdn (if i_writable f then bs
                      else if snapshot =? 0 then with_read_only 1 bs else bs))
        (with_fds fds1 w)
    /\ 0 <= fdn
    /\ Sys.get_ofile (with_fds fds1 w) fdn
       = Some (mkOfile ino (i_writable f) 0).
Proof.
  intros Hname Hino Hr.
  assert (forall rdwr, (negb rdwr || i_writable f) = true ->
            exists k fds1,
              Sys.open w filename rdwr = (Z.of_nat k, with_fds fds1 w)
              /\ Sys.get_ofile (with_fds fds1 w) (Z.of_nat k)
                 = Some (mkOfile ino rdwr 0)) as Hopen.
  { intros rdwr Hcond. unfold Sys.open. rewrite Hname, Hino, Hr, Hcond. simpl.
    destruct (Sys.alloc_fd (w_fds w) (mkOfile ino rdwr 0)) as [k fds'] eqn:Hk.
    exists k, fds'. split; [done|].
    rewrite get_ofile_with_fds.
    assert ((Z.of_nat k <? 0) = false) as -> by (apply Z.ltb_ge; lia).
    by rewrite Nat2Z.id, (alloc_fd_lookup _ _ _ _ Hk). }
  unfold open_image. destruct (i_writable f) eqn:Hw.
  - destruct (Hopen true eq_refl) as (k & fds1 & -> & Hget).
    assert ((Z.of_nat k <? 0) = false) as -> by (apply Z.ltb_ge; lia).
    exists (Z.of_nat k), fds1. split; [done|]. split; [lia | done].
  - assert (Sys.open w filename true = (-1, w)) as ->.
    { unfold Sys.open. by rewrite Hname, Hino, Hr, Hw. }
    simpl. destruct (Hopen false eq_refl) as (k & fds1 & -> & Hget).
    assert ((Z.of_nat k <? 0) = false) as -> by (apply Z.ltb_ge; lia).
    exists (Z.of_nat k), fds1. split; [done|]. split; [lia | done].
Qed.

Section OpenRaw.

Variable WORDS_BIGENDIAN : bool.
Variables COW_MAGIC COW_VERSION : Z.
Variable sizeof_cow_header : Z.
Variables offsetof_backing_file sizeof_backing_file : nat.
Variables offsetof_mtime offsetof_size : nat.

Local Abbreviation raw_probe_image :=
  (probe_image WORDS_BIGENDIAN COW_MAGIC COW_VERSION sizeof_cow_header
               offsetof_backing_file sizeof_backing_file
               offsetof_mtime offsetof_size).
Local Abbreviation raw_bdrv_open :=
  (bdrv_open WORDS_BIGENDIAN COW_MAGIC COW_VERSION sizeof_cow_header
             offsetof_backing_file sizeof_backing_file
             offsetof_mtime offsetof_size).
Local Abbreviation is_raw_image :=
  (raw_image COW_MAGIC COW_VERSION sizeof_cow_header).
Local Abbreviation raw_load_cow_header :=
  (load_cow_header WORDS_BIGENDIAN offsetof_backing_file sizeof_backing_file
                   offsetof_mtime offsetof_size).

Hypothesis magic_fits : 0 <= COW_MAGIC < 2 ^ 32.
Hypothesis version_fits : 0 <= COW_VERSION < 2 ^ 32.
Hypothesis header_has_signature : 8 <= sizeof_cow_header.

Lemma field_take raw n off len :
  (off + len <= n)%nat -> field (take n raw) off len = field raw off len.
Proof.
  intros Hin. unfold field. apply list_eq. intros k.
  destruct (decide (k < len)%nat) as [Hk|Hk].
  - rewrite !lookup_take_lt, !lookup_drop by done.
    rewrite lookup_take_lt by lia. done.
  - by rewrite !lookup_take_ge by lia.
Qed.

(** On a file that is not a container the prober's test fails. *)
Lemma header_test_raw data :
  sizeof_cow_header <= Z.of_nat (length data) ->
  bytes_ok (take (Z.to_nat sizeof_cow_header) data) ->
  ~ (be_decode (field data 0 4) = COW_MAGIC
     /\ be_decode (field data 4 4) = COW_VERSION) ->
  let h := raw_load_cow_header (take (Z.to_nat sizeof_cow_header) data) in
  (magic h =? htonl WORDS_BIGENDIAN COW_MAGIC)
  && (version h =? htonl WORDS_BIGENDIAN COW_VERSION) = false.
Proof.
  intros Hlen Hok Hraw h. apply not_true_is_false. intros Htest.
  apply andb_prop in Htest as [Hm Hv]. apply Hraw.
  set (raw := take (Z.to_nat sizeof_cow_header) data) in *.
  assert (length raw = Z.to_nat sizeof_cow_header) as Hrawlen
    by (unfold raw; rewrite length_take; lia).
  rewrite <- (field_take data (Z.to_nat sizeof_cow_header) 0 4) by lia.
  rewrite <- (field_take data (Z.to_nat sizeof_cow_header) 4 4) by lia.
  fold raw. split.
  - apply (load_host_htonl_inv WORDS_BIGENDIAN); [| |done|exact Hm].
    + by apply bytes_ok_field.
    + apply length_field. lia.
  - apply (load_host_htonl_inv WORDS_BIGENDIAN); [| |done|exact Hv].
    + by apply bytes_ok_field.
    + apply length_field. lia.
Qed.

Lemma probe_image_raw filename snapshot fdn bs fds1 w ino rdwr f :
  Sys.get_ofile (with_fds fds1 w) fdn = Some (mkOfile ino rdwr 0) ->
  w_inodes w !! ino = Some f ->
  sizeof_cow_header <= Z.of_nat (length (i_data f)) ->
  bytes_ok (take (Z.to_nat sizeof_cow_header) (i_data f)) ->
  ~ (be_decode (field (i_data f) 0 4) = COW_MAGIC
     /\ be_decode (field (i_data f) 4 4) = COW_VERSION) ->
  exists fds2,
    raw_probe_image filename snapshot fdn bs (with_fds fds1 w)
    = Go_on snapshot
        (with_fd fdn
           (with_total_sectors (Z.of_nat (length (i_data f)) ÷ 512) bs))
        (with_fds fds2 w)
    /\ Sys.get_ofile (with_fds fds2 w) fdn
       = Some (mkOfile ino rdwr (Z.of_nat (length (i_data f)))).
Proof.
  intros Hget Hino Hlen Hok Hraw.
  pose proof (header_test_raw (i_data f) Hlen Hok Hraw) as Htest.
  simpl in Htest.
  unfold probe_image, Sys.read. rewrite Hget. simpl. rewrite Hino.
  rewrite drop_0, length_take.
  assert (Z.of_nat (Z.to_nat sizeof_cow_header `min` length (i_data f))
          = sizeof_cow_header) as -> by lia.
  rewrite Z.eqb_refl. simpl. rewrite Htest.
  unfold Sys.lseek64_end.
  rewrite (get_set_ofile_eq _ fdn _ _ Hget). simpl. rewrite Hino.
  eexists. split; [reflexivity|].
  rewrite get_ofile_with_fds.
  destruct (get_ofile_range _ _ _ Hget) as [Hfd Hlt]. simpl in Hlt.
  assert ((fdn <? 0) = false) as -> by lia.
  rewrite list_lookup_insert_eq; [done|].
  unfold Sys.set_ofile. simpl. by rewrite length_insert.
Qed.

Lemma load8_zeros n a : load8 (replicate n 0) a = 0.
Proof.
  unfold load8. destruct (a <? 0); [done|].
  destruct (replicate n 0 !! Z.to_nat a) as [x|] eqn:Hx; [|done].
  by apply lookup_replicate in Hx as [-> _].
Qed.

Lemma is_bit_set_zeros n bitmap bitnum :
  is_bit_set (replicate n 0) bitmap bitnum = 0.
Proof. unfold is_bit_set. by rewrite load8_zeros, Z.land_0_l. Qed.

(** X11. An image file shorter than the container header cannot be opened,
    container or not: [bdrv_open] returns no handle, and when it got as far
    as the header (memory for the handle, file readable) the last thing it
    printed is "could not read header". *)
Theorem bdrv_open_short_file w filename snapshot ino f :
  Sys.lookup_name (w_names w) filename = Some ino ->
  w_inodes w !! ino = Some f ->
  Z.of_nat (length (i_data f)) < sizeof_cow_header ->
  fst (raw_bdrv_open filename snapshot w) = None
  /\ (Sys.malloc w <> None -> i_readable f = true ->
      w_stderr (snd (raw_bdrv_open filename snapshot w))
      = w_stderr w ++ [Could_not_read_header filename]).
Proof using Type.
  clear magic_fits version_fits header_has_signature.
  intros Hname Hino Hshort. unfold bdrv_open.
  destruct (Sys.malloc w) as [bs0|]; [|by split].
  set (bs := with_filename _ _).
  destruct (i_readable f) eqn:Hr.
  - destruct (open_image_readable filename snapshot bs w ino f Hname Hino Hr)
      as (fdn & fds1 & -> & Hfd & Hget).
    simpl. unfold probe_image, Sys.read. rewrite Hget. simpl. rewrite Hino.
    rewrite drop_0, length_take.
    destruct (Z.eqb_spec
                (Z.of_nat (Z.to_nat sizeof_cow_header `min` length (i_data f)))
                sizeof_cow_header) as [Heq|_]; [lia|].
    simpl. split; [done|]. intros _ _. by rewrite bdrv_close_stderr.
  - pose proof (open_image_named filename snapshot bs w ino f Hname Hino)
      as Himg.
    rewrite Hr in Himg. destruct Himg as [_ ->]. simpl. by split.
Qed.


(** X13. Opening a raw image of at least one sector with [snapshot] set,
    when the temporary file and the bitmap can be had: the handle is
    writable whatever the image allows, its overlay is a fresh empty file
    other than the image, the data offset is 0, the bitmap has a bit for
    every sector and every sector is clean, and the backing descriptor is
    open on the image. *)
Theorem bdrv_open_snapshot w filename snapshot f bs0 name :
  is_raw_image w filename f ->
  Sys.malloc w = Some bs0 ->
  snapshot <> 0 ->
  w_mkstemp w = Some name ->
  w_mmap_ok w = true ->
  512 <= Z.of_nat (length (i_data f)) ->
  (Z.of_nat (length (i_data f)) ÷ 512 + 7) / 8 <= INT_MAX ->
  exists bs w',
    raw_bdrv_open filename snapshot w = (Some bs, w')
    /\ total_sectors bs = Z.of_nat (length (i_data f)) ÷ 512
    /\ read_only bs = 0
    /\ cow_bitmap bs = Some 0 /\ cow_sectors_offset bs = 0
    /\ bitmap_covers bs 0
    /\ (forall i, clean bs i)
    /\ Sys.file_of w' (fd bs) = Some f
    /\ (exists fc, Sys.file_of w' (cow_fd bs) = Some fc /\ i_data fc = [])
    /\ ~ same_file w' (fd bs) (cow_fd bs)
    /\ w_names w' = w_names w.
Proof.
  intros ((ino & Hname & Hino) & Hr & Hlen & Hok & Hraw) Hmalloc Hsnap Hmk
         Hmm Hsector Hsize.
  set (ts := Z.of_nat (length (i_data f)) ÷ 512) in *.
  assert (1 <= ts) as Hts.
  { unfold ts. rewrite Z.quot_div_nonneg by lia.
    apply Z.div_le_lower_bound; lia. }
  assert (to_int (shr (to_int64 (ts + 7)) 3) = (ts + 7) / 8) as Hbsize.
  { unfold INT_MAX in Hsize.
    assert (ts + 7 < 8 * 2 ^ 31) by (Z.div_mod_to_equations; lia).
    rewrite to_int64_fits by (unfold in_int64, INT64_MIN, INT64_MAX; lia).
    unfold shr. rewrite Z.shiftr_div_pow2 by lia. change (2 ^ 3) with 8.
    apply to_int_fits. unfold in_int, INT_MIN, INT_MAX.
    Z.div_mod_to_equations. lia. }
  assert (1 <= (ts + 7) / 8) as Hbpos by (Z.div_mod_to_equations; lia).
  unfold bdrv_open. rewrite Hmalloc.
  set (bs := with_filename _ _).
  destruct (open_image_readable filename snapshot bs w ino f Hname Hino Hr)
    as (fdn & fds1 & -> & Hfd & Hget).
  simpl.
  destruct (Z.eqb_spec snapshot 0) as [|_]; [done|].
  assert ((if i_writable f then bs else bs) = bs) as ->
    by (by destruct (i_writable f)).
  destruct (probe_image_raw filename snapshot fdn (with_fd fdn bs)
              fds1 w ino (i_writable f) f Hget Hino Hlen Hok Hraw)
    as (fds2 & -> & Hget2).
  simpl. destruct (Z.eqb_spec snapshot 0) as [|_]; [done|]. simpl.
  unfold make_snapshot, Sys.mkstemp. simpl. rewrite Hmk.
  destruct (Sys.alloc_fd fds2 (mkOfile (length (w_inodes w)) true 0))
    as [k fds3] eqn:Hk.
  assert ((Z.of_nat k <? 0) = false) as -> by (apply Z.ltb_ge; lia).
  simpl. fold ts. rewrite Hbsize.
  unfold Sys.mmap_anon. simpl. rewrite Hmm.
  assert ((0 <? (ts + 7) / 8) = true) as -> by lia. simpl.
  destruct (alloc_fd_fresh _ _ _ _ Hk) as [Hfree Hother].
  pose proof (alloc_fd_lookup _ _ _ _ Hk) as Hnew.
  destruct (get_ofile_range _ _ _ Hget2) as [_ Hlt]. simpl in Hlt.
  assert (mjoin (fds2 !! Z.to_nat fdn)
          = Some (mkOfile ino (i_writable f) (Z.of_nat (length (i_data f)))))
    as Hslot.
  { rewrite get_ofile_with_fds in Hget2.
    by assert ((fdn <? 0) = false) as Hpos by lia; rewrite Hpos in Hget2. }
  assert (Z.to_nat fdn <> k) as Hne.
  { intros <-. rewrite Hslot in Hfree. done. }
  eexists _, _. split; [reflexivity|]. simpl.
  split; [done|]. split; [done|]. split; [done|]. split; [done|].
  assert (forall w3, w_fds w3 = fds3 ->
            Sys.get_ofile w3 fdn
            = Some (mkOfile ino (i_writable f) (Z.of_nat (length (i_data f))))
            /\ Sys.get_ofile w3 (Z.of_nat k)
               = Some (mkOfile (length (w_inodes w)) true 0)) as Hfds.
  { intros w3 Hw3. unfold Sys.get_ofile. rewrite Hw3.
    assert ((fdn <? 0) = false) as -> by lia.
    assert ((Z.of_nat k <? 0) = false) as -> by (apply Z.ltb_ge; lia).
    rewrite Nat2Z.id, Hnew, Hother by done. by rewrite Hslot. }
  split.
  { unfold bitmap_covers. simpl. rewrite length_replicate.
    fold ts. unfold INT64_MAX. unfold INT_MAX in Hsize.
    repeat split; try lia. Z.div_mod_to_equations. lia. }
  split.
  { intros i. unfold clean. simpl. apply is_bit_set_zeros. }
  match goal with |- Sys.file_of ?w3 _ = _ /\ _ =>
    destruct (Hfds w3 eq_refl) as [Hg1 Hg2] end.
  split.
  { apply file_of_Some. eexists. split; [exact Hg1|]. simpl.
    by apply lookup_app_l_Some. }
  split.
  { exists (mkInode [] 0 true true). split; [|done].
    apply file_of_Some. eexists. split; [exact Hg2|]. simpl.
    by rewrite list_lookup_middle. }
  split.
  { intros (o1 & o2 & Ho1 & Ho2 & Hsame).
    rewrite Hg1 in Ho1. rewrite Hg2 in Ho2.
    injection Ho1 as <-. injection Ho2 as <-. simpl in Hsame.
    apply lookup_lt_Some in Hino. lia. }
  simpl. by rewrite String.eqb_refl.
Qed.

End OpenRaw.

Lemma bdrv_open_short_file_witness :
  Sys.lookup_name (w_names stub_world) "stub.img"%string = Some O
  /\ w_inodes stub_world !! O = Some (mkInode (replicate 512 7) 1000 true true)
  /\ Z.of_nat (length (replicate 512 7)) < 1056
  /\ fst (host_bdrv_open "stub.img"%string 0 stub_world) = None.
Proof.
  assert (Sys.lookup_name (w_names stub_world) "stub.img"%string = Some O) as H1
    by reflexivity.
  assert (w_inodes stub_world !! O
          = Some (mkInode (replicate 512 7) 1000 true true)) as H2
    by reflexivity.
  assert (Z.of_nat (length (i_data (mkInode (replicate 512 7) 1000 true true)))
          < 1056) as H3 by (vm_compute; reflexivity).
  split; [exact H1|]. split; [exact H2|]. split; [exact H3|].
  exact (proj1 (bdrv_open_short_file false 0x4f4f4f4d 2 1056 8 1024 1032 1040
                  stub_world "stub.img"%string 0 O _ H1 H2 H3)).
Defined.


Lemma bdrv_open_snapshot_witness :
  0 <= 0x4f4f4f4d < 2 ^ 32
  /\ 0 <= 2 < 2 ^ 32
  /\ 8 <= 1056
  /\ raw_image 0x4f4f4f4d 2 1056 (disk_world true false) "disk.img"%string
       (mkInode disk_image 1000 true false)
  /\ Sys.malloc (disk_world true false)
     = Some (mkBDS 0 0 0 None [] 0 0 0 EmptyString)
  /\ 1 <> 0
  /\ w_mkstemp (disk_world true false) = Some "/tmp/vl.a1b2c3"%string
  /\ w_mmap_ok (disk_world true false) = true
  /\ 512 <= Z.of_nat (length disk_image)
  /\ (Z.of_nat (length disk_image) ÷ 512 + 7) / 8 <= INT_MAX
  /\ exists bs w',
       host_bdrv_open "disk.img" 1 (disk_world true false) = (Some bs, w')
       /\ total_sectors bs = Z.of_nat (length disk_image) ÷ 512
       /\ read_only bs = 0
       /\ cow_bitmap bs = Some 0 /\ cow_sectors_offset bs = 0
       /\ bitmap_covers bs 0
       /\ (forall i, clean bs i)
       /\ Sys.file_of w' (fd bs) = Some (mkInode disk_image 1000 true false)
       /\ (exists fc, Sys.file_of w' (cow_fd bs) = Some fc /\ i_data fc = [])
       /\ ~ same_file w' (fd bs) (cow_fd bs)
       /\ w_names w' = w_names (disk_world true false).
Proof.
  assert (0 <= 0x4f4f4f4d < 2 ^ 32) as H1 by lia.
  assert (0 <= 2 < 2 ^ 32) as H2 by lia.
  assert (8 <= 1056) as H3 by lia.
  assert (raw_image 0x4f4f4f4d 2 1056 (disk_world true false) "disk.img"%string
            (mkInode disk_image 1000 true false)) as H4.
  { split; [exists O; split; reflexivity|].
    split; [reflexivity|]. split; [vm_compute; discriminate|].
    split.
    { apply (bool_decide_unpack
               (Forall (fun b => 0 <= b < 256)
                       (take (Z.to_nat 1056) disk_image))).
      vm_compute. exact I. }
    intros [Hmagic _]. vm_compute in Hmagic. discriminate Hmagic. }
  assert (Sys.malloc (disk_world true false)
          = Some (mkBDS 0 0 0 None [] 0 0 0 EmptyString)) as H5
    by reflexivity.
  assert (1 <> 0) as H6 by discriminate.
  assert (w_mkstemp (disk_world true false) = Some "/tmp/vl.a1b2c3"%string)
    as H7 by reflexivity.
  assert (w_mmap_ok (disk_world true false) = true) as H8 by reflexivity.
  assert (512 <= Z.of_nat
                   (length (i_data (mkInode disk_image 1000 true false))))
    as H9 by (vm_compute; discriminate).
  assert ((Z.of_nat (length (i_data (mkInode disk_image 1000 true false)))
           ÷ 512 + 7) / 8 <= INT_MAX) as H10 by (vm_compute; discriminate).
  split; [exact H1|]. split; [exact H2|]. split; [exact H3|].
  split; [exact H4|]. split; [exact H5|]. split; [exact H6|].
  split; [exact H7|]. split; [exact H8|]. split; [exact H9|].
  split; [exact H10|].
  exact (bdrv_open_snapshot false 0x4f4f4f4d 2 1056 8 1024 1032 1040 H1 H2 H3
           (disk_world true false) "disk.img" 1
           (mkInode disk_image 1000 true false) _ _ H4 H5 H6 H7 H8 H9 H10).
Defined.

(** ** Opening a container *)

Lemma to_uint64_to_int64 x : to_uint64 (to_int64 x) = x mod 2 ^ 64.
Proof.
  unfold to_uint64, to_int64, wrap_signed.
  change (2 ^ (64 - 1)) with 9223372036854775808.
  change (2 ^ 64) with 18446744073709551616.
  Z.div_mod_to_equations. lia.
Qed.

Lemma eight_bytes (b : list Z) :
  bytes_ok b -> length b = 8%nat ->
  exists b0 b1 b2 b3 b4 b5 b6 b7,
    b = [b0; b1; b2; b3; b4; b5; b6; b7]
    /\ bytes_ok [b0; b1; b2; b3] /\ bytes_ok [b4; b5; b6; b7].
Proof.
  intros Hok Hlen.
  destruct b as [|b0 [|b1 [|b2 [|b3 [|b4 [|b5 [|b6 [|b7 [|]]]]]]]]];
    try discriminate.
  exists b0, b1, b2, b3, b4, b5, b6, b7. split; [done|].
  unfold bytes_ok in *.
  change [b0; b1; b2; b3; b4; b5; b6; b7]
    with ([b0; b1; b2; b3] ++ [b4; b5; b6; b7]) in Hok.
  by apply Forall_app in Hok.
Qed.

(** The 64-bit [size] field after the byte swap of a little-endian host, or
    as a big-endian host loads it: the big-endian value of its bytes. *)
Lemma size_field_host (big : bool) b :
  bytes_ok b -> length b = 8%nat -> be_decode b <= INT64_MAX ->
  0 <= be_decode b
  /\ (if big then to_int64 (load_host big b)
      else to_int64 (bswap64 (to_uint64 (to_int64 (load_host big b)))))
     = be_decode b.
Proof.
  intros Hok Hlen Hmax.
  destruct (eight_bytes b Hok Hlen)
    as (b0 & b1 & b2 & b3 & b4 & b5 & b6 & b7 & -> & Hlo & Hhi).
  destruct (four_bytes _ Hlo eq_refl)
    as (? & ? & ? & ? & [= <- <- <- <-] & H0 & H1 & H2 & H3).
  destruct (four_bytes _ Hhi eq_refl)
    as (? & ? & ? & ? & [= <- <- <- <-] & H4 & H5 & H6 & H7).
  assert (be_decode [b0; b1; b2; b3; b4; b5; b6; b7]
          = (b0 * 2 ^ 24 + b1 * 2 ^ 16 + b2 * 2 ^ 8 + b3) * 2 ^ 32
            + (b4 * 2 ^ 24 + b5 * 2 ^ 16 + b6 * 2 ^ 8 + b7)) as Hbe.
  { unfold be_decode. simpl. lia. }
  rewrite Hbe in *. unfold INT64_MAX in Hmax.
  split; [lia|].
  destruct big; unfold load_host.
  - rewrite Hbe. apply to_int64_fits. unfold in_int64, INT64_MIN, INT64_MAX. lia.
  - set (lo := b0 + b1 * 2 ^ 8 + b2 * 2 ^ 16 + b3 * 2 ^ 24).
    set (hi := b4 + b5 * 2 ^ 8 + b6 * 2 ^ 16 + b7 * 2 ^ 24).
    assert (le_decode [b0; b1; b2; b3; b4; b5; b6; b7] = lo + hi * 2 ^ 32)
      as -> by (unfold lo, hi; simpl; lia).
    assert (0 <= lo < 2 ^ 32) as Hlor by (unfold lo; lia).
    assert (0 <= hi < 2 ^ 32) as Hhir by (unfold hi; lia).
    rewrite to_uint64_to_int64.
    rewrite (Z.mod_small (lo + hi * 2 ^ 32)) by lia.
    unfold bswap64.
    rewrite Z.mod_add, Z.div_add, (Z.div_small lo), (Z.mod_small lo) by lia.
    rewrite Z.add_0_l, (Z.mod_small hi) by lia.
    unfold lo, hi. rewrite !bswap32_bytes by done.
    apply to_int64_fits. unfold in_int64, INT64_MIN, INT64_MAX. lia.
Qed.

Lemma land_lnot_511 x : Z.land x (Z.lnot 511) = x / 512 * 512.
Proof.
  rewrite <- Z.ldiff_land. change 511 with (Z.ones 9).
  rewrite Z.ldiff_ones_r by lia.
  rewrite Z.shiftl_mul_pow2, Z.shiftr_div_pow2 by lia. done.
Qed.

Lemma load8_resize n mem a :
  a < Z.of_nat n -> load8 (resize n 0 mem) a = load8 mem a.
Proof.
  intros Ha. unfold load8. destruct (Z.ltb_spec a 0) as [|Hpos]; [done|].
  destruct (decide (Z.to_nat a < length mem)%nat) as [Hin|Hout].
  - by rewrite lookup_resize by lia.
  - rewrite lookup_resize_new by lia.
    by rewrite (lookup_ge_None_2 mem) by lia.
Qed.

Lemma open_mmap_ok w path rdwr :
  w_mmap_ok (snd (Sys.open w path rdwr)) = w_mmap_ok w.
Proof.
  unfold Sys.open.
  destruct (Sys.lookup_name (w_names w) path) as [ino|]; [|done].
  destruct (w_inodes w !! ino) as [f|]; [|done].
  destruct (i_readable f && (negb rdwr || i_writable f)); [|done].
  by destruct (Sys.alloc_fd (w_fds w) (mkOfile ino rdwr 0)).
Qed.

Section OpenContainer.

Variable WORDS_BIGENDIAN : bool.
Variables COW_MAGIC COW_VERSION : Z.
Variable sizeof_cow_header : Z.
Variables offsetof_backing_file sizeof_backing_file : nat.
Variables offsetof_mtime offsetof_size : nat.

Local Abbreviation cow_probe_image :=
  (probe_image WORDS_BIGENDIAN COW_MAGIC COW_VERSION sizeof_cow_header
               offsetof_backing_file sizeof_backing_file
               offsetof_mtime offsetof_size).
Local Abbreviation cow_bdrv_open :=
  (bdrv_open WORDS_BIGENDIAN COW_MAGIC COW_VERSION sizeof_cow_header
             offsetof_backing_file sizeof_backing_file
             offsetof_mtime offsetof_size).
Local Abbreviation is_cow_image :=
  (cow_image COW_MAGIC COW_VERSION sizeof_cow_header).
Local Abbreviation layout_ok :=
  (header_layout sizeof_cow_header offsetof_backing_file sizeof_backing_file
                 offsetof_mtime offsetof_size).
Local Abbreviation cow_load_header :=
  (load_cow_header WORDS_BIGENDIAN offsetof_backing_file sizeof_backing_file
                   offsetof_mtime offsetof_size).
Local Abbreviation size_of := (stored_size offsetof_size).
Local Abbreviation backing_name :=
  (named_backing offsetof_backing_file sizeof_backing_file).
Local Abbreviation mtime_field := (stored_mtime offsetof_mtime).
Local Abbreviation cow_open_backing := (open_backing WORDS_BIGENDIAN).
Local Abbreviation cow_map_bitmap := (map_bitmap sizeof_cow_header).

(** Up to the [backing_file] test, on a container. *)
Lemma probe_image_cow filename snapshot fdn bs fds1 w ino rdwr f :
  8 <= sizeof_cow_header ->
  Sys.get_ofile (with_fds fds1 w) fdn = Some (mkOfile ino rdwr 0) ->
  w_inodes w !! ino = Some f ->
  sizeof_cow_header <= Z.of_nat (length (i_data f)) ->
  bytes_ok (take (Z.to_nat sizeof_cow_header) (i_data f)) ->
  be_decode (field (i_data f) 0 4) = COW_MAGIC ->
  be_decode (field (i_data f) 4 4) = COW_VERSION ->
  exists fds2 ts,
    cow_probe_image filename snapshot fdn bs (with_fds fds1 w)
    = and_then
        (cow_open_backing filename
           (cow_load_header (take (Z.to_nat sizeof_cow_header) (i_data f)))
           (with_fd (-1) (with_cow_fd fdn (with_total_sectors ts bs)))
           (with_fds fds2 w))
        (fun _ bs2 w2 =>
           and_then (cow_map_bitmap bs2 w2) (fun _ bs3 w3 => Go_on 0 bs3 w3))
    /\ Sys.get_ofile (with_fds fds2 w) fdn
       = Some (mkOfile ino rdwr sizeof_cow_header)
    /\ (Z.of_nat offsetof_size + 8 <= sizeof_cow_header ->
        size_of (i_data f) <= INT64_MAX ->
        ts = size_of (i_data f) ÷ 512).
Proof.
  intros H8 Hget Hino Hlen Hok Hmagic Hver.
  set (raw := take (Z.to_nat sizeof_cow_header) (i_data f)) in *.
  assert (length raw = Z.to_nat sizeof_cow_header) as Hrawlen
    by (unfold raw; rewrite length_take; lia).
  unfold probe_image, Sys.read. rewrite Hget. simpl. rewrite Hino.
  rewrite drop_0. fold raw. rewrite Hrawlen, Z2Nat.id, Z.eqb_refl by lia.
  simpl.
  rewrite (load_host_is_htonl _ _ COW_MAGIC), (load_host_is_htonl _ _ COW_VERSION);
    [| by apply bytes_ok_field | apply length_field; lia
     | by unfold raw; rewrite field_take by lia
     | by apply bytes_ok_field | apply length_field; lia
     | by unfold raw; rewrite field_take by lia].
  simpl. eexists _, _. split; [reflexivity|]. split.
  - rewrite get_ofile_with_fds.
    destruct (get_ofile_range _ _ _ Hget) as [Hfd Hlt]. simpl in Hlt.
    assert ((fdn <? 0) = false) as -> by lia.
    by rewrite list_lookup_insert_eq.
  - intros Hs Hmax.
    destruct (size_field_host WORDS_BIGENDIAN (field raw offsetof_size 8))
      as [_ ->];
      [ by apply bytes_ok_field | apply length_field; lia
      | by unfold raw; rewrite field_take by lia |].
    unfold raw. by rewrite field_take by lia.
Qed.

(** [map_bitmap] on a container opened for reading and writing. *)
Lemma map_bitmap_ok bs w o f :
  Sys.get_ofile w (cow_fd bs) = Some o ->
  o_rdwr o = true ->
  w_mmap_ok w = true ->
  w_inodes w !! o_ino o = Some f ->
  0 <= total_sectors bs ->
  0 < sizeof_cow_header ->
  (total_sectors bs + 7) / 8 + sizeof_cow_header + 511 <= INT_MAX ->
  let n := (total_sectors bs + 7) / 8 + sizeof_cow_header in
  cow_map_bitmap bs w
  = Go_on tt
      (with_cow_sectors_offset ((n + 511) / 512 * 512)
         (with_cow_bitmap (Some sizeof_cow_header)
            (with_cow_bitmap_addr (resize (Z.to_nat n) 0 (i_data f))
               (with_cow_bitmap_size n bs))))
      w.
Proof.
  intros Hget Hrw Hmm Hino Hts Hsz Hfit n. unfold INT_MAX in Hfit.
  assert (0 <= (total_sectors bs + 7) / 8) as Hq
    by (apply Z.div_pos; lia).
  assert (to_int (to_uint64 (shr (to_int64 (total_sectors bs + 7)) 3
                             + sizeof_cow_header)) = n) as Hn.
  { assert (total_sectors bs + 7 < 8 * 2 ^ 31)
      by (Z.div_mod_to_equations; lia).
    rewrite to_int64_fits by (unfold in_int64, INT64_MIN, INT64_MAX; lia).
    unfold shr. rewrite Z.shiftr_div_pow2 by lia. change (2 ^ 3) with 8.
    fold n. unfold to_uint64. rewrite Z.mod_small by (unfold n; lia).
    apply to_int_fits. unfold in_int, INT_MIN, INT_MAX, n. lia. }
  unfold map_bitmap. simpl. rewrite Hn.
  unfold Sys.mmap_shared. rewrite Hget, Hmm, Hrw. simpl.
  assert ((0 <? n) = true) as -> by (unfold n; lia).
  rewrite Hino. simpl.
  rewrite to_int_fits by (unfold in_int, INT_MIN, INT_MAX, n; lia).
  by rewrite land_lnot_511.
Qed.

Lemma be_decode_nonneg b : bytes_ok b -> 0 <= be_decode b.
Proof.
  assert (forall acc : Z, 0 <= acc ->
            bytes_ok b -> 0 <= fold_left (fun a x => a * 256 + x) b acc)
    as Hgen.
  { induction b as [|x b IH]; intros acc Hacc Hok; [done|].
    apply Forall_cons_1 in Hok as [Hx Hok]. simpl. apply IH; [lia | done]. }
  intros Hok. by apply Hgen.
Qed.

(** What [open_backing] leaves alone when it goes on. *)
Lemma open_backing_keeps filename h bs w u bs2 w2 :
  cow_open_backing filename h bs w = Go_on u bs2 w2 ->
  cow_fd bs2 = cow_fd bs
  /\ forall d o, Sys.get_ofile w d = Some o -> Sys.get_ofile w2 d = Some o.
Proof.
  unfold open_backing.
  destruct (negb (hd 0 (backing_file h) =? 0)); [|by intros [= _ <- <-]].
  destruct (Sys.stat w (c_string (backing_file h))) as [st|]; [|done].
  destruct (negb (st =? htonl WORDS_BIGENDIAN (mtime h))); [done|].
  destruct (Sys.open w (c_string (backing_file h)) false) as [fdb w1] eqn:Hopen.
  destruct (Z.ltb_spec fdb 0) as [|Hfdb]; [done|].
  intros [= _ <- <-]. split; [done|]. intros d o Hd.
  destruct (open_cases _ _ _ _ _ Hopen)
    as [[-> _] | (_ & Hfree & _ & Hothers & _)]; [lia|].
  rewrite Hothers; [done|]. intros ->. congruence.
Qed.

(** X14. A container that cannot be opened for writing cannot be opened at
    all, whatever its header names and with or without [snapshot]: the
    bitmap is mapped shared and writable, which a descriptor opened
    read-only does not allow, so [bdrv_open] returns no handle. *)
Theorem bdrv_open_container_not_writable w filename snapshot f :
  8 <= sizeof_cow_header ->
  cow_image COW_MAGIC COW_VERSION sizeof_cow_header w filename f ->
  i_writable f = false ->
  fst (bdrv_open WORDS_BIGENDIAN COW_MAGIC COW_VERSION sizeof_cow_header
                 offsetof_backing_file sizeof_backing_file
                 offsetof_mtime offsetof_size filename snapshot w) = None.
Proof.
  intros H8 ((ino & Hname & Hino) & Hr & Hlen & Hok & Hmagic & Hver) Hw.
  unfold bdrv_open. destruct (Sys.malloc w) as [bs0|]; [|done].
  set (bs := with_filename _ _).
  destruct (open_image_readable filename snapshot bs w ino f Hname Hino Hr)
    as (fdn & fds1 & -> & Hfd & Hget).
  rewrite Hw in *. cbn [and_then].
  destruct (probe_image_cow filename snapshot fdn
              (with_fd fdn (if snapshot =? 0 then with_read_only 1 bs else bs))
              fds1 w ino false f H8 Hget Hino Hlen Hok Hmagic Hver)
    as (fds2 & ts & -> & Hget2 & _).
  destruct (cow_open_backing _ _ _ _) as [bs2 w2|u bs2 w2] eqn:Hback; [done|].
  destruct (open_backing_keeps _ _ _ _ _ _ _ Hback) as [Hcow Hkeep].
  cbn [and_then]. unfold map_bitmap, Sys.mmap_shared.
  cbn [cow_fd with_cow_bitmap_size]. rewrite Hcow. cbn [cow_fd with_fd with_cow_fd].
  rewrite (Hkeep _ _ Hget2). cbn [o_rdwr]. rewrite andb_false_r. done.
Qed.

(** What the mapped bitmap of a container gives the handle. *)
Lemma mapped_bitmap data ts bs :
  0 <= ts <= INT64_MAX -> 0 <= sizeof_cow_header ->
  let n := (ts + 7) / 8 + sizeof_cow_header in
  total_sectors bs = ts ->
  cow_bitmap_addr bs = resize (Z.to_nat n) 0 data ->
  bitmap_covers bs sizeof_cow_header
  /\ forall i, 0 <= i < ts ->
       is_bit_set (cow_bitmap_addr bs) sizeof_cow_header i
       = is_bit_set data sizeof_cow_header i.
Proof.
  intros Hts Hsz n Htot Hmap.
  assert (0 <= (ts + 7) / 8) as Hq by (apply Z.div_pos; lia).
  split.
  - unfold bitmap_covers. rewrite Htot, Hmap, length_resize.
    unfold n. split; [lia|]. split; lia.
  - intros i Hi. rewrite Hmap. unfold is_bit_set.
    rewrite load8_resize; [done|].
    rewrite Z.quot_div_nonneg, Z2Nat.id by lia.
    unfold n. Z.div_mod_to_equations. lia.
Qed.

(** X15. Opening a writable container that names no backing file, with or
    without [snapshot]: the handle has no backing descriptor, its overlay
    descriptor is open on the container, the geometry is the size the
    header stores divided by 512, the dirty bits are those stored in the
    file after the header (the file holding all of the bitmap), the sector
    data starts at the first multiple of 512 at or after the end of the
    bitmap, and no temporary file is made. *)
Theorem bdrv_open_container w path snapshot f bs0 :
  layout_ok ->
  is_cow_image w path f ->
  i_writable f = true ->
  Sys.malloc w = Some bs0 ->
  w_mmap_ok w = true ->
  hd 0 (field (i_data f) offsetof_backing_file sizeof_backing_file) = 0 ->
  let ts := size_of (i_data f) ÷ 512 in
  let n := (ts + 7) / 8 + sizeof_cow_header in
  n + 511 <= INT_MAX ->
  n <= Z.of_nat (length (i_data f)) ->
  exists bs w',
    cow_bdrv_open path snapshot w = (Some bs, w')
    /\ fd bs = -1
    /\ Sys.file_of w' (cow_fd bs) = Some f
    /\ read_only bs = 0
    /\ bdrv_get_geometry bs = ts
    /\ cow_bitmap bs = Some sizeof_cow_header
    /\ bitmap_covers bs sizeof_cow_header
    /\ (forall i, 0 <= i < ts ->
          is_bit_set (cow_bitmap_addr bs) sizeof_cow_header i
          = is_bit_set (i_data f) sizeof_cow_header i)
    /\ cow_sectors_offset bs = (n + 511) / 512 * 512
    /\ w_inodes w' = w_inodes w /\ w_names w' = w_names w.
Proof.
  intros (H8 & Hb & Hm & Hs)
         ((ino & Hname & Hino) & Hr & Hlen & Hok & Hmagic & Hver)
         Hw Hmalloc Hmm Hnone ts n Hfit Hwhole.
  assert (0 <= size_of (i_data f)) as Hsize.
  { unfold stored_size.
    rewrite <- (field_take _ (Z.to_nat sizeof_cow_header)) by lia.
    by apply be_decode_nonneg, bytes_ok_field. }
  assert (0 <= ts /\ ts * 512 <= size_of (i_data f)) as [Hts Hts'].
  { unfold ts. rewrite Z.quot_div_nonneg by lia.
    Z.div_mod_to_equations. lia. }
  assert (0 <= (ts + 7) / 8) as Hq by (apply Z.div_pos; lia).
  assert (ts < 2 ^ 34 /\ size_of (i_data f) <= INT64_MAX) as [Hsmall Hmax].
  { unfold INT_MAX in Hfit. unfold INT64_MAX. unfold n in Hfit.
    unfold ts in *. rewrite Z.quot_div_nonneg in * by lia.
    Z.div_mod_to_equations. lia. }
  unfold bdrv_open. rewrite Hmalloc.
  set (bs := with_filename _ _).
  destruct (open_image_readable path snapshot bs w ino f Hname Hino Hr)
    as (fdn & fds1 & -> & Hfd & Hget).
  rewrite Hw in *. cbn [and_then].
  destruct (probe_image_cow path snapshot fdn (with_fd fdn bs)
              fds1 w ino true f H8 Hget Hino Hlen Hok Hmagic Hver)
    as (fds2 & ts0 & -> & Hget2 & Hts0).
  rewrite (Hts0 Hs Hmax). fold ts.
  unfold open_backing. cbn [backing_file load_cow_header].
  rewrite field_take by lia. rewrite Hnone. cbn [Z.eqb negb and_then].
  rewrite (map_bitmap_ok _ (with_fds fds2 w) (mkOfile ino true sizeof_cow_header) f);
    [| exact Hget2 | done | done | done | done | lia | done].
  cbn [and_then total_sectors with_fd with_cow_fd with_total_sectors].
  fold n.
  eexists _, _. split; [reflexivity|].
  destruct (mapped_bitmap (i_data f) ts
              (with_cow_sectors_offset ((n + 511) / 512 * 512)
                 (with_cow_bitmap (Some sizeof_cow_header)
                    (with_cow_bitmap_addr (resize (Z.to_nat n) 0 (i_data f))
                       (with_cow_bitmap_size n
                          (with_fd (-1)
                             (with_cow_fd fdn
                                (with_total_sectors ts (with_fd fdn bs)))))))))
    as [Hcov Hbits]; [unfold INT64_MAX; lia | lia | done | done |].
  split; [done|]. split.
  { apply file_of_Some. eexists. split; [exact Hget2 | done]. }
  split; [done|]. split; [done|]. split; [done|]. split; [exact Hcov|].
  split; [exact Hbits|]. done.
Qed.

(** X16. Opening a writable container over a backing file that is there,
    readable and has the modification time the header stores, with or
    without [snapshot]: the backing descriptor is open on the backing file
    and the overlay descriptor, another one, on the container; the handle
    is writable, the geometry is the size the header stores divided
    by 512, the dirty bits are those stored in the container (which holds
    all of the bitmap), and the sector data starts at the first multiple of
    512 at or after the end of the bitmap. *)
Theorem bdrv_open_backed_container w path snapshot f bino bf bs0 :
  layout_ok ->
  is_cow_image w path f ->
  i_writable f = true ->
  Sys.malloc w = Some bs0 ->
  w_mmap_ok w = true ->
  hd 0 (field (i_data f) offsetof_backing_file sizeof_backing_file) <> 0 ->
  Sys.lookup_name (w_names w) (backing_name (i_data f)) = Some bino ->
  w_inodes w !! bino = Some bf ->
  i_readable bf = true ->
  i_mtime bf = mtime_field (i_data f) ->
  let ts := size_of (i_data f) ÷ 512 in
  let n := (ts + 7) / 8 + sizeof_cow_header in
  n + 511 <= INT_MAX ->
  n <= Z.of_nat (length (i_data f)) ->
  exists bs w',
    cow_bdrv_open path snapshot w = (Some bs, w')
    /\ Sys.file_of w' (fd bs) = Some bf
    /\ Sys.file_of w' (cow_fd bs) = Some f
    /\ fd bs <> cow_fd bs
    /\ read_only bs = 0
    /\ bdrv_get_geometry bs = ts
    /\ cow_bitmap bs = Some sizeof_cow_header
    /\ bitmap_covers bs sizeof_cow_header
    /\ (forall i, 0 <= i < ts ->
          is_bit_set (cow_bitmap_addr bs) sizeof_cow_header i
          = is_bit_set (i_data f) sizeof_cow_header i)
    /\ cow_sectors_offset bs = (n + 511) / 512 * 512
    /\ w_inodes w' = w_inodes w /\ w_names w' = w_names w.
Proof.
  intros (H8 & Hb & Hm & Hs)
         ((ino & Hname & Hino) & Hr & Hlen & Hok & Hmagic & Hver)
         Hw Hmalloc Hmm Hnamed Hbname Hbino Hbr Hfresh ts n Hfit Hwhole.
  assert (0 <= size_of (i_data f)) as Hsize.
  { unfold stored_size.
    rewrite <- (field_take _ (Z.to_nat sizeof_cow_header)) by lia.
    by apply be_decode_nonneg, bytes_ok_field. }
  assert (0 <= ts /\ ts * 512 <= size_of (i_data f)) as [Hts Hts'].
  { unfold ts. rewrite Z.quot_div_nonneg by lia.
    Z.div_mod_to_equations. lia. }
  assert (0 <= (ts + 7) / 8) as Hq by (apply Z.div_pos; lia).
  assert (ts < 2 ^ 34 /\ size_of (i_data f) <= INT64_MAX) as [Hsmall Hmax].
  { unfold INT_MAX in Hfit. unfold INT64_MAX. unfold n in Hfit.
    unfold ts in *. rewrite Z.quot_div_nonneg in * by lia.
    Z.div_mod_to_equations. lia. }
  unfold bdrv_open. rewrite Hmalloc.
  set (bs := with_filename _ _).
  destruct (open_image_readable path snapshot bs w ino f Hname Hino Hr)
    as (fdn & fds1 & -> & Hfd & Hget).
  rewrite Hw in *. cbn [and_then].
  destruct (probe_image_cow path snapshot fdn (with_fd fdn bs)
              fds1 w ino true f H8 Hget Hino Hlen Hok Hmagic Hver)
    as (fds2 & ts0 & -> & Hget2 & Hts0).
  rewrite (Hts0 Hs Hmax). fold ts.
  set (raw := take (Z.to_nat sizeof_cow_header) (i_data f)).
  assert (length raw = Z.to_nat sizeof_cow_header) as Hrawlen
    by (unfold raw; rewrite length_take; lia).
  assert (field raw offsetof_backing_file sizeof_backing_file
          = field (i_data f) offsetof_backing_file sizeof_backing_file)
    as Hbfield by (unfold raw; by rewrite field_take by lia).
  unfold open_backing. cbn [backing_file mtime load_cow_header].
  rewrite !Hbfield. fold (backing_name (i_data f)).
  destruct (Z.eqb_spec
              (hd 0 (field (i_data f) offsetof_backing_file
                           sizeof_backing_file)) 0) as [|_]; [done|].
  cbn [negb].
  assert (Sys.stat (with_fds fds2 w) (backing_name (i_data f))
          = Some (i_mtime bf)) as ->.
  { unfold Sys.stat. cbn [w_names w_inodes with_fds]. rewrite Hbname. simpl.
    by rewrite Hbino. }
  rewrite htonl_load_host;
    [| by apply bytes_ok_field | apply length_field; lia].
  unfold raw at 1. rewrite field_take by lia.
  fold (mtime_field (i_data f)). rewrite Hfresh, Z.eqb_refl. cbn [negb].
  pose proof (open_named (with_fds fds2 w) (backing_name (i_data f)) false
                bino bf Hbname Hbino) as Hopen.
  rewrite Hbr in Hopen. cbn [negb orb andb] in Hopen.
  destruct Hopen as (fdb & w2 & Hopen & Hfdb & Hgetb & Hi2 & Hn2 & _).
  pose proof (open_mmap_ok (with_fds fds2 w) (backing_name (i_data f)) false)
    as Hmm2.
  destruct (open_cases _ _ _ _ _ Hopen)
    as [[-> _] | (_ & Hfree & _ & Hothers & _)]; [lia|].
  rewrite Hopen in *. cbn [snd] in Hmm2.
  assert ((fdb <? 0) = false) as -> by lia.
  assert (fdb <> fdn) as Hne by (intros ->; congruence).
  assert (Sys.get_ofile w2 fdn = Some (mkOfile ino true sizeof_cow_header))
    as Hget3 by (rewrite Hothers; [exact Hget2 | done]).
  cbn [and_then].
  rewrite (map_bitmap_ok _ w2 (mkOfile ino true sizeof_cow_header) f);
    [| exact Hget3 | done | by rewrite Hmm2 | by rewrite Hi2 | done | lia
     | done].
  cbn [and_then total_sectors with_fd with_cow_fd with_total_sectors].
  fold n.
  eexists _, _. split; [reflexivity|].
  destruct (mapped_bitmap (i_data f) ts
              (with_cow_sectors_offset ((n + 511) / 512 * 512)
                 (with_cow_bitmap (Some sizeof_cow_header)
                    (with_cow_bitmap_addr (resize (Z.to_nat n) 0 (i_data f))
                       (with_cow_bitmap_size n
                          (with_fd fdb
                             (with_fd (-1)
                                (with_cow_fd fdn
                                   (with_total_sectors ts
                                      (with_fd fdn bs))))))))))
    as [Hcov Hbits]; [unfold INT64_MAX; lia | lia | done | done |].
  split.
  { apply file_of_Some. eexists. split; [exact Hgetb|]. by rewrite Hi2. }
  split.
  { apply file_of_Some. eexists. split; [exact Hget3|]. by rewrite Hi2. }
  split; [done|]. split; [done|]. split; [done|]. split; [done|].
  split; [exact Hcov|]. split; [exact Hbits|]. done.
Qed.

End OpenContainer.

Lemma bdrv_open_container_not_writable_witness :
  8 <= 1056
  /\ cow_image 0x4f4f4f4d 2 1056 (lone_world false) "lone.cow"%string
       (mkInode lone_container 1200 true false)
  /\ i_writable (mkInode lone_container 1200 true false) = false
  /\ fst (host_bdrv_open "lone.cow" 0 (lone_world false)) = None.
Proof.
  assert (8 <= 1056) as H1 by lia.
  assert (cow_image 0x4f4f4f4d 2 1056 (lone_world false) "lone.cow"%string
            (mkInode lone_container 1200 true false)) as H2.
  { split; [exists O; split; reflexivity|].
    split; [reflexivity|]. split; [vm_compute; discriminate|].
    split.
    { apply (bool_decide_unpack
               (Forall (fun b => 0 <= b < 256)
                       (take (Z.to_nat 1056) lone_container))).
      vm_compute. exact I. }
    split; vm_compute; reflexivity. }
  assert (i_writable (mkInode lone_container 1200 true false) = false) as H3
    by reflexivity.
  split; [exact H1|]. split; [exact H2|]. split; [exact H3|].
  exact (bdrv_open_container_not_writable false 0x4f4f4f4d 2 1056 8 1024 1032
           1040 (lone_world false) "lone.cow"%string 0 _ H1 H2 H3).
Defined.

Lemma bdrv_open_container_witness :
  header_layout 1056 8 1024 1032 1040
  /\ cow_image 0x4f4f4f4d 2 1056 (lone_world true) "lone.cow"%string
       (mkInode lone_container 1200 true true)
  /\ i_writable (mkInode lone_container 1200 true true) = true
  /\ Sys.malloc (lone_world true)
     = Some (mkBDS 0 0 0 None [] 0 0 0 EmptyString)
  /\ w_mmap_ok (lone_world true) = true
  /\ hd 0 (field lone_container 8 1024) = 0
  /\ (stored_size 1040 lone_container ÷ 512 + 7) / 8 + 1056 + 511 <= INT_MAX
  /\ (stored_size 1040 lone_container ÷ 512 + 7) / 8 + 1056
     <= Z.of_nat (length lone_container)
  /\ exists bs w',
       host_bdrv_open "lone.cow" 1 (lone_world true) = (Some bs, w')
       /\ fd bs = -1
       /\ Sys.file_of w' (cow_fd bs)
          = Some (mkInode lone_container 1200 true true)
       /\ read_only bs = 0
       /\ bdrv_get_geometry bs = stored_size 1040 lone_container ÷ 512
       /\ cow_bitmap bs = Some 1056
       /\ bitmap_covers bs 1056
       /\ (forall i, 0 <= i < stored_size 1040 lone_container ÷ 512 ->
             is_bit_set (cow_bitmap_addr bs) 1056 i
             = is_bit_set lone_container 1056 i)
       /\ cow_sectors_offset bs
          = ((stored_size 1040 lone_container ÷ 512 + 7) / 8 + 1056 + 511)
            / 512 * 512
       /\ w_inodes w' = w_inodes (lone_world true)
       /\ w_names w' = w_names (lone_world true).
Proof.
  assert (header_layout 1056 8 1024 1032 1040) as H1
    by (unfold header_layout; lia).
  assert (cow_image 0x4f4f4f4d 2 1056 (lone_world true) "lone.cow"%string
            (mkInode lone_container 1200 true true)) as H2.
  { split; [exists O; split; reflexivity|].
    split; [reflexivity|]. split; [vm_compute; discriminate|].
    split.
    { apply (bool_decide_unpack
               (Forall (fun b => 0 <= b < 256)
                       (take (Z.to_nat 1056) lone_container))).
      vm_compute. exact I. }
    split; vm_compute; reflexivity. }
  assert (i_writable (mkInode lone_container 1200 true true) = true) as H3
    by reflexivity.
  assert (Sys.malloc (lone_world true)
          = Some (mkBDS 0 0 0 None [] 0 0 0 EmptyString)) as H4
    by reflexivity.
  assert (w_mmap_ok (lone_world true) = true) as H5 by reflexivity.
  assert (hd 0 (field (i_data (mkInode lone_container 1200 true true))
                      8 1024) = 0) as H6 by (vm_compute; reflexivity).
  assert ((stored_size 1040 (i_data (mkInode lone_container 1200 true true))
           ÷ 512 + 7) / 8 + 1056 + 511 <= INT_MAX) as H7
    by (vm_compute; discriminate).
  split; [exact H1|]. split; [exact H2|]. split; [exact H3|].
  split; [exact H4|]. split; [exact H5|]. split; [exact H6|].
  assert ((stored_size 1040 (i_data (mkInode lone_container 1200 true true))
           ÷ 512 + 7) / 8 + 1056
          <= Z.of_nat (length (i_data (mkInode lone_container 1200 true true))))
    as H8 by (vm_compute; discriminate).
  split; [exact H7|]. split; [exact H8|].
  exact (bdrv_open_container false 0x4f4f4f4d 2 1056 8 1024 1032 1040
           (lone_world true) "lone.cow"%string 1 _ _ H1 H2 H3 H4 H5 H6 H7 H8).
Defined.

Lemma bdrv_open_backed_container_witness :
  header_layout 1056 8 1024 1032 1040
  /\ cow_image 0x4f4f4f4d 2 1056 fresh_world "snap.cow"%string
       (mkInode fresh_container 1200 true true)
  /\ i_writable (mkInode fresh_container 1200 true true) = true
  /\ Sys.malloc fresh_world = Some (mkBDS 0 0 0 None [] 0 0 0 EmptyString)
  /\ w_mmap_ok fresh_world = true
  /\ hd 0 (field fresh_container 8 1024) <> 0
  /\ Sys.lookup_name (w_names fresh_world)
       (named_backing 8 1024 fresh_container) = Some O
  /\ w_inodes fresh_world !! O = Some (mkInode disk_image 1000 true true)
  /\ i_readable (mkInode disk_image 1000 true true) = true
  /\ i_mtime (mkInode disk_image 1000 true true)
     = stored_mtime 1032 fresh_container
  /\ (stored_size 1040 fresh_container ÷ 512 + 7) / 8 + 1056 + 511 <= INT_MAX
  /\ (stored_size 1040 fresh_container ÷ 512 + 7) / 8 + 1056
     <= Z.of_nat (length fresh_container)
  /\ exists bs w',
       host_bdrv_open "snap.cow" 0 fresh_world = (Some bs, w')
       /\ Sys.file_of w' (fd bs) = Some (mkInode disk_image 1000 true true)
       /\ Sys.file_of w' (cow_fd bs)
          = Some (mkInode fresh_container 1200 true true)
       /\ fd bs <> cow_fd bs
       /\ read_only bs = 0
       /\ bdrv_get_geometry bs = stored_size 1040 fresh_container ÷ 512
       /\ cow_bitmap bs = Some 1056
       /\ bitmap_covers bs 1056
       /\ (forall i, 0 <= i < stored_size 1040 fresh_container ÷ 512 ->
             is_bit_set (cow_bitmap_addr bs) 1056 i
             = is_bit_set fresh_container 1056 i)
       /\ cow_sectors_offset bs
          = ((stored_size 1040 fresh_container ÷ 512 + 7) / 8 + 1056 + 511)
            / 512 * 512
       /\ w_inodes w' = w_inodes fresh_world
       /\ w_names w' = w_names fresh_world.
Proof.
  assert (header_layout 1056 8 1024 1032 1040) as H1
    by (unfold header_layout; lia).
  assert (cow_image 0x4f4f4f4d 2 1056 fresh_world "snap.cow"%string
            (mkInode fresh_container 1200 true true)) as H2.
  { split; [exists 1%nat; split; reflexivity|].
    split; [reflexivity|]. split; [vm_compute; discriminate|].
    split.
    { apply (bool_decide_unpack
               (Forall (fun b => 0 <= b < 256)
                       (take (Z.to_nat 1056) fresh_container))).
      vm_compute. exact I. }
    split; vm_compute; reflexivity. }
  assert (i_writable (mkInode fresh_container 1200 true true) = true) as H3
    by reflexivity.
  assert (Sys.malloc fresh_world
          = Some (mkBDS 0 0 0 None [] 0 0 0 EmptyString)) as H4
    by reflexivity.
  assert (w_mmap_ok fresh_world = true) as H5 by reflexivity.
  assert (hd 0 (field (i_data (mkInode fresh_container 1200 true true))
                      8 1024) <> 0) as H6 by (vm_compute; discriminate).
  assert (Sys.lookup_name (w_names fresh_world)
            (named_backing 8 1024
               (i_data (mkInode fresh_container 1200 true true))) = Some O)
    as H7 by (vm_compute; reflexivity).
  assert (w_inodes fresh_world !! O
          = Some (mkInode disk_image 1000 true true)) as H8 by reflexivity.
  assert (i_readable (mkInode disk_image 1000 true true) = true) as H9
    by reflexivity.
  assert (i_mtime (mkInode disk_image 1000 true true)
          = stored_mtime 1032
              (i_data (mkInode fresh_container 1200 true true))) as H10
    by (vm_compute; reflexivity).
  assert ((stored_size 1040 (i_data (mkInode fresh_container 1200 true true))
           ÷ 512 + 7) / 8 + 1056 + 511 <= INT_MAX) as H11
    by (vm_compute; discriminate).
  split; [exact H1|]. split; [exact H2|]. split; [exact H3|].
  split; [exact H4|]. split; [exact H5|]. split; [exact H6|].
  split; [exact H7|]. split; [exact H8|]. split; [exact H9|].
  assert ((stored_size 1040 (i_data (mkInode fresh_container 1200 true true))
           ÷ 512 + 7) / 8 + 1056
          <= Z.of_nat
               (length (i_data (mkInode fresh_container 1200 true true))))
    as H12 by (vm_compute; discriminate).
  split; [exact H10|]. split; [exact H11|]. split; [exact H12|].
  exact (bdrv_open_backed_container false 0x4f4f4f4d 2 1056 8 1024 1032 1040
           fresh_world "snap.cow"%string 0 _ O _ _ H1 H2 H3 H4 H5 H6 H7 H8 H9 H10
           H11 H12).
Defined.

(** ** Reading sector by sector *)

Lemma read_source_single bs s nb fdsel off n :
  1 <= nb -> INT64_MIN <= s -> s + nb <= INT64_MAX + 1 ->
  read_source bs s nb = (fdsel, off, n) ->
  1 <= n <= nb
  /\ (off = 0 \/ (cow_bitmap bs <> None /\ off = cow_sectors_offset bs))
  /\ forall i, s <= i < s + n -> read_source bs i 1 = (fdsel, off, 1).
Proof.
  intros Hnb Hlo Hhi. unfold read_source.
  destruct (cow_bitmap bs) as [p|] eqn:Hp.
  - destruct (is_changed_present (cow_bitmap_addr bs) p s nb Hnb Hlo Hhi)
      as (n0 & -> & Hn & Hrun & _).
    intros Hsrc.
    assert (n0 = n) as ->
      by (destruct (negb _) in Hsrc; by injection Hsrc).
    split; [done|]. split.
    { destruct (negb _) in Hsrc; injection Hsrc as <- <-; [right | left];
        done. }
    intros i Hi. unfold is_changed. simpl.
    replace i with (s + (i - s)) by lia. rewrite Hrun by lia.
    destruct (negb _) in *; by injection Hsrc as <- <-.
  - unfold is_changed. intros [= <- <- <-]. split; [lia|]. split; [by left|].
    done.
Qed.

Lemma load8_store_bytes_inside mem a data k :
  0 <= a -> a + Z.of_nat (length data) <= Z.of_nat (length mem) ->
  0 <= k < Z.of_nat (length data) ->
  Some (load8 (store_bytes mem a data) (a + k)) = data !! Z.to_nat k.
Proof.
  intros Ha Hin Hk. unfold load8, store_bytes.
  assert ((a + k <? 0) = false) as -> by lia.
  assert ((a <? 0) = false) as -> by lia.
  rewrite list_lookup_inserts by lia.
  replace (Z.to_nat (a + k) - Z.to_nat a)%nat with (Z.to_nat k) by lia.
  destruct (lookup_lt_is_Some_2 data (Z.to_nat k)) as [x ->]; [lia | done].
Qed.

Lemma lookup_pread data pos len k :
  0 <= pos -> 0 <= k < len ->
  pread data pos len !! Z.to_nat k = data !! Z.to_nat (pos + k).
Proof.
  intros Hpos Hk. unfold pread.
  rewrite lookup_take_lt, lookup_drop by lia. f_equal. lia.
Qed.

Lemma sector_byte_reads_only bs w w' i j :
  reads_only w w' -> sector_byte bs w' i j = sector_byte bs w i j.
Proof.
  intros Hro. unfold sector_byte.
  by rewrite !(reads_only_file_of _ _ _ Hro).
Qed.

(** The source of a request for one sector is the one its bit selects. *)
Lemma read_source_one bs i :
  read_source bs i 1
  = if in_overlay bs i then (cow_fd bs, cow_sectors_offset bs, 1)
    else (fd bs, 0, 1).
Proof.
  unfold read_source, in_overlay, is_changed.
  destruct (cow_bitmap bs) as [p|]; simpl; [|done].
  by destruct (is_bit_set (cow_bitmap_addr bs) p i =? 0).
Qed.

Lemma offsets_fit_shrink off off' a n n' :
  offsets_fit off a n -> 0 <= off' <= off -> 0 <= n' <= n ->
  offsets_fit off' a n' /\ offsets_fit off' (a + n') (n - n').
Proof. unfold offsets_fit. intros ? ? ?. split; lia. Qed.

Lemma bdrv_read_loop_sectors bs fuel :
  forall w s mem buf nb,
    (Z.to_nat nb <= fuel)%nat ->
    request_fits mem buf nb ->
    offsets_fit 0 s nb ->
    (cow_bitmap bs <> None -> offsets_fit (cow_sectors_offset bs) s nb) ->
    (forall i j, s <= i < s + nb -> 0 <= j < 512 ->
       is_Some (sector_byte bs w i j)) ->
    exists mem' w',
      bdrv_read_loop fuel bs w s mem buf nb = Some (0, mem', w')
      /\ forall i j, s <= i < s + nb -> 0 <= j < 512 ->
           Some (load8 mem' (buf + (i - s) * 512 + j)) = sector_byte bs w i j.
Proof.
  induction fuel as [|fuel IH]; intros w s mem buf nb Hfuel Hreq Hfit Hfitc Hsrc.
  { rewrite bdrv_read_loop_done by lia. exists mem, w. split; [done|].
    intros i j Hi. lia. }
  destruct (decide (nb <= 0)) as [Hle|Hpos].
  { rewrite bdrv_read_loop_done by lia. exists mem, w. split; [done|].
    intros i j Hi. lia. }
  pose proof Hfit as (Hs0 & _ & Hnb512 & _ & Hend).
  pose proof Hreq as (_ & Hbuf & Hmem).
  unfold INT_MAX in Hnb512. unfold INT64_MAX in Hend.
  cbn [bdrv_read_loop]. assert ((nb >? 0) = true) as -> by lia.
  destruct (read_source bs s nb) as [[fdsel off] n] eqn:Hrs.
  destruct (read_source_single bs s nb fdsel off n) as (Hn & Hoff & Hsingle);
    [lia | unfold INT64_MIN; lia | unfold INT64_MAX; lia | done |].
  assert (offsets_fit off s n /\ offsets_fit 0 (s + n) (nb - n)
          /\ (cow_bitmap bs <> None ->
              offsets_fit (cow_sectors_offset bs) (s + n) (nb - n)))
    as (Hof & Hfit' & Hfitc').
  { split; [|split].
    - destruct Hoff as [-> | [Hsome ->]].
      + apply (offsets_fit_shrink 0 0 s nb n); [done | lia | lia].
      + apply (offsets_fit_shrink (cow_sectors_offset bs)
                 (cow_sectors_offset bs) s nb n); [by apply Hfitc | | lia].
        destruct (Hfitc Hsome) as (_ & _ & _ & ? & _). lia.
    - apply (offsets_fit_shrink 0 0 s nb n); [done | lia | lia].
    - intros Hsome.
      apply (offsets_fit_shrink (cow_sectors_offset bs)
                 (cow_sectors_offset bs) s nb n); [by apply Hfitc | | lia].
      destruct (Hfitc Hsome) as (_ & _ & _ & ? & _). lia. }
  destruct (offsets_fit_values off s n Hof) as (Hpos64 & Hcnt & Hsize & Hnonneg).
  rewrite Hcnt, Hsize, Hpos64.
  assert (to_int64 (s + n) = s + n) as ->
    by (apply to_int64_fits; unfold in_int64, INT64_MIN, INT64_MAX; lia).
  assert (to_int (nb - n) = nb - n) as ->
    by (apply to_int_fits; unfold in_int, INT_MIN, INT_MAX; lia).
  assert (forall i j, s <= i < s + n ->
            sector_byte bs w i j
            = if fdsel <? 0 then Some 0
              else f ← Sys.file_of w fdsel;
                   i_data f !! Z.to_nat (off + i * 512 + j)) as Hbyte.
  { intros i j Hi. unfold sector_byte.
    pose proof (Hsingle i Hi) as Hone. rewrite read_source_one in Hone.
    destruct (in_overlay bs i); injection Hone as <- <-; done. }
  destruct (Z.ltb_spec fdsel 0) as [Hneg|Hfd].
  - assert (request_fits (memset mem buf 0 (n * 512)) (buf + n * 512) (nb - n))
      as Hreq'.
    { unfold request_fits, memset. rewrite length_store_bytes.
      unfold INT_MAX. lia. }
    destruct (IH w (s + n) (memset mem buf 0 (n * 512)) (buf + n * 512)
                (nb - n)) as (mem' & w' & Hrun & Hbytes);
      [lia | done | done | done | intros i j Hi Hj; apply Hsrc; lia |].
    exists mem', w'. split; [done|]. intros i j Hi Hj.
    destruct (decide (i < s + n)) as [Hin|Hout].
    + rewrite Hbyte by lia. f_equal.
      destruct (bdrv_read_loop_below _ _ _ _ _ _ _ _ _ _ Hreq' Hrun)
        as [_ Hkeep].
      rewrite Hkeep by lia. apply load8_memset_zero; lia.
    + rewrite <- Hbytes by lia. do 2 f_equal. lia.
  - assert (exists f, Sys.file_of w fdsel = Some f) as [f Hfile].
    { pose proof (Hsrc s 0 ltac:(lia) ltac:(lia)) as Hfirst.
      rewrite Hbyte in Hfirst by lia.
      destruct (Sys.file_of w fdsel) as [f|]; [by exists f|].
      by apply is_Some_None in Hfirst. }
    assert (off + (s + n) * 512 <= Z.of_nat (length (i_data f))) as Hlen.
    { pose proof (Hsrc (s + n - 1) 511 ltac:(lia) ltac:(lia)) as Hlast.
      rewrite Hbyte, Hfile in Hlast by lia. simpl in Hlast.
      apply lookup_lt_is_Some in Hlast. lia. }
    pose proof Hfile as Hfile0.
    apply file_of_Some in Hfile0 as (o & Hget & Hino).
    destruct (seek_read w fdsel o f (off + s * 512) (n * 512) Hget Hino Hnonneg)
      as (w2 & Hread & _).
    pose proof (lseek64_set_reads_only w fdsel (off + s * 512)) as Hro1.
    destruct (Sys.lseek64_set w fdsel (off + s * 512)) as [retl w1].
    cbn [snd] in Hread, Hro1.
    pose proof (read_reads_only w1 fdsel (n * 512)) as Hro2.
    rewrite Hread in *. cbn [snd] in Hro2.
    pose proof (reads_only_trans _ _ _ Hro1 Hro2) as Hro.
    set (data := pread (i_data f) (off + s * 512) (n * 512)) in *.
    assert (Z.of_nat (length data) = n * 512) as Hdlen
      by (apply length_pread_inside; lia).
    rewrite Hdlen, Hcnt, Z.eqb_refl. cbn [negb].
    assert (request_fits (store_bytes mem buf data) (buf + n * 512) (nb - n))
      as Hreq'.
    { unfold request_fits. rewrite length_store_bytes. unfold INT_MAX. lia. }
    destruct (IH w2 (s + n) (store_bytes mem buf data) (buf + n * 512)
                (nb - n)) as (mem' & w' & Hrun & Hbytes);
      [lia | done | done | done | |].
    { intros i j Hi Hj. rewrite (sector_byte_reads_only _ _ _ _ _ Hro).
      apply Hsrc; lia. }
    exists mem', w'. split; [done|]. intros i j Hi Hj.
    destruct (decide (i < s + n)) as [Hin|Hout].
    + rewrite Hbyte by lia. rewrite Hfile. simpl.
      destruct (bdrv_read_loop_below _ _ _ _ _ _ _ _ _ _ Hreq' Hrun)
        as [_ Hkeep].
      rewrite Hkeep by lia.
      replace (buf + (i - s) * 512 + j) with (buf + ((i - s) * 512 + j))
        by lia.
      rewrite load8_store_bytes_inside by lia.
      unfold data. rewrite lookup_pread by lia. f_equal. lia.
    + rewrite <- (sector_byte_reads_only _ _ _ _ _ Hro).
      rewrite <- Hbytes by lia. do 2 f_equal. lia.
Qed.

(** X17. Copy-on-write reads.  When every requested sector is there to be
    read (a sector whose bit is set: in the file behind [cow_fd], at
    [cow_sectors_offset + 512 * sector]; any other sector: in the file
    behind [fd], at [512 * sector], unless [fd] is -1) and the request is
    no longer than one [read] call transfers, [bdrv_read] returns 0 and has
    filled the buffer sector by sector: a sector whose bit is set with the
    bytes the overlay file holds for it, any other sector with the bytes of
    the backing file, or with zeros where there is no backing file; memory
    below the buffer is as it was. *)
Theorem bdrv_read_sectors bs w sector_num mem buf nb_sectors :
  request_fits mem buf nb_sectors ->
  offsets_fit 0 sector_num nb_sectors ->
  nb_sectors * 512 <= MAX_RW_COUNT ->
  match cow_bitmap bs with
  | Some p =>
      bitmap_covers bs p
      /\ sector_num + nb_sectors <= total_sectors bs
      /\ offsets_fit (cow_sectors_offset bs) sector_num nb_sectors
  | None => True
  end ->
  (forall i, sector_num <= i < sector_num + nb_sectors ->
     if in_overlay bs i
     then exists fc,
            Sys.file_of w (cow_fd bs) = Some fc
            /\ cow_sectors_offset bs + (i + 1) * 512
               <= Z.of_nat (length (i_data fc))
     else fd bs < 0
          \/ exists fb,
               Sys.file_of w (fd bs) = Some fb
               /\ (i + 1) * 512 <= Z.of_nat (length (i_data fb))) ->
  exists mem' w',
    bdrv_read bs w sector_num mem buf nb_sectors = Some (0, mem', w')
    /\ length mem' = length mem
    /\ (forall a, a < buf -> load8 mem' a = load8 mem a)
    /\ forall i j, sector_num <= i < sector_num + nb_sectors -> 0 <= j < 512 ->
         let b := load8 mem' (buf + (i - sector_num) * 512 + j) in
         if in_overlay bs i
         then exists fc,
                Sys.file_of w (cow_fd bs) = Some fc
                /\ i_data fc !! Z.to_nat (cow_sectors_offset bs + i * 512 + j)
                   = Some b
         else if fd bs <? 0 then b = 0
              else exists fb,
                     Sys.file_of w (fd bs) = Some fb
                     /\ i_data fb !! Z.to_nat (i * 512 + j) = Some b.
Proof.
  intros Hreq Hfit _ Hcow Hthere.
  assert (forall d f, Sys.file_of w d = Some f -> (d <? 0) = false) as Hopen.
  { intros d f Hf. apply file_of_Some in Hf as (o & Hget & _).
    destruct (get_ofile_range _ _ _ Hget). lia. }
  assert (forall i, in_overlay bs i = true -> 0 <= cow_sectors_offset bs)
    as Hoff.
  { intros i Hin. unfold in_overlay in Hin.
    destruct (cow_bitmap bs); [|done].
    by destruct Hcow as (_ & _ & _ & _ & _ & ? & _). }
  pose proof Hfit as (Hs0 & _).
  destruct (bdrv_read_loop_sectors bs (Z.to_nat nb_sectors) w sector_num mem
              buf nb_sectors) as (mem' & w' & Hrun & Hbytes);
    [lia | done | done | | |].
  { destruct (cow_bitmap bs); [by destruct Hcow as (_ & _ & ?) | done]. }
  { intros i j Hi Hj. specialize (Hthere i Hi). unfold sector_byte.
    destruct (in_overlay bs i) eqn:Hin.
    - destruct Hthere as (fc & Hfc & Hlen).
      rewrite (Hopen _ _ Hfc), Hfc. simpl.
      specialize (Hoff i Hin). apply lookup_lt_is_Some_2. lia.
    - destruct (Z.ltb_spec (fd bs) 0) as [|Hfd]; [done|].
      destruct Hthere as [|(fb & Hfb & Hlen)]; [lia|].
      rewrite Hfb. simpl. apply lookup_lt_is_Some_2. lia. }
  exists mem', w'. split; [exact Hrun|].
  destruct (bdrv_read_loop_below _ _ _ _ _ _ _ _ _ _ Hreq Hrun) as [Hlen Hkeep].
  split; [done|]. split; [done|].
  intros i j Hi Hj. specialize (Hbytes i j Hi Hj). specialize (Hthere i Hi).
  unfold sector_byte in Hbytes. simpl.
  destruct (in_overlay bs i).
  - destruct Hthere as (fc & Hfc & _). exists fc. split; [done|].
    by rewrite (Hopen _ _ Hfc), Hfc in Hbytes.
  - destruct (Z.ltb_spec (fd bs) 0) as [|Hfd]; [by injection Hbytes|].
    destruct Hthere as [|(fb & Hfb & _)]; [lia|].
    exists fb. split; [done|]. by rewrite Hfb in Hbytes.
Qed.

Lemma bdrv_read_sectors_witness :
  request_fits (replicate 1536 0) 0 3
  /\ offsets_fit 0 0 3
  /\ 3 * 512 <= MAX_RW_COUNT
  /\ match cow_bitmap fresh_handle with
     | Some p =>
         bitmap_covers fresh_handle p
         /\ 0 + 3 <= total_sectors fresh_handle
         /\ offsets_fit (cow_sectors_offset fresh_handle) 0 3
     | None => True
     end
  /\ (in_overlay fresh_handle 0 = false /\ in_overlay fresh_handle 1 = true
      /\ in_overlay fresh_handle 2 = false)
  /\ exists mem' w',
       bdrv_read fresh_handle fresh_opened 0 (replicate 1536 0) 0 3
       = Some (0, mem', w')
       /\ length mem' = length (replicate 1536 0)
       /\ (forall a, a < 0 -> load8 mem' a = load8 (replicate 1536 0) a)
       /\ forall i j, 0 <= i < 0 + 3 -> 0 <= j < 512 ->
            let b := load8 mem' (0 + (i - 0) * 512 + j) in
            if in_overlay fresh_handle i
            then exists fc,
                   Sys.file_of fresh_opened (cow_fd fresh_handle) = Some fc
                   /\ i_data fc
                        !! Z.to_nat (cow_sectors_offset fresh_handle
                                     + i * 512 + j)
                      = Some b
            else if fd fresh_handle <? 0 then b = 0
                 else exists fb,
                        Sys.file_of fresh_opened (fd fresh_handle) = Some fb
                        /\ i_data fb !! Z.to_nat (i * 512 + j) = Some b.
Proof.
  assert (request_fits (replicate 1536 0) 0 3) as H1
    by (unfold request_fits; repeat split; vm_compute; discriminate).
  assert (offsets_fit 0 0 3) as H2
    by (unfold offsets_fit; repeat split; vm_compute; discriminate).
  assert (3 * 512 <= MAX_RW_COUNT) as H3 by (vm_compute; discriminate).
  assert (match cow_bitmap fresh_handle with
          | Some p =>
              bitmap_covers fresh_handle p
              /\ 0 + 3 <= total_sectors fresh_handle
              /\ offsets_fit (cow_sectors_offset fresh_handle) 0 3
          | None => True
          end) as H4.
  { assert (cow_bitmap fresh_handle = Some 1056) as -> by (vm_compute; reflexivity).
    unfold bitmap_covers, offsets_fit. repeat split; vm_compute; discriminate. }
  assert (in_overlay fresh_handle 0 = false /\ in_overlay fresh_handle 1 = true
          /\ in_overlay fresh_handle 2 = false) as H5
    by (repeat split; vm_compute; reflexivity).
  assert (forall i, 0 <= i < 0 + 3 ->
            if in_overlay fresh_handle i
            then exists fc,
                   Sys.file_of fresh_opened (cow_fd fresh_handle) = Some fc
                   /\ cow_sectors_offset fresh_handle + (i + 1) * 512
                      <= Z.of_nat (length (i_data fc))
            else fd fresh_handle < 0
                 \/ exists fb,
                      Sys.file_of fresh_opened (fd fresh_handle) = Some fb
                      /\ (i + 1) * 512 <= Z.of_nat (length (i_data fb)))
    as H6.
  { assert (Sys.file_of fresh_opened (fd fresh_handle)
            = Some (mkInode disk_image 1000 true true)) as Hback
      by (vm_compute; reflexivity).
    assert (Sys.file_of fresh_opened (cow_fd fresh_handle)
            = Some (mkInode fresh_container 1200 true true)) as Hcow
      by (vm_compute; reflexivity).
    assert (Z.of_nat (length disk_image) = 1536) as Hlen1
      by (vm_compute; reflexivity).
    assert (Z.of_nat (length fresh_container) = 3072) as Hlen2
      by (vm_compute; reflexivity).
    assert (cow_sectors_offset fresh_handle = 1536) as Hoff
      by (vm_compute; reflexivity).
    destruct H5 as (Hb0 & Hb1 & Hb2).
    intros i Hi.
    assert (i = 0 \/ i = 1 \/ i = 2) as [-> | [-> | ->]] by lia.
    - rewrite Hb0. right. eexists. split; [exact Hback|]. cbn [i_data]. lia.
    - rewrite Hb1. eexists. split; [exact Hcow|]. cbn [i_data]. lia.
    - rewrite Hb2. right. eexists. split; [exact Hback|]. cbn [i_data]. lia. }
  split; [exact H1|]. split; [exact H2|]. split; [exact H3|].
  split; [exact H4|]. split; [exact H5|].
  exact (bdrv_read_sectors fresh_handle fresh_opened 0 (replicate 1536 0) 0 3
           H1 H2 H3 H4 H6).
Defined.

(** ** Open and close, and opening what is not there *)

Lemma open_fails w path :
  fst (Sys.open w path false) < 0 ->
  Sys.open w path true = (-1, w) /\ Sys.open w path false = (-1, w).
Proof.
  unfold Sys.open.
  destruct (Sys.lookup_name (w_names w) path) as [ino|]; [|done].
  destruct (w_inodes w !! ino) as [f|]; [|done].
  destruct (i_readable f); [|done]. simpl.
  destruct (Sys.alloc_fd (w_fds w) (mkOfile ino false 0)) as [k fds].
  simpl. lia.
Qed.

Section OpenClose.

Variable WORDS_BIGENDIAN : bool.
Variables COW_MAGIC COW_VERSION : Z.
Variable sizeof_cow_header : Z.
Variables offsetof_backing_file sizeof_backing_file : nat.
Variables offsetof_mtime offsetof_size : nat.

Local Abbreviation oc_bdrv_open :=
  (bdrv_open WORDS_BIGENDIAN COW_MAGIC COW_VERSION sizeof_cow_header
             offsetof_backing_file sizeof_backing_file
             offsetof_mtime offsetof_size).

(** X19. Open, then close: after [bdrv_close] on a handle [bdrv_open]
    returned, every descriptor is as it was before the open, the names are
    those before the open, and every file that existed then has the bytes
    it had. *)
Theorem bdrv_open_then_close path snapshot w bs w' :
  oc_bdrv_open path snapshot w = (Some bs, w') ->
  (forall d, Sys.get_ofile (bdrv_close bs w') d = Sys.get_ofile w d)
  /\ w_names (bdrv_close bs w') = w_names w
  /\ (forall i f, w_inodes w !! i = Some f ->
        w_inodes (bdrv_close bs w') !! i = Some f).
Proof.
  intros Hopen.
  pose proof (bdrv_open_opened WORDS_BIGENDIAN COW_MAGIC COW_VERSION
                sizeof_cow_header offsetof_backing_file sizeof_backing_file
                offsetof_mtime offsetof_size path snapshot w) as Hob.
  rewrite Hopen in Hob. by apply opened_by_close.
Qed.

(** X20. An image that cannot be opened even for reading (no such file, or
    no permission): [bdrv_open] returns no handle, what it prints is the
    [perror] line for the file name, and every descriptor, file and name is
    as it was. *)
Theorem bdrv_open_no_file path snapshot w bs0 :
  Sys.malloc w = Some bs0 ->
  fst (Sys.open w path false) < 0 ->
  let r :=
    bdrv_open WORDS_BIGENDIAN COW_MAGIC COW_VERSION sizeof_cow_header
              offsetof_backing_file sizeof_backing_file
              offsetof_mtime offsetof_size path snapshot w in
  fst r = None
  /\ w_stderr (snd r) = w_stderr w ++ [Perror path]
  /\ (forall d, Sys.get_ofile (snd r) d = Sys.get_ofile w d)
  /\ w_names (snd r) = w_names w
  /\ w_inodes (snd r) = w_inodes w.
Proof.
  intros Hmalloc Hfail. destruct (open_fails w path Hfail) as [Hrw Hro].
  unfold bdrv_open, open_image. rewrite Hmalloc, Hrw. simpl. rewrite Hro.
  simpl. done.
Qed.

End OpenClose.

Lemma bdrv_open_then_close_witness :
  host_bdrv_open "disk.img" 1 (disk_world true true)
  = (Some snap_handle, snap_world)
  /\ (forall d,
        Sys.get_ofile (bdrv_close snap_handle snap_world) d
        = Sys.get_ofile (disk_world true true) d)
  /\ w_names (bdrv_close snap_handle snap_world)
     = w_names (disk_world true true)
  /\ (forall i f, w_inodes (disk_world true true) !! i = Some f ->
        w_inodes (bdrv_close snap_handle snap_world) !! i = Some f).
Proof.
  assert (host_bdrv_open "disk.img" 1 (disk_world true true)
          = (Some snap_handle, snap_world)) as H1 by (vm_compute; reflexivity).
  split; [exact H1|].
  exact (bdrv_open_then_close false 0x4f4f4f4d 2 1056 8 1024 1032 1040
           "disk.img" 1 (disk_world true true) snap_handle snap_world H1).
Defined.

Lemma bdrv_open_no_file_witness :
  Sys.malloc (disk_world true true)
  = Some (mkBDS 0 0 0 None [] 0 0 0 EmptyString)
  /\ fst (Sys.open (disk_world true true) "nope.img" false) < 0
  /\ fst (host_bdrv_open "nope.img" 0 (disk_world true true)) = None
  /\ w_stderr (snd (host_bdrv_open "nope.img" 0 (disk_world true true)))
     = w_stderr (disk_world true true) ++ [Perror "nope.img"].
Proof.
  assert (Sys.malloc (disk_world true true)
          = Some (mkBDS 0 0 0 None [] 0 0 0 EmptyString)) as H1
    by reflexivity.
  assert (fst (Sys.open (disk_world true true) "nope.img" false) < 0) as H2
    by (vm_compute; reflexivity).
  split; [exact H1|]. split; [exact H2|].
  destruct (bdrv_open_no_file false 0x4f4f4f4d 2 1056 8 1024 1032 1040
              "nope.img" 0 (disk_world true true) _ H1 H2)
    as (Hnone & Herr & _).
  split; [exact Hnone | exact Herr].
Defined.
